(** * The <vaadin-clock> time model, interaction handlers and running-clock
      accumulator

    An embedding of the [Clock] class of [vaadin-clock.js], in the version
    with the [running] property, which is the one the test suite of
    [packages/clock/test] exercises.

    Conventions of the embedding.

    - A JavaScript number that holds an integer is a [Z].  Sums, products
      and remainders of integers are exact, which is what the engine
      computes up to 2^53.  Where the engine turns text into a number or a
      number into text the double shows: [parseInt] rounds what it reads to
      the nearest double ([JS.toDouble]), and [String(n)] prints the
      shortest numeral that reads back as [n], in exponent notation from
      10^21 on ([JS.toString]).  [Infinity], which [parseInt] gives for an
      integer beyond the largest double (about 1.8 * 10^308), is held as
      2^1024: the bounds check and [String] take it for [Infinity], the
      exact sums and products of the other functions do not.
    - [a % b] is [Z.rem] (the sign follows the dividend) and
      [Math.floor(a / b)] on integers with [b > 0] is [Z.div].
    - The minutes that the bounds check compares are doubles: the binary64
      numbers of the standard library's specification of IEEE 754
      ([SpecFloat]), with its multiplication, addition, division and
      comparison.
    - A pointer angle in degrees is a rational [Q]; the rounding of angles
      is not modelled.
    - A string is a [string] of 8-bit characters; [null] is [None].
    - [Date.now()] is an explicit argument [now], one reading for each call
      of a listener or observer.
    - The pointer angle that [_getAngleFromPoint] derives from the layout of
      the element is an explicit argument of the pointer handlers.
    - A method is a function from the state before to the state after;
      [preventDefault], [stopPropagation], [requestUpdate] and
      [dispatchEvent] leave the state alone and do not appear.  An
      assignment to [value] inside a method changes the property; the
      observer that the assignment schedules runs after the method has
      returned, with a clock reading of its own, and is an event of its own
      ([observe]). *)

From Stdlib Require Import ZArith QArith Qround String Ascii List Bool Lia.
From Stdlib Require Import Lqa SpecFloat.
Import ListNotations.

Local Open Scope string_scope.
Local Open Scope Z_scope.

(* ================================================================== *)
(** ** JavaScript primitives used by the component *)

Module JS.

(** Truthiness of [string | null]: [null] and the empty string are falsy. *)
Definition truthy_string (o : option string) : bool :=
  match o with
  | Some (String _ _) => true
  | _ => false
  end.

(** Truthiness of [number | null]: [null] and [0] are falsy. *)
Definition truthy_number (o : option Z) : bool :=
  match o with
  | Some n => negb (n =? 0)
  | None => false
  end.

(** [s.split(sep)] for a one-character separator: never empty, and one part
    more than there are separators. *)
Fixpoint split (sep : ascii) (s : string) : list string :=
  match s with
  | EmptyString => [EmptyString]
  | String c r =>
      if Ascii.eqb c sep then EmptyString :: split sep r
      else match split sep r with
           | p :: ps => String c p :: ps
           | [] => [String c EmptyString]
           end
  end.

Definition code (c : ascii) : Z := Z.of_N (N_of_ascii c).

Definition is_digit (c : ascii) : bool := (48 <=? code c) && (code c <=? 57).

Definition digit_val (c : ascii) : Z := code c - 48.

Definition digit_char (d : Z) : ascii := ascii_of_N (Z.to_N (48 + d)).

(** White space skipped by [parseInt]: TAB, LF, VT, FF, CR, SP and NBSP. *)
Definition is_space (c : ascii) : bool :=
  let n := code c in
  ((9 <=? n) && (n <=? 13)) || (n =? 32) || (n =? 160).

Fixpoint skip_space (s : string) : string :=
  match s with
  | String c r => if is_space c then skip_space r else s
  | EmptyString => s
  end.

(** The longest prefix of decimal digits, read left to right. *)
Fixpoint parse_digits (s : string) (acc : Z) : Z :=
  match s with
  | String c r => if is_digit c then parse_digits r (10 * acc + digit_val c) else acc
  | EmptyString => acc
  end.

(** Doubles: the binary64 numbers of IEEE 754, with 53 bits of precision
    and exponents below 1024, as the standard library specifies them.
    [ofZ] is the double nearest to an integer (half-way, the one whose last
    bit is 0); [mul], [add], [div] and [ltb] are [*], [+], [/] and [<]. *)
Definition double : Set := spec_float.

Definition ofZ (n : Z) : double := binary_normalize 53 1024 n 0 false.

Definition mul (x y : double) : double := SFmul 53 1024 x y.

Definition add (x y : double) : double := SFadd 53 1024 x y.

Definition div (x y : double) : double := SFdiv 53 1024 x y.

Definition ltb (x y : double) : bool := SFltb x y.

(** The integer that a finite double [m * 2^e] holds.  [Infinity] is held
    as 2^1024, the least integer that [ofZ] sends to [Infinity]. *)
Definition toZ (x : double) : Z :=
  match x with
  | S754_finite s m e =>
      (if s then -1 else 1)
      * (if 0 <=? e then Zpos m * 2 ^ e else Zpos m / 2 ^ (- e))
  | S754_infinity s => (if s then -1 else 1) * 2 ^ 1024
  | _ => 0
  end.

(** The Number value of an integer: the integer that the nearest double
    holds.  Up to 2^53 that is the integer itself. *)
Definition toDouble (n : Z) : Z := toZ (ofZ n).

Definition parse_unsigned (s : string) : option Z :=
  match s with
  | String c _ => if is_digit c then Some (toDouble (parse_digits s 0)) else None
  | EmptyString => None
  end.

(** [parseInt(s, 10)]: the digits are read as an integer, and the result is
    the Number value of that integer; [None] is [NaN]. *)
Definition parseInt (s : string) : option Z :=
  match skip_space s with
  | String "-" r => option_map Z.opp (parse_unsigned r)
  | String "+" r => parse_unsigned r
  | r => parse_unsigned r
  end.

(** [x || 0] for a number [x]: [NaN] and [0] both give [0]. *)
Definition or0 (x : option Z) : Z :=
  match x with
  | Some n => n
  | None => 0
  end.

(** Decimal digits of [n >= 0] in front of [acc]; [fuel] more digits may
    follow the first one. *)
Fixpoint digits_of (fuel : nat) (n : Z) (acc : string) : string :=
  let acc' := String (digit_char (n mod 10)) acc in
  match fuel with
  | O => acc'
  | S f => if n <? 10 then acc' else digits_of f (n / 10) acc'
  end.

Definition digits (n : Z) : string := digits_of (Z.to_nat (Z.log2 n)) n EmptyString.

(** The largest power of ten that is at most [x], from [unit] upwards. *)
Fixpoint top_unit (fuel : nat) (unit x : Z) : Z :=
  match fuel with
  | O => unit
  | S f => if 10 * unit <=? x then top_unit f (10 * unit) x else unit
  end.

(** The integer with the fewest significant digits that reads back as the
    double [x > 0].  With ever more digits, that is for [unit] a power of
    ten from the largest down, the multiple of [unit] just below [x] and the
    one just above are tried; where both read back as [x] the nearer one is
    taken, and of two equally near the even one. *)
Fixpoint shortest_from (fuel : nat) (unit x : Z) : Z :=
  let below := x / unit * unit in
  let above := below + unit in
  let okBelow := toDouble below =? x in
  let okAbove := toDouble above =? x in
  if okBelow && okAbove then
    if x - below <? above - x then below
    else if above - x <? x - below then above
    else if Z.even (below / unit) then below else above
  else if okBelow then below
  else if okAbove then above
  else match fuel with
       | O => x
       | S f => if unit <=? 1 then x else shortest_from f (unit / 10) x
       end.

Definition shortest (x : Z) : Z :=
  let fuel := Z.to_nat (Z.log2 x) in
  shortest_from fuel (top_unit fuel 1 x) x.

Fixpoint strip_zeros (fuel : nat) (v : Z) : Z :=
  match fuel with
  | O => v
  | S f => if (0 <? v) && (v mod 10 =? 0) then strip_zeros f (v / 10) else v
  end.

(** Exponent notation of [v >= 10^21]: the first significant digit, after a
    point the other significant digits if there are any, then [e+] and the
    number of digits that follow the first one in [v]. *)
Definition exponential (v : Z) : string :=
  let n := Z.of_nat (String.length (digits v)) in
  match digits (strip_zeros (Z.to_nat (Z.log2 v)) v) with
  | String d EmptyString => String d ("e+" ++ digits (n - 1))
  | String d rest => String d (String "." (rest ++ "e+" ++ digits (n - 1)))
  | EmptyString => EmptyString
  end.

(** [String(x)] for a double [x >= 0] that holds an integer, or for
    [Infinity].  Up to 2^53 every integer is a double, so no shorter
    numeral reads back as [x] and all its digits are printed; beyond, the
    digits are those of [shortest x], followed by zeros below 10^21 and in
    exponent notation from there on. *)
Definition numeral (x : Z) : string :=
  if x <=? 2 ^ 53 then digits x
  else if 2 ^ 1024 <=? x then "Infinity"
  else
    let v := shortest x in
    if v <? 10 ^ 21 then digits v else exponential v.

(** [String(n)] for a double [n] that holds an integer, or for [Infinity]
    or [-Infinity]. *)
Definition toString (n : Z) : string :=
  if n <? 0 then String "-" (numeral (- n)) else numeral n.

Fixpoint repeat_char (c : ascii) (k : nat) : string :=
  match k with
  | O => EmptyString
  | S k' => String c (repeat_char c k')
  end.

(** [s.padStart(target, fill)] for a one-character [fill]. *)
Definition padStart (target : nat) (fill : ascii) (s : string) : string :=
  repeat_char fill (target - String.length s) ++ s.

(** [Math.round(x)]: the nearest integer, halves towards +infinity. *)
Definition Math_round (x : Q) : Z := Qfloor (x + (1 # 2)).

End JS.

(* ================================================================== *)
(** ** Static helpers of the class *)

(** The object literal [{ hours, minutes, seconds }]. *)
Record Time := mkTime { hours : Z; minutes : Z; seconds : Z }.

(** [static parseTime(timeString)]. *)
Definition parseTime (timeString : string) : option Time :=
  if negb (JS.truthy_string (Some timeString)) then None
  else
    let parts := JS.split ":" timeString in
    if (length parts <? 2)%nat then None
    else
      Some {| hours := JS.or0 (JS.parseInt (nth 0 parts EmptyString));
              minutes := JS.or0 (JS.parseInt (nth 1 parts EmptyString));
              seconds := if (3 <=? length parts)%nat
                         then JS.or0 (JS.parseInt (nth 2 parts EmptyString))
                         else 0 |}.

(** [const pad = (n) => String(n).padStart(2, '0')]. *)
Definition pad (n : Z) : string := JS.padStart 2 "0" (JS.toString n).

(** [static formatTime(hours, minutes, seconds = 0)]; an omitted third
    argument is [None]. *)
Definition formatTime (hours minutes : Z) (seconds : option Z) : string :=
  let seconds := match seconds with Some s => s | None => 0 end in
  pad hours ++ ":" ++ pad minutes ++ ":" ++ pad seconds.

(* ================================================================== *)
(** ** The element's state *)

(** The public properties and the private fields of a [Clock] instance that
    the time model, the handlers and the accumulator read or write.  The
    animation and interval handles, the label and the ARIA properties are
    left out: none of the functions below depends on them. *)
Record Clock := mkClock {
  value : option string;
  running : bool;
  min : option string;
  max : option string;
  disabled : bool;
  readonly : bool;
  adjustable : bool;
  step : Z;
  _hours : Z;
  _minutes : Z;
  _seconds : Z;
  _draggingHand : option string;
  _focused : bool;
  _baseTimeMs : Z;
  _runStartTimestamp : option Z;
  _accumulatedMs : Z
}.

(** Property defaults and the constructor's assignments. *)
Definition initial : Clock :=
  {| value := None; running := false; min := None; max := None;
     disabled := false; readonly := false; adjustable := true; step := 60;
     _hours := 0; _minutes := 0; _seconds := 0;
     _draggingHand := None; _focused := false;
     _baseTimeMs := 0; _runStartTimestamp := None; _accumulatedMs := 0 |}.

Definition set_value (v : option string) (c : Clock) : Clock :=
  mkClock v (running c) (min c) (max c) (disabled c) (readonly c) (adjustable c)
    (step c) (_hours c) (_minutes c) (_seconds c) (_draggingHand c) (_focused c)
    (_baseTimeMs c) (_runStartTimestamp c) (_accumulatedMs c).

Definition set_running (b : bool) (c : Clock) : Clock :=
  mkClock (value c) b (min c) (max c) (disabled c) (readonly c) (adjustable c)
    (step c) (_hours c) (_minutes c) (_seconds c) (_draggingHand c) (_focused c)
    (_baseTimeMs c) (_runStartTimestamp c) (_accumulatedMs c).

Definition set_min (v : option string) (c : Clock) : Clock :=
  mkClock (value c) (running c) v (max c) (disabled c) (readonly c) (adjustable c)
    (step c) (_hours c) (_minutes c) (_seconds c) (_draggingHand c) (_focused c)
    (_baseTimeMs c) (_runStartTimestamp c) (_accumulatedMs c).

Definition set_max (v : option string) (c : Clock) : Clock :=
  mkClock (value c) (running c) (min c) v (disabled c) (readonly c) (adjustable c)
    (step c) (_hours c) (_minutes c) (_seconds c) (_draggingHand c) (_focused c)
    (_baseTimeMs c) (_runStartTimestamp c) (_accumulatedMs c).

Definition set_disabled (b : bool) (c : Clock) : Clock :=
  mkClock (value c) (running c) (min c) (max c) b (readonly c) (adjustable c)
    (step c) (_hours c) (_minutes c) (_seconds c) (_draggingHand c) (_focused c)
    (_baseTimeMs c) (_runStartTimestamp c) (_accumulatedMs c).

Definition set_readonly (b : bool) (c : Clock) : Clock :=
  mkClock (value c) (running c) (min c) (max c) (disabled c) b (adjustable c)
    (step c) (_hours c) (_minutes c) (_seconds c) (_draggingHand c) (_focused c)
    (_baseTimeMs c) (_runStartTimestamp c) (_accumulatedMs c).

Definition set_adjustable (b : bool) (c : Clock) : Clock :=
  mkClock (value c) (running c) (min c) (max c) (disabled c) (readonly c) b
    (step c) (_hours c) (_minutes c) (_seconds c) (_draggingHand c) (_focused c)
    (_baseTimeMs c) (_runStartTimestamp c) (_accumulatedMs c).

Definition set_step (n : Z) (c : Clock) : Clock :=
  mkClock (value c) (running c) (min c) (max c) (disabled c) (readonly c)
    (adjustable c) n (_hours c) (_minutes c) (_seconds c) (_draggingHand c)
    (_focused c) (_baseTimeMs c) (_runStartTimestamp c) (_accumulatedMs c).

(** [this._hours = h; this._minutes = m; this._seconds = s]. *)
Definition set_time (h m s : Z) (c : Clock) : Clock :=
  mkClock (value c) (running c) (min c) (max c) (disabled c) (readonly c)
    (adjustable c) (step c) h m s (_draggingHand c) (_focused c)
    (_baseTimeMs c) (_runStartTimestamp c) (_accumulatedMs c).

Definition set_draggingHand (h : option string) (c : Clock) : Clock :=
  mkClock (value c) (running c) (min c) (max c) (disabled c) (readonly c)
    (adjustable c) (step c) (_hours c) (_minutes c) (_seconds c) h (_focused c)
    (_baseTimeMs c) (_runStartTimestamp c) (_accumulatedMs c).

Definition set_focused (b : bool) (c : Clock) : Clock :=
  mkClock (value c) (running c) (min c) (max c) (disabled c) (readonly c)
    (adjustable c) (step c) (_hours c) (_minutes c) (_seconds c)
    (_draggingHand c) b (_baseTimeMs c) (_runStartTimestamp c) (_accumulatedMs c).

Definition set_baseTimeMs (n : Z) (c : Clock) : Clock :=
  mkClock (value c) (running c) (min c) (max c) (disabled c) (readonly c)
    (adjustable c) (step c) (_hours c) (_minutes c) (_seconds c)
    (_draggingHand c) (_focused c) n (_runStartTimestamp c) (_accumulatedMs c).

Definition set_runStartTimestamp (t : option Z) (c : Clock) : Clock :=
  mkClock (value c) (running c) (min c) (max c) (disabled c) (readonly c)
    (adjustable c) (step c) (_hours c) (_minutes c) (_seconds c)
    (_draggingHand c) (_focused c) (_baseTimeMs c) t (_accumulatedMs c).

Definition set_accumulatedMs (n : Z) (c : Clock) : Clock :=
  mkClock (value c) (running c) (min c) (max c) (disabled c) (readonly c)
    (adjustable c) (step c) (_hours c) (_minutes c) (_seconds c)
    (_draggingHand c) (_focused c) (_baseTimeMs c) (_runStartTimestamp c) n.

(* ================================================================== *)
(** ** Time model *)

(** [_parseAndSetTime(timeString)]. *)
Definition _parseAndSetTime (timeString : string) (this : Clock) : Clock :=
  if negb (JS.truthy_string (Some timeString)) then this
  else
    let parts := JS.split ":" timeString in
    if (2 <=? length parts)%nat then
      set_time (JS.or0 (JS.parseInt (nth 0 parts EmptyString)))
               (JS.or0 (JS.parseInt (nth 1 parts EmptyString)))
               (if (3 <=? length parts)%nat
                then JS.or0 (JS.parseInt (nth 2 parts EmptyString))
                else 0)
               this
    else this.

(** [time.hours * 60 + time.minutes + time.seconds / 60], in doubles. *)
Definition toMinutes (t : Time) : JS.double :=
  JS.add (JS.add (JS.mul (JS.ofZ (hours t)) (JS.ofZ 60)) (JS.ofZ (minutes t)))
         (JS.div (JS.ofZ (seconds t)) (JS.ofZ 60)).

(** [_isWithinBounds(timeString)].  Each [return false] of the source is one
    test here; a bound that is falsy or does not parse is skipped. *)
Definition _isWithinBounds (this : Clock) (timeString : string) : bool :=
  if negb (JS.truthy_string (min this)) && negb (JS.truthy_string (max this))
  then true
  else
    match parseTime timeString with
    | None => true
    | Some time =>
        let timeMinutes := toMinutes time in
        let belowMin :=
          match min this with
          | Some m =>
              if JS.truthy_string (Some m) then
                match parseTime m with
                | Some minTime => JS.ltb timeMinutes (toMinutes minTime)
                | None => false
                end
              else false
          | None => false
          end in
        if belowMin then false
        else
          let aboveMax :=
            match max this with
            | Some m =>
                if JS.truthy_string (Some m) then
                  match parseTime m with
                  | Some maxTime => JS.ltb (toMinutes maxTime) timeMinutes
                  | None => false
                  end
                else false
            | None => false
            end in
          if aboveMax then false else true
    end.

(* ================================================================== *)
(** ** Running-clock accumulator *)

Definition dayMs : Z := 24 * 60 * 60 * 1000.

(** [((totalMs % dayMs) + dayMs) % dayMs]. *)
Definition normalizedMs (totalMs : Z) : Z :=
  Z.rem (Z.rem totalMs dayMs + dayMs) dayMs.

(** [this._accumulatedMs], plus [Date.now() - this._runStartTimestamp] when
    the timestamp is truthy. *)
Definition elapsedMs (now : Z) (this : Clock) : Z :=
  if JS.truthy_number (_runStartTimestamp this)
  then _accumulatedMs this + (now - JS.or0 (_runStartTimestamp this))
  else _accumulatedMs this.

(** [_updateDisplayFromRunningTime()]. *)
Definition _updateDisplayFromRunningTime (now : Z) (this : Clock) : Clock :=
  let totalMs := _baseTimeMs this + elapsedMs now this in
  let n := normalizedMs totalMs in
  set_time (n / 3600000) (Z.rem n 3600000 / 60000) (Z.rem n 60000 / 1000) this.

(** [_startAnimation()]: the first, synchronous call of [animate]; the later
    frames are the [animate] events below. *)
Definition _startAnimation (now : Z) (this : Clock) : Clock :=
  if negb (running this) then this
  else _updateDisplayFromRunningTime now this.

(** The [animate] closure run by [requestAnimationFrame]. *)
Definition animate (now : Z) (this : Clock) : Clock :=
  if negb (running this) then this
  else _updateDisplayFromRunningTime now this.

(** [_valueChanged(newValue)], the observer of [value]. *)
Definition _valueChanged (now : Z) (newValue : option string) (this : Clock) : Clock :=
  match newValue with
  | Some v =>
      if JS.truthy_string (Some v) then
        let this := _parseAndSetTime v this in
        match parseTime v with
        | Some parsed =>
            let this :=
              set_baseTimeMs
                (hours parsed * 3600000 + minutes parsed * 60000 + seconds parsed * 1000)
                this in
            let this := set_accumulatedMs 0 this in
            if running this then set_runStartTimestamp (Some now) this else this
        | None => this
        end
      else this
  | None => this
  end.

(** [_runningChanged(newValue, oldValue)], the observer of [running]. *)
Definition _runningChanged (now : Z) (newValue oldValue : bool) (this : Clock) : Clock :=
  if newValue then
    _startAnimation now (set_runStartTimestamp (Some now) this)
  else if oldValue then
    if JS.truthy_number (_runStartTimestamp this) then
      set_runStartTimestamp None
        (set_accumulatedMs
           (_accumulatedMs this + (now - JS.or0 (_runStartTimestamp this))) this)
    else this
  else this.

(** [getValue()]. *)
Definition getValue (now : Z) (this : Clock) : option string :=
  if negb (running this) then value this
  else
    let totalMs := _baseTimeMs this + elapsedMs now this in
    let n := normalizedMs totalMs in
    let hours := n / 3600000 in
    let minutes := Z.rem n 3600000 / 60000 in
    let seconds := Z.rem n 60000 / 1000 in
    Some (formatTime hours minutes (Some seconds)).

(* ================================================================== *)
(** ** Interaction handlers *)

(** [_isInteractive()]. *)
Definition _isInteractive (this : Clock) : bool :=
  adjustable this && negb (disabled this) && negb (readonly this).

(** [_setTimeValue(hours, minutes, seconds)].  The observer of [value]
    that its assignment schedules is the event [ValueChanged] that follows
    (see [observe]). *)
Definition _setTimeValue (now : Z) (hours minutes seconds : Z) (this : Clock) : Clock :=
  let this := set_time hours minutes seconds this in
  let this := set_value (Some (formatTime hours minutes (Some seconds))) this in
  let this :=
    set_baseTimeMs (hours * 3600000 + minutes * 60000 + seconds * 1000) this in
  let this := set_accumulatedMs 0 this in
  if running this then set_runStartTimestamp (Some now) this else this.

(** The candidate time of [_adjustTimeByStep(stepSeconds)]: its statements up
    to [newSeconds]. *)
Definition steppedTime (stepSeconds : Z) (this : Clock) : Time :=
  let totalSeconds := _hours this * 3600 + _minutes this * 60 + _seconds this in
  let totalSeconds := totalSeconds + stepSeconds in
  let daySeconds := 24 * 3600 in
  let totalSeconds :=
    if totalSeconds <? 0 then totalSeconds + daySeconds
    else if daySeconds <=? totalSeconds then totalSeconds - daySeconds
    else totalSeconds in
  {| hours := totalSeconds / 3600;
     minutes := Z.rem totalSeconds 3600 / 60;
     seconds := Z.rem totalSeconds 60 |}.

(** [_adjustTimeByStep(stepSeconds)]. *)
Definition _adjustTimeByStep (now : Z) (stepSeconds : Z) (this : Clock) : Clock :=
  let t := steppedTime stepSeconds this in
  let newValue := formatTime (hours t) (minutes t) (Some (seconds t)) in
  if _isWithinBounds this newValue
  then _setTimeValue now (hours t) (minutes t) (seconds t) this
  else this.

(** [_onFocus()] and [_onBlur()]. *)
Definition _onFocus (this : Clock) : Clock := set_focused true this.
Definition _onBlur (this : Clock) : Clock := set_focused false this.

(** [_onKeyDown(e)], with [key] for [e.key]. *)
Definition _onKeyDown (now : Z) (key : string) (this : Clock) : Clock :=
  if negb (_isInteractive this) || negb (_focused this) then this
  else
    let step := if step this =? 0 then 60 else step this in
    if String.eqb key "ArrowUp" || String.eqb key "ArrowRight"
    then _adjustTimeByStep now step this
    else if String.eqb key "ArrowDown" || String.eqb key "ArrowLeft"
    then _adjustTimeByStep now (- step) this
    else this.

(** The new hours of [_toggleAmPm(toAM)]: twelve hours back or forth, with
    its two corrections. *)
Definition toggledHours (toAM : bool) (this : Clock) : Z :=
  let newHours := if toAM then _hours this - 12 else _hours this + 12 in
  let newHours := if newHours <? 0 then newHours + 24 else newHours in
  if 24 <=? newHours then newHours - 24 else newHours.

(** [_toggleAmPm(toAM)]. *)
Definition _toggleAmPm (now : Z) (toAM : bool) (this : Clock) : Clock :=
  if negb (_isInteractive this) then this
  else
    let isCurrentlyAM := _hours this <? 12 in
    if Bool.eqb toAM isCurrentlyAM then this
    else
      let newHours := toggledHours toAM this in
      let newValue := formatTime newHours (_minutes this) (Some (_seconds this)) in
      if _isWithinBounds this newValue
      then _setTimeValue now newHours (_minutes this) (_seconds this) this
      else this.

(** [Math.round(angle / d) % m]. *)
Definition angleToUnits (angle : Q) (d m : Z) : Z :=
  Z.rem (JS.Math_round (angle / inject_Z d)) m.

(** [_handleFaceClick(clientX, clientY)], on the angle of the point. *)
Definition _handleFaceClick (now : Z) (angle : Q) (this : Clock) : Clock :=
  let minutes := angleToUnits angle 6 60 in
  let newValue := formatTime (_hours this) minutes (Some 0) in
  if _isWithinBounds this newValue
  then _setTimeValue now (_hours this) minutes 0 this
  else this.

(** [_onFaceMouseDown(e)]. *)
Definition _onFaceMouseDown (now : Z) (angle : Q) (this : Clock) : Clock :=
  if negb (_isInteractive this) then this
  else _handleFaceClick now angle this.

(** [_onFaceTouchStart(e)], with the angles of [e.touches]. *)
Definition _onFaceTouchStart (now : Z) (touches : list Q) (this : Clock) : Clock :=
  if negb (_isInteractive this) then this
  else
    match touches with
    | [angle] => _handleFaceClick now angle this
    | _ => this
    end.

(** [_startDrag(hand)]. *)
Definition _startDrag (hand : string) (this : Clock) : Clock :=
  set_draggingHand (Some hand) this.

(** [_onMouseDown(e, hand)] and [_onTouchStart(e, hand)]. *)
Definition _onMouseDown (hand : string) (this : Clock) : Clock :=
  if negb (_isInteractive this) then this else _startDrag hand this.

Definition _onTouchStart (hand : string) (this : Clock) : Clock :=
  if negb (_isInteractive this) then this else _startDrag hand this.

(** The 'hour' case of [_handleDrag]: [hourValue + (isPM ? 12 : 0)], before
    its two corrections. *)
Definition draggedHoursRaw (angle : Q) (this : Clock) : Z :=
  let hourValue := angleToUnits angle 30 12 in
  let isPM := 12 <=? _hours this in
  hourValue + (if isPM then 12 else 0).

(** The 'hour' case of [_handleDrag], corrections included. *)
Definition draggedHours (angle : Q) (this : Clock) : Z :=
  let isPM := 12 <=? _hours this in
  let newHours := draggedHoursRaw angle this in
  let newHours := if newHours =? 24 then 12 else newHours in
  if (newHours =? 0) && isPM then 12 else newHours.

(** The candidate of [_handleDrag]: its [switch]. *)
Definition draggedTime (angle : Q) (this : Clock) : Time :=
  let hand := match _draggingHand this with Some h => h | None => EmptyString end in
  if String.eqb hand "hour" then
    {| hours := draggedHours angle this;
       minutes := _minutes this; seconds := _seconds this |}
  else if String.eqb hand "minute" then
    {| hours := _hours this;
       minutes := angleToUnits angle 6 60; seconds := _seconds this |}
  else if String.eqb hand "second" then
    {| hours := _hours this;
       minutes := _minutes this; seconds := angleToUnits angle 6 60 |}
  else
    {| hours := _hours this; minutes := _minutes this; seconds := _seconds this |}.

(** [_handleDrag(clientX, clientY)], on the angle of the point. *)
Definition _handleDrag (angle : Q) (this : Clock) : Clock :=
  let t := draggedTime angle this in
  let newValue := formatTime (hours t) (minutes t) (Some (seconds t)) in
  if _isWithinBounds this newValue
  then set_time (hours t) (minutes t) (seconds t) this
  else this.

(** [_onMouseMove(e)]. *)
Definition _onMouseMove (angle : Q) (this : Clock) : Clock :=
  if negb (JS.truthy_string (_draggingHand this)) then this
  else _handleDrag angle this.

(** [_onTouchMove(e)], with the angles of [e.touches]. *)
Definition _onTouchMove (touches : list Q) (this : Clock) : Clock :=
  if negb (JS.truthy_string (_draggingHand this)) then this
  else
    match touches with
    | [angle] => _handleDrag angle this
    | _ => this
    end.

(** [_endDrag()]. *)
Definition _endDrag (now : Z) (this : Clock) : Clock :=
  if JS.truthy_string (_draggingHand this) then
    let this := set_draggingHand None this in
    _setTimeValue now (_hours this) (_minutes this) (_seconds this) this
  else this.

(** [_onMouseUp()] and [_onTouchEnd()]. *)
Definition _onMouseUp (now : Z) (this : Clock) : Clock :=
  if JS.truthy_string (_draggingHand this) then _endDrag now this else this.

Definition _onTouchEnd (now : Z) (this : Clock) : Clock :=
  if JS.truthy_string (_draggingHand this) then _endDrag now this else this.

(* ================================================================== *)
(** ** Events *)

(** The events the element listens to.  Pointer events carry the angle of
    their point, touch events the angles of their touches. *)
Inductive UserEvent :=
| KeyDown (key : string)
| FaceMouseDown (angle : Q)
| FaceTouchStart (touches : list Q)
| MouseDown (hand : string)
| TouchStart (hand : string)
| MouseMove (angle : Q)
| TouchMove (touches : list Q)
| MouseUp
| TouchEnd
| AmPmClick (toAM : bool).

(** The listener registered for each event. *)
Definition handle (now : Z) (e : UserEvent) (this : Clock) : Clock :=
  match e with
  | KeyDown key => _onKeyDown now key this
  | FaceMouseDown angle => _onFaceMouseDown now angle this
  | FaceTouchStart touches => _onFaceTouchStart now touches this
  | MouseDown hand => _onMouseDown hand this
  | TouchStart hand => _onTouchStart hand this
  | MouseMove angle => _onMouseMove angle this
  | TouchMove touches => _onTouchMove touches this
  | MouseUp => _onMouseUp now this
  | TouchEnd => _onTouchEnd now this
  | AmPmClick toAM => _toggleAmPm now toAM this
  end.

(** The events that continue or end a drag: their listeners sit on the
    document and test [_draggingHand] only. *)
Definition continues_drag (e : UserEvent) : bool :=
  match e with
  | MouseMove _ | TouchMove _ | MouseUp | TouchEnd => true
  | _ => false
  end.

(** The four adjustments that test a candidate against the bounds. *)
Inductive Adjustment :=
| StepBy (stepSeconds : Z)
| DragTo (angle : Q)
| ClickFaceAt (angle : Q)
| ToggleAmPm (toAM : bool).

Definition perform (now : Z) (a : Adjustment) (this : Clock) : Clock :=
  match a with
  | StepBy stepSeconds => _adjustTimeByStep now stepSeconds this
  | DragTo angle => _handleDrag angle this
  | ClickFaceAt angle => _handleFaceClick now angle this
  | ToggleAmPm toAM => _toggleAmPm now toAM this
  end.

(** The [newValue] each adjustment hands to [_isWithinBounds]. *)
Definition candidate (a : Adjustment) (this : Clock) : string :=
  match a with
  | StepBy stepSeconds =>
      let t := steppedTime stepSeconds this in
      formatTime (hours t) (minutes t) (Some (seconds t))
  | DragTo angle =>
      let t := draggedTime angle this in
      formatTime (hours t) (minutes t) (Some (seconds t))
  | ClickFaceAt angle =>
      formatTime (_hours this) (angleToUnits angle 6 60) (Some 0)
  | ToggleAmPm toAM =>
      formatTime (toggledHours toAM this) (_minutes this) (Some (_seconds this))
  end.

(** The adjustment an event leads to, if its listener gets that far. *)
Definition adjustment_of (e : UserEvent) (this : Clock) : option Adjustment :=
  match e with
  | KeyDown key =>
      if negb (_isInteractive this) || negb (_focused this) then None
      else
        let step := if step this =? 0 then 60 else step this in
        if String.eqb key "ArrowUp" || String.eqb key "ArrowRight"
        then Some (StepBy step)
        else if String.eqb key "ArrowDown" || String.eqb key "ArrowLeft"
        then Some (StepBy (- step))
        else None
  | FaceMouseDown angle =>
      if negb (_isInteractive this) then None else Some (ClickFaceAt angle)
  | FaceTouchStart touches =>
      if negb (_isInteractive this) then None
      else match touches with
           | [angle] => Some (ClickFaceAt angle)
           | _ => None
           end
  | MouseMove angle =>
      if negb (JS.truthy_string (_draggingHand this)) then None
      else Some (DragTo angle)
  | TouchMove touches =>
      if negb (JS.truthy_string (_draggingHand this)) then None
      else match touches with
           | [angle] => Some (DragTo angle)
           | _ => None
           end
  | AmPmClick toAM => Some (ToggleAmPm toAM)
  | MouseDown _ | TouchStart _ | MouseUp | TouchEnd => None
  end.

(** A change of a property followed by the update that runs its observer, or
    an animation frame. *)
Inductive PropertyEvent :=
| ValueChanged (v : option string)
| RunningToggled
| AnimationFrame.

(** Modelled from the spec: the property system of the base mixin is outside
    these sources.  From the declarations of the properties ([observer:
    '_valueChanged'], [observer: '_runningChanged']): a change of [value]
    is followed by a call of [_valueChanged] with the new content, a change
    of [running] by a call of [_runningChanged] with the new and the old
    content.  An assignment that leaves a property as it was runs no
    observer and is no event. *)
Definition observe (now : Z) (e : PropertyEvent) (this : Clock) : Clock :=
  match e with
  | ValueChanged v => _valueChanged now v (set_value v this)
  | RunningToggled =>
      _runningChanged now (negb (running this)) (running this)
        (set_running (negb (running this)) this)
  | AnimationFrame => animate now this
  end.

(** A trace pairs each event with the clock reading at which it happens. *)
Fixpoint run (trace : list (Z * PropertyEvent)) (this : Clock) : Clock :=
  match trace with
  | [] => this
  | (now, e) :: rest => run rest (observe now e this)
  end.

(* ================================================================== *)
(** ** What the accumulator is meant to track *)



Definition toMs (t : Time) : Z :=
  hours t * 3600000 + minutes t * 60000 + seconds t * 1000.





(* ================================================================== *)
(** ** Predicates used in the statements *)

(** A time-of-day triple. *)
Definition valid_triple (h m s : Z) : Prop :=
  0 <= h <= 23 /\ 0 <= m <= 59 /\ 0 <= s <= 59.

Definition valid_time (this : Clock) : Prop :=
  valid_triple (_hours this) (_minutes this) (_seconds this).

(** The stored time, as the string the bounds check reads. *)
Definition stored (this : Clock) : string :=
  formatTime (_hours this) (_minutes this) (Some (_seconds this)).

(** Every angle an event carries is one [_getAngleFromPoint] can return. *)
Definition angle_ok (angle : Q) : Prop := (0 <= angle /\ angle <= 360)%Q.

Definition angles_ok (e : UserEvent) : Prop :=
  match e with
  | FaceMouseDown angle | MouseMove angle => angle_ok angle
  | FaceTouchStart touches | TouchMove touches => Forall angle_ok touches
  | _ => True
  end.

(** No colon in a string. *)
Fixpoint colon_free (s : string) : bool :=
  match s with
  | EmptyString => true
  | String c r => negb (Ascii.eqb c ":") && colon_free r
  end.

(** Only decimal digits in a string. *)
Fixpoint all_digits (s : string) : bool :=
  match s with
  | EmptyString => true
  | String c r => JS.is_digit c && all_digits r
  end.

(** A time in seconds after midnight, and the time a bound stands for: a
    bound that is [null], empty or does not parse stands for none. *)
Definition toSeconds (t : Time) : Z :=
  hours t * 3600 + minutes t * 60 + seconds t.

Definition bound (b : option string) : option Time :=
  match b with
  | Some str => parseTime str
  | None => None
  end.

(** A number that [String] prints in full and [parseInt] reads back: a
    double below 10^21 in size. *)
Definition printable (n : Z) : Prop := JS.toDouble n = n /\ Z.abs n < 10 ^ 21.

(** The units that [JS.shortest] goes through. *)
Definition power_of_ten (unit : Z) : Prop := exists j, 0 <= j /\ unit = 10 ^ j.


(* ================================================================== *)
(** ** Rendering and lifecycle *)

(** The angles of the three hands in [render()], in degrees. *)
Definition hourAngle (this : Clock) : Q :=
  (inject_Z (Z.rem (_hours this) 12) * inject_Z 30
   + inject_Z (_minutes this) * (1 # 2)
   + inject_Z (_seconds this) * ((1 # 2) / inject_Z 60))%Q.

Definition minuteAngle (this : Clock) : Q :=
  (inject_Z (_minutes this) * inject_Z 6 + inject_Z (_seconds this) * (1 # 10))%Q.

Definition secondAngle (this : Clock) : Q :=
  (inject_Z (_seconds this) * inject_Z 6)%Q.

(** [const isAM = this._hours < 12] of [_renderAmPmIndicators]: the sun is
    the active icon when it holds, the moon otherwise. *)
Definition isAM (this : Clock) : bool := _hours this <? 12.

(** [connectedCallback()], with [wall] for the local time that [new Date()]
    reads.  The listeners it registers are the [UserEvent]s above. *)
Definition connectedCallback (now : Z) (wall : Time) (this : Clock) : Clock :=
  let this :=
    match value this with
    | Some v =>
        if JS.truthy_string (Some v) then _parseAndSetTime v this
        else set_time (hours wall) (minutes wall) (seconds wall) this
    | None => set_time (hours wall) (minutes wall) (seconds wall) this
    end in
  if running this then _startAnimation now this else this.

(** Everything that happens to an element: an event of the user, a change
    of [value] or [running] or an animation frame, an assignment to one of
    the properties without observer, focus and blur, and its connection to
    the document. *)
Inductive Event :=
| User (e : UserEvent)
| Property (e : PropertyEvent)
| Connected (wall : Time)
| Focus
| Blur
| SetMin (v : option string)
| SetMax (v : option string)
| SetDisabled (b : bool)
| SetReadonly (b : bool)
| SetAdjustable (b : bool)
| SetStep (n : Z).

Definition dispatch (now : Z) (ev : Event) (this : Clock) : Clock :=
  match ev with
  | User e => handle now e this
  | Property e => observe now e this
  | Connected wall => connectedCallback now wall this
  | Focus => _onFocus this
  | Blur => _onBlur this
  | SetMin v => set_min v this
  | SetMax v => set_max v this
  | SetDisabled b => set_disabled b this
  | SetReadonly b => set_readonly b this
  | SetAdjustable b => set_adjustable b this
  | SetStep n => set_step n this
  end.

Fixpoint play (trace : list (Z * Event)) (this : Clock) : Clock :=
  match trace with
  | [] => this
  | (now, ev) :: rest => play rest (dispatch now ev this)
  end.

(** The run timestamp is there exactly while the clock runs. *)
Definition timestamp_kept (this : Clock) : Prop :=
  if running this
  then exists start, _runStartTimestamp this = Some start /\ start <> 0
  else _runStartTimestamp this = None.

(** An event whose numbers are in range: angles of the dial, a wall time
    and a value that are times of day, a step of at most one day. *)
Definition in_range (ev : Event) : Prop :=
  match ev with
  | User e => angles_ok e
  | Property (ValueChanged (Some str)) =>
      forall t, parseTime str = Some t ->
                valid_triple (hours t) (minutes t) (seconds t)
  | Connected wall => valid_triple (hours wall) (minutes wall) (seconds wall)
  | SetStep n => -86400 <= n <= 86400
  | _ => True
  end.

(** The adjustment gets as far as its bounds check.  [_toggleAmPm] returns
    before the check on an element that is not interactive or is already in
    the half of the day asked for; the other three adjustments have no test
    of their own in front of it. *)
Definition reaches_check (a : Adjustment) (this : Clock) : Prop :=
  match a with
  | ToggleAmPm toAM => _isInteractive this = true /\ isAM this <> toAM
  | _ => True
  end.

(* ================================================================== *)
(** ** The minutes of the times of day, in order *)

(** Not part of the class: the means to run through the 86400 times of day
    and see that their minutes, as [toMinutes] computes them, are doubles
    that go up from each second to the next. *)

(** The two summands of [toMinutes]: [hours * 60 + minutes] and
    [seconds / 60]. *)
Definition wholeMinutes (h m : Z) : JS.double :=
  JS.add (JS.mul (JS.ofZ h) (JS.ofZ 60)) (JS.ofZ m).

Definition fraction (s : Z) : JS.double := JS.div (JS.ofZ s) (JS.ofZ 60).

(** [seconds / 60] for the seconds from 0 to 59. *)
Definition fractions : list JS.double :=
  map (fun s => fraction (Z.of_nat s)) (seq 0 60).

(** Zero and the positive doubles of the size that minutes have, and a key
    in the order that [JS.ltb] compares them in: exponent first, then
    mantissa. *)
Definition regular (x : JS.double) : bool :=
  match x with
  | S754_zero false => true
  | S754_finite false m e => (Zpos m <? 2 ^ 64) && (-2000 <=? e)
  | _ => false
  end.

Definition rank (x : JS.double) : Z :=
  match x with
  | S754_finite false m e => (e + 2001) * 2 ^ 64 + Zpos m
  | _ => 0
  end.

(** The sums of [base] and the fractions [qs] are regular and go up from
    one to the next, starting above [prev]; the result is the key of the
    last one. *)
Fixpoint row (base : JS.double) (qs : list JS.double) (prev : Z) : option Z :=
  match qs with
  | [] => Some prev
  | q :: rest =>
      let x := JS.add base q in
      if regular x && (prev <? rank x) then row base rest (rank x) else None
  end.

(** The same for the [fuel] minutes of the day from minute [M] on, one row
    after the other. *)
Fixpoint rows (fuel : nat) (M : Z) (qs : list JS.double) (prev : Z) : bool :=
  match fuel with
  | O => true
  | S f =>
      match row (wholeMinutes (M / 60) (M mod 60)) qs prev with
      | Some last => rows f (M + 1) qs last
      | None => false
      end
  end.

(* ================================================================== *)
(** ** The earlier version of the class *)

(** The functions of the version of [vaadin-clock.js] without the [running]
    property, where they differ: the clock shows the wall time as long as no
    value is set.  [wall] is the local time that [new Date()] reads.  The
    fields of the running clock are not part of that version and are left
    alone.  The handle of the interval is left out: the ticks of the
    interval are calls of [_animate], which may come at any time, also
    after [_stopAnimation] ([_startAnimation] stores the handle of each
    interval it starts over the last one, and [_stopAnimation] clears the
    one that is stored).  Each method takes the wall time of its call,
    whether it reads it or not.  [_isInteractive],
    [_isWithinBounds], [_parseAndSetTime], [_handleDrag] and the static
    helpers are the same in both versions. *)
Module Legacy.

(** [_animate()]. *)
Definition _animate (wall : Time) (this : Clock) : Clock :=
  if JS.truthy_string (value this) then this
  else set_time (hours wall) (minutes wall) (seconds wall) this.

(** [_startAnimation()]: the first call of [_animate]; the later ones are
    those of the interval. *)
Definition _startAnimation (wall : Time) (this : Clock) : Clock :=
  if JS.truthy_string (value this) then this
  else _animate wall this.

(** [_valueChanged(newValue)], the observer of [value]. *)
Definition _valueChanged (wall : Time) (newValue : option string) (this : Clock) : Clock :=
  match newValue with
  | Some v =>
      if JS.truthy_string (Some v) then _parseAndSetTime v this
      else _startAnimation wall this
  | None => _startAnimation wall this
  end.

(** [_setTimeValue(hours, minutes, seconds)]. *)
Definition _setTimeValue (wall : Time) (hours minutes seconds : Z) (this : Clock) : Clock :=
  let this := set_time hours minutes seconds this in
  set_value (Some (formatTime hours minutes (Some seconds))) this.

(** [_adjustTimeByStep(stepSeconds)]. *)
Definition _adjustTimeByStep (wall : Time) (stepSeconds : Z) (this : Clock) : Clock :=
  let this :=
    if negb (JS.truthy_string (value this))
    then set_time (hours wall) (minutes wall) (seconds wall) this
    else this in
  let t := steppedTime stepSeconds this in
  let newValue := formatTime (hours t) (minutes t) (Some (seconds t)) in
  if _isWithinBounds this newValue
  then _setTimeValue wall (hours t) (minutes t) (seconds t) this
  else this.

(** [_handleFaceClick(clientX, clientY)], on the angle of the point. *)
Definition _handleFaceClick (wall : Time) (angle : Q) (this : Clock) : Clock :=
  let minutes := angleToUnits angle 6 60 in
  let this :=
    if negb (JS.truthy_string (value this))
    then set_time (hours wall) (_minutes this) (_seconds this) this
    else this in
  let newValue := formatTime (_hours this) minutes (Some 0) in
  if _isWithinBounds this newValue
  then _setTimeValue wall (_hours this) minutes 0 this
  else this.

(** [_startDrag(hand)]. *)
Definition _startDrag (wall : Time) (hand : string) (this : Clock) : Clock :=
  let this := set_draggingHand (Some hand) this in
  if negb (JS.truthy_string (value this))
  then set_time (hours wall) (minutes wall) (seconds wall) this
  else this.

(** [_endDrag()]. *)
Definition _endDrag (wall : Time) (this : Clock) : Clock :=
  if JS.truthy_string (_draggingHand this) then
    let this := set_draggingHand None this in
    set_value
      (Some (formatTime (_hours this) (_minutes this) (Some (_seconds this)))) this
  else this.

End Legacy.

(* ================================================================== *)
(** * Properties *)

(** ** The cases of the test suite *)

Example formatTime_9_5_3 : formatTime 9 5 (Some 3) = "09:05:03".
Proof. reflexivity. Qed.

Example formatTime_default_seconds : formatTime 12 30 None = "12:30:00".
Proof. reflexivity. Qed.

Example parseTime_14_30_45 :
  parseTime "14:30:45" = Some {| hours := 14; minutes := 30; seconds := 45 |}.
Proof. reflexivity. Qed.

Example parseTime_09_15 :
  parseTime "09:15" = Some {| hours := 9; minutes := 15; seconds := 0 |}.
Proof. reflexivity. Qed.

Example parseTime_empty_string : parseTime "" = None.
Proof. reflexivity. Qed.

Example parseTime_invalid : parseTime "invalid" = None.
Proof. reflexivity. Qed.

Example value_HH_mm :
  let this := observe 0 (ValueChanged (Some "14:30")) initial in
  (_hours this, _minutes this, _seconds this) = (14, 30, 0).
Proof. reflexivity. Qed.

Example ArrowUp_adds_a_minute :
  let this := _onFocus (observe 0 (ValueChanged (Some "12:00:00")) initial) in
  value (handle 1 (KeyDown "ArrowUp") this) = Some "12:01:00".
Proof. vm_compute. reflexivity. Qed.

Example ArrowDown_takes_a_minute :
  let this := _onFocus (observe 0 (ValueChanged (Some "12:00:00")) initial) in
  value (handle 1 (KeyDown "ArrowDown") this) = Some "11:59:00".
Proof. vm_compute. reflexivity. Qed.

Example not_adjustable_no_step :
  let this :=
    set_adjustable false
      (_onFocus (observe 0 (ValueChanged (Some "12:00:00")) initial)) in
  value (handle 1 (KeyDown "ArrowUp") this) = Some "12:00:00".
Proof. vm_compute. reflexivity. Qed.

Example wrap_forward :
  let this := _onFocus (observe 0 (ValueChanged (Some "23:59:00")) initial) in
  value (handle 1 (KeyDown "ArrowUp") this) = Some "00:00:00".
Proof. vm_compute. reflexivity. Qed.

Example wrap_backward :
  let this := _onFocus (observe 0 (ValueChanged (Some "00:00:00")) initial) in
  value (handle 1 (KeyDown "ArrowDown") this) = Some "23:59:00".
Proof. vm_compute. reflexivity. Qed.

Example running_sets_and_clears_the_timestamp :
  let started :=
    run [(10, ValueChanged (Some "12:00:00")); (20, RunningToggled)] initial in
  _runStartTimestamp started = Some 20 /\
  _runStartTimestamp (observe 30 RunningToggled started) = None.
Proof. vm_compute. split; reflexivity. Qed.

Example getValue_not_running :
  getValue 5 (observe 0 (ValueChanged (Some "12:30:45")) initial) = Some "12:30:45".
Proof. reflexivity. Qed.

(** ** Numbers, as the engine reads and prints them *)

Example parseInt_of_a_string :
  JS.parseInt "42px" = Some 42 /\
  JS.parseInt " -07" = Some (-7) /\
  JS.parseInt "abc" = None /\
  JS.parseInt "" = None /\
  JS.parseInt "1e+21" = Some 1 /\
  JS.parseInt "9007199254740993" = Some 9007199254740992 /\
  JS.parseInt "590295810358705700000" = Some (2 ^ 69) /\
  JS.parseInt (JS.digits (10 ^ 400)) = Some (2 ^ 1024).
Proof. vm_compute. repeat split; reflexivity. Qed.

Example String_of_a_number :
  JS.toString 7 = "7" /\
  JS.toString (-18) = "-18" /\
  JS.toString (2 ^ 53) = "9007199254740992" /\
  JS.toString (2 ^ 63) = "9223372036854776000" /\
  JS.toString (2 ^ 69) = "590295810358705700000" /\
  JS.toString (10 ^ 21 - 2 ^ 17) = "999999999999999900000" /\
  JS.toString (10 ^ 21) = "1e+21" /\
  JS.toString (10 ^ 21 + 2 ^ 17) = "1.0000000000000001e+21" /\
  JS.toString (2 ^ 70) = "1.1805916207174113e+21" /\
  JS.toString (- 2 ^ 70) = "-1.1805916207174113e+21" /\
  JS.toString ((2 ^ 53 - 1) * 2 ^ 971) = "1.7976931348623157e+308" /\
  JS.toString (2 ^ 1024) = "Infinity" /\
  JS.toString (- 2 ^ 1024) = "-Infinity".
Proof. vm_compute. repeat split; reflexivity. Qed.

Example Number_of_an_integer :
  JS.toDouble 59 = 59 /\
  JS.toDouble (- 18) = - 18 /\
  JS.toDouble (2 ^ 53) = 2 ^ 53 /\
  JS.toDouble (2 ^ 53 + 1) = 2 ^ 53 /\
  JS.toDouble (2 ^ 53 + 3) = 2 ^ 53 + 4 /\
  JS.toDouble (10 ^ 21) = 10 ^ 21 /\
  JS.toDouble (10 ^ 21 + 1) = 10 ^ 21 /\
  JS.toDouble (10 ^ 23) = 99999999999999991611392 /\
  JS.toDouble (2 ^ 1024 - 2 ^ 970 - 1) = (2 ^ 53 - 1) * 2 ^ 971 /\
  JS.toDouble (2 ^ 1024 - 2 ^ 970) = 2 ^ 1024 /\
  JS.toDouble (10 ^ 400) = 2 ^ 1024 /\
  JS.ofZ (2 ^ 1024) = S754_infinity false.
Proof. vm_compute. repeat split; reflexivity. Qed.

(** ** Decimal numerals *)

Section Numerals.

Ltac digit_cases d :=
  let H := fresh in
  assert (H : d = 0 \/ d = 1 \/ d = 2 \/ d = 3 \/ d = 4 \/
              d = 5 \/ d = 6 \/ d = 7 \/ d = 8 \/ d = 9) by lia;
  repeat (destruct H as [H | H]); subst d.

Lemma digit_char_is_digit d : 0 <= d <= 9 -> JS.is_digit (JS.digit_char d) = true.
Proof. intros Hd. digit_cases d; reflexivity. Qed.

Lemma digit_char_val d : 0 <= d <= 9 -> JS.digit_val (JS.digit_char d) = d.
Proof. intros Hd. digit_cases d; reflexivity. Qed.

Lemma digit_not_colon c : JS.is_digit c = true -> Ascii.eqb c ":" = false.
Proof.
  unfold JS.is_digit. intros H.
  destruct (Ascii.eqb_spec c ":") as [-> | _]; [discriminate H | reflexivity].
Qed.

Lemma parseInt_digit_head d r :
  0 <= d <= 9 ->
  JS.parseInt (String (JS.digit_char d) r)
  = Some (JS.toDouble (JS.parse_digits (String (JS.digit_char d) r) 0)).
Proof. intros Hd. digit_cases d; reflexivity. Qed.

Lemma mod10_range n : 0 <= n mod 10 <= 9.
Proof. pose proof (Z.mod_pos_bound n 10). lia. Qed.

(** Reading back the digits written in front of [rest]. *)
Lemma parse_digits_of fuel :
  forall n rest,
    0 <= n < 10 ^ (Z.of_nat fuel + 1) ->
    JS.parse_digits (JS.digits_of fuel n rest) 0 = JS.parse_digits rest n.
Proof.
  induction fuel as [| f IH]; intros n rest Hn.
  - change (10 ^ (Z.of_nat 0 + 1)) with 10 in Hn.
    cbn [JS.digits_of JS.parse_digits].
    rewrite digit_char_is_digit, digit_char_val by apply mod10_range.
    rewrite Z.mod_small by lia. f_equal.
  - cbn [JS.digits_of].
    destruct (Z.ltb_spec n 10) as [Hlt | Hge].
    + cbn [JS.parse_digits].
      rewrite digit_char_is_digit, digit_char_val by apply mod10_range.
      rewrite Z.mod_small by lia. f_equal.
    + rewrite IH.
      * cbn [JS.parse_digits].
        rewrite digit_char_is_digit, digit_char_val by apply mod10_range.
        f_equal. pose proof (Z.div_mod n 10). lia.
      * replace (Z.of_nat (S f) + 1) with (Z.succ (Z.of_nat f + 1)) in Hn by lia.
        rewrite Z.pow_succ_r in Hn by lia.
        split; [apply Z.div_pos; lia |].
        apply Z.div_lt_upper_bound; lia.
Qed.

Lemma digits_of_head fuel :
  forall n rest, exists d r,
    0 <= d <= 9 /\ JS.digits_of fuel n rest = String (JS.digit_char d) r.
Proof.
  induction fuel as [| f IH]; intros n rest.
  - exists (n mod 10), rest. split; [apply mod10_range | reflexivity].
  - cbn [JS.digits_of]. destruct (n <? 10).
    + exists (n mod 10), rest. split; [apply mod10_range | reflexivity].
    + apply IH.
Qed.

Lemma digits_of_all_digits fuel :
  forall n rest, all_digits (JS.digits_of fuel n rest) = all_digits rest.
Proof.
  induction fuel as [| f IH]; intros n rest; cbn [JS.digits_of].
  - cbn [all_digits]. now rewrite digit_char_is_digit by apply mod10_range.
  - destruct (n <? 10).
    + cbn [all_digits]. now rewrite digit_char_is_digit by apply mod10_range.
    + rewrite IH. cbn [all_digits].
      now rewrite digit_char_is_digit by apply mod10_range.
Qed.

Lemma enough_fuel n : 0 <= n -> n < 10 ^ (Z.of_nat (Z.to_nat (Z.log2 n)) + 1).
Proof.
  intros Hn. rewrite Z2Nat.id by apply Z.log2_nonneg.
  destruct (Z.eq_dec n 0) as [-> | Hnz]; [reflexivity |].
  pose proof (Z.log2_spec n ltac:(lia)) as [_ Hup].
  pose proof (Z.log2_nonneg n).
  assert (2 ^ Z.succ (Z.log2 n) <= 10 ^ Z.succ (Z.log2 n))
    by (apply Z.pow_le_mono_l; lia).
  unfold Z.succ in *. lia.
Qed.

Lemma digits_all_digits n : all_digits (JS.digits n) = true.
Proof. unfold JS.digits. now rewrite digits_of_all_digits. Qed.

Lemma parse_digits_digits n : 0 <= n -> JS.parse_digits (JS.digits n) 0 = n.
Proof.
  intros Hn. unfold JS.digits.
  rewrite parse_digits_of by (split; [assumption | now apply enough_fuel]).
  reflexivity.
Qed.

(** [parseInt] of a numeral is the double of its number. *)
Lemma parseInt_digits n : 0 <= n -> JS.parseInt (JS.digits n) = Some (JS.toDouble n).
Proof.
  intros Hn. pose proof (parse_digits_digits n Hn) as Hp. revert Hp.
  unfold JS.digits.
  destruct (digits_of_head (Z.to_nat (Z.log2 n)) n EmptyString)
    as (d & r & Hd & ->).
  intros Hp. rewrite parseInt_digit_head by assumption. now rewrite Hp.
Qed.

Lemma parse_unsigned_digits n :
  0 <= n -> JS.parse_unsigned (JS.digits n) = Some (JS.toDouble n).
Proof.
  intros Hn. pose proof (parse_digits_digits n Hn) as Hp. revert Hp.
  unfold JS.digits.
  destruct (digits_of_head (Z.to_nat (Z.log2 n)) n EmptyString)
    as (d & r & Hd & ->).
  intros Hp. unfold JS.parse_unsigned.
  now rewrite digit_char_is_digit, Hp.
Qed.

Lemma all_digits_colon_free s : all_digits s = true -> colon_free s = true.
Proof.
  induction s as [| c r IH]; [reflexivity |].
  cbn [all_digits colon_free]. intros H.
  apply andb_true_iff in H as [Hc Hr].
  now rewrite (digit_not_colon c Hc), IH.
Qed.

Lemma digits_nonempty n : (1 <= String.length (JS.digits n))%nat.
Proof.
  unfold JS.digits.
  destruct (digits_of_head (Z.to_nat (Z.log2 n)) n EmptyString)
    as (d & r & _ & ->).
  cbn. lia.
Qed.

(** The numbers of a time of day are doubles. *)
Lemma toDouble_below_sixty n : 0 <= n <= 59 -> JS.toDouble n = n.
Proof.
  intros Hn.
  assert (H : forallb (fun k => JS.toDouble (Z.of_nat k) =? Z.of_nat k) (seq 0 60)
              = true) by (vm_compute; reflexivity).
  rewrite forallb_forall in H. specialize (H (Z.to_nat n)).
  rewrite Z2Nat.id in H by lia. apply Z.eqb_eq, H, in_seq. lia.
Qed.

(** Rounding goes by the size, whatever the sign. *)
Lemma toDouble_opp n : JS.toDouble (- n) = - JS.toDouble n.
Proof.
  unfold JS.toDouble, JS.ofZ. destruct n as [| p | p]; [reflexivity | |];
    cbn [Z.opp binary_normalize]; unfold binary_round;
    destruct (shl_align p 0 (fexp 53 1024 (Z.pos (digits2_pos p) + 0))) as [mz ez];
    unfold binary_round_aux;
    destruct (shr_fexp 53 1024 (Z.pos mz) ez loc_Exact) as [mrs' e'];
    destruct (shr_fexp 53 1024
                (round_nearest_even (shr_m mrs') (loc_of_shr_record mrs')) e'
                loc_Exact) as [mrs'' e''];
    destruct (shr_m mrs'') as [| m | m]; try reflexivity;
    destruct (e'' <=? 1024 - 53); unfold JS.toZ; cbn [negb]; lia.
Qed.

Lemma valid_printable h m s :
  valid_triple h m s -> printable h /\ printable m /\ printable s.
Proof.
  intros (Hh & Hm & Hs).
  repeat split; try (apply toDouble_below_sixty; lia);
    change (10 ^ 21) with 1000000000000000000000; lia.
Qed.

Lemma printable_opp n : printable n -> printable (- n).
Proof.
  intros [Hd Hb]. split; [rewrite toDouble_opp; lia | lia].
Qed.

Lemma top_unit_power fuel :
  forall unit x,
    power_of_ten unit -> unit <= x ->
    power_of_ten (JS.top_unit fuel unit x) /\ JS.top_unit fuel unit x <= x.
Proof.
  induction fuel as [| f IH]; intros unit x Hp Hle; cbn [JS.top_unit]; [auto |].
  destruct (Z.leb_spec (10 * unit) x) as [Hten | _]; [| auto].
  apply IH; [| assumption].
  destruct Hp as (j & Hj & ->). exists (j + 1).
  split; [lia |]. rewrite Z.pow_add_r by lia. lia.
Qed.

(** The two candidates of one round: the one that reads back as [x] is
    positive and, like [x], below 10^21. *)
Lemma shortest_candidates unit x :
  0 < x -> power_of_ten unit -> unit <= x ->
  (JS.toDouble (x / unit * unit) = x ->
   0 < x / unit * unit /\ (x < 10 ^ 21 -> x / unit * unit < 10 ^ 21)) /\
  (JS.toDouble (x / unit * unit + unit) = x ->
   0 < x / unit * unit + unit /\
   (x < 10 ^ 21 -> x / unit * unit + unit < 10 ^ 21)).
Proof.
  intros Hx (j & Hj & Hu) Hle.
  assert (Hupos : 0 < unit) by (rewrite Hu; apply Z.pow_pos_nonneg; lia).
  pose proof (Z.div_mod x unit ltac:(lia)) as Hdm.
  pose proof (Z.mod_pos_bound x unit Hupos) as Hmod.
  assert (Hq1 : 1 <= x / unit) by (apply Z.div_le_lower_bound; lia).
  assert (Hbelow : unit <= x / unit * unit <= x) by nia.
  split; intros Hread; (split; [lia |]); intros Hsmall; [lia |].
  assert (Hj21 : j < 21).
  { apply (Z.pow_lt_mono_r_iff 10); [lia | lia |]. rewrite <- Hu. lia. }
  assert (E21 : 10 ^ 21 = 10 ^ (21 - j) * unit).
  { rewrite Hu, <- Z.pow_add_r by lia. f_equal. lia. }
  assert (Hq : x / unit < 10 ^ (21 - j)).
  { apply Z.div_lt_upper_bound; [lia |]. rewrite Z.mul_comm, <- E21. lia. }
  assert (Hle21 : x / unit * unit + unit <= 10 ^ 21) by (rewrite E21; nia).
  destruct (Z.eq_dec (x / unit * unit + unit) (10 ^ 21)) as [E | Hne]; [| lia].
  rewrite E in Hread. vm_compute in Hread. lia.
Qed.

Lemma power_of_ten_tenth unit :
  power_of_ten unit -> 1 < unit -> power_of_ten (unit / 10) /\ unit / 10 <= unit.
Proof.
  intros (j & Hj & Hu) Hbig.
  assert (Hj1 : 1 <= j).
  { destruct (Z.eq_dec j 0) as [-> | ?]; [| lia]. rewrite Hu in Hbig. cbn in Hbig. lia. }
  assert (E : unit / 10 = 10 ^ (j - 1)).
  { rewrite Hu. replace j with (j - 1 + 1) at 1 by lia.
    rewrite Z.pow_add_r by lia. change (10 ^ 1) with 10.
    now rewrite Z.div_mul by lia. }
  split; [exists (j - 1); split; [lia | exact E] |].
  apply Z.div_le_upper_bound; lia.
Qed.

(** What [shortest_from] finds reads back as [x] and, like [x], stays below
    10^21. *)
Lemma shortest_from_reads_back fuel :
  forall unit x,
    0 < x -> JS.toDouble x = x -> power_of_ten unit -> unit <= x ->
    JS.toDouble (JS.shortest_from fuel unit x) = x /\
    0 < JS.shortest_from fuel unit x /\
    (x < 10 ^ 21 -> JS.shortest_from fuel unit x < 10 ^ 21).
Proof.
  assert (Hround : forall unit x rest,
            0 < x -> JS.toDouble x = x -> power_of_ten unit -> unit <= x ->
            (JS.toDouble rest = x /\ 0 < rest /\ (x < 10 ^ 21 -> rest < 10 ^ 21)) ->
            let below := x / unit * unit in
            let above := below + unit in
            let found :=
              if (JS.toDouble below =? x) && (JS.toDouble above =? x) then
                if x - below <? above - x then below
                else if above - x <? x - below then above
                else if Z.even (below / unit) then below else above
              else if JS.toDouble below =? x then below
              else if JS.toDouble above =? x then above
              else rest in
            JS.toDouble found = x /\ 0 < found /\ (x < 10 ^ 21 -> found < 10 ^ 21)).
  { intros unit x rest Hx Hd Hp Hle Hrest. cbn zeta.
    destruct (shortest_candidates unit x Hx Hp Hle) as [Hb Ha].
    destruct (Z.eqb_spec (JS.toDouble (x / unit * unit)) x) as [Eb | _];
      destruct (Z.eqb_spec (JS.toDouble (x / unit * unit + unit)) x) as [Ea | _];
      cbn [andb];
      repeat match goal with
             | |- context [if ?a <? ?b then _ else _] => destruct (a <? b)
             | |- context [if Z.even ?a then _ else _] => destruct (Z.even a)
             end;
      try (split; [exact Eb | now apply Hb]);
      try (split; [exact Ea | now apply Ha]);
      exact Hrest. }
  induction fuel as [| f IH]; intros unit x Hx Hd Hp Hle; cbn [JS.shortest_from].
  - apply Hround; try assumption. split; [assumption | split; [lia | intros; lia]].
  - apply Hround; try assumption.
    destruct (Z.leb_spec unit 1) as [Hone | Hbig].
    + split; [assumption | split; [lia | intros; lia]].
    + destruct (power_of_ten_tenth unit Hp Hbig) as [Hp' Hle'].
      apply IH; try assumption. lia.
Qed.

Lemma shortest_reads_back x :
  0 < x -> JS.toDouble x = x ->
  JS.toDouble (JS.shortest x) = x /\ 0 < JS.shortest x /\
  (x < 10 ^ 21 -> JS.shortest x < 10 ^ 21).
Proof.
  intros Hx Hd. unfold JS.shortest.
  assert (H1 : power_of_ten 1) by (exists 0; split; [lia | reflexivity]).
  destruct (top_unit_power (Z.to_nat (Z.log2 x)) 1 x H1 ltac:(lia)) as [Hp Hle].
  now apply shortest_from_reads_back.
Qed.

(** Below 10^21, [String(x)] is the numeral of a number that reads back as
    [x]. *)
Lemma numeral_reads_back x :
  0 <= x -> JS.toDouble x = x -> x < 10 ^ 21 ->
  exists v, 0 <= v /\ JS.numeral x = JS.digits v /\ JS.toDouble v = x.
Proof.
  intros Hx Hd Hsmall. unfold JS.numeral.
  destruct (Z.leb_spec x (2 ^ 53)) as [_ | Hbig]; [now exists x |].
  assert (Hpos : 0 < x) by (change (2 ^ 53) with 9007199254740992 in Hbig; lia).
  assert (Hfar : 10 ^ 21 < 2 ^ 1024) by reflexivity.
  destruct (Z.leb_spec (2 ^ 1024) x) as [Hinf | _]; [lia |].
  destruct (shortest_reads_back x Hpos Hd) as (Hr & Hv & Hlt).
  specialize (Hlt Hsmall).
  destruct (Z.ltb_spec (JS.shortest x) (10 ^ 21)) as [_ | Hge]; [| lia].
  exists (JS.shortest x). split; [lia | split; [reflexivity | assumption]].
Qed.

(** [pad] of a natural number that prints in full: a numeral that reads
    back as the number, after one ["0"] when it has a single digit. *)
Lemma pad_nonneg n :
  0 <= n -> printable n ->
  exists v, 0 <= v /\ JS.toDouble v = n /\
            (pad n = JS.digits v \/ pad n = String "0" (JS.digits v)).
Proof.
  intros Hn [Hd Hb]. unfold pad, JS.toString.
  destruct (Z.ltb_spec n 0) as [Hneg | _]; [lia |].
  destruct (numeral_reads_back n Hn Hd ltac:(lia)) as (v & Hv & -> & Hr).
  exists v. split; [assumption |]. split; [assumption |].
  pose proof (digits_nonempty v) as Hlen. clear - Hlen.
  destruct (JS.digits v) as [| c [| d r]].
  - cbn [String.length] in Hlen. lia.
  - right. reflexivity.
  - left. reflexivity.
Qed.

Lemma pad_neg n :
  n < 0 -> printable n ->
  exists v, 0 <= v /\ JS.toDouble v = - n /\ pad n = String "-" (JS.digits v).
Proof.
  intros Hn Hp. destruct (printable_opp n Hp) as [Hd Hb].
  unfold pad, JS.toString.
  destruct (Z.ltb_spec n 0) as [_ | Hge]; [| lia].
  destruct (numeral_reads_back (- n) ltac:(lia) Hd ltac:(lia)) as (v & Hv & -> & Hr).
  exists v. split; [assumption |]. split; [assumption |].
  pose proof (digits_nonempty v) as Hlen. clear - Hlen.
  destruct (JS.digits v) as [| c r].
  - cbn [String.length] in Hlen. lia.
  - unfold JS.padStart. cbn [String.length Nat.sub JS.repeat_char String.append].
    destruct (String.length r); reflexivity.
Qed.

(** [parseInt(pad(n), 10) || 0] is [n], for a number that prints in full. *)
Lemma parseInt_pad n : printable n -> JS.or0 (JS.parseInt (pad n)) = n.
Proof.
  intros Hp. destruct (Z.lt_ge_cases n 0) as [Hneg | Hpos].
  - destruct (pad_neg n Hneg Hp) as (v & Hv & Hr & ->).
    change (JS.parseInt (String "-" (JS.digits v)))
      with (option_map Z.opp (JS.parse_unsigned (JS.digits v))).
    rewrite parse_unsigned_digits by assumption. cbn. lia.
  - destruct (pad_nonneg n Hpos Hp) as (v & Hv & Hr & [-> | ->]).
    + rewrite parseInt_digits by assumption. exact Hr.
    + change (JS.parseInt (String "0" (JS.digits v)))
        with (Some (JS.toDouble (JS.parse_digits (JS.digits v) 0))).
      rewrite parse_digits_digits by assumption. exact Hr.
Qed.

Lemma colon_free_append a b : colon_free (a ++ b) = colon_free a && colon_free b.
Proof.
  induction a as [| c a IH]; [reflexivity |].
  cbn [String.append colon_free]. now rewrite IH, andb_assoc.
Qed.

Lemma digits_colon_free n : colon_free (JS.digits n) = true.
Proof. apply all_digits_colon_free, digits_all_digits. Qed.

Lemma exponential_colon_free v : colon_free (JS.exponential v) = true.
Proof.
  unfold JS.exponential.
  pose proof (digits_colon_free (JS.strip_zeros (Z.to_nat (Z.log2 v)) v)) as Hs.
  destruct (JS.digits (JS.strip_zeros (Z.to_nat (Z.log2 v)) v)) as [| d [| d' r]];
    [reflexivity | |].
  - cbn [colon_free] in *. apply andb_true_iff in Hs as [-> _].
    rewrite colon_free_append, digits_colon_free. reflexivity.
  - cbn [colon_free] in Hs. apply andb_true_iff in Hs as [Hd Hr].
    cbn [colon_free]. rewrite Hd.
    change (String d' r ++ "e+" ++ JS.digits (Z.of_nat (String.length (JS.digits v)) - 1))
      with (String d' (r ++ "e+" ++ JS.digits (Z.of_nat (String.length (JS.digits v)) - 1))).
    cbn [colon_free] in *. apply andb_true_iff in Hr as [-> Hr].
    rewrite !colon_free_append, Hr, digits_colon_free. reflexivity.
Qed.

Lemma numeral_colon_free x : colon_free (JS.numeral x) = true.
Proof.
  unfold JS.numeral. destruct (x <=? 2 ^ 53); [apply digits_colon_free |].
  destruct (2 ^ 1024 <=? x); [reflexivity |].
  destruct (JS.shortest x <? 10 ^ 21);
    [apply digits_colon_free | apply exponential_colon_free].
Qed.

Lemma pad_colon_free n : colon_free (pad n) = true.
Proof.
  unfold pad, JS.padStart. rewrite colon_free_append.
  assert (Hrep : forall k, colon_free (JS.repeat_char "0" k) = true)
    by (induction k as [| k IH]; [reflexivity | exact IH]).
  rewrite Hrep. unfold JS.toString.
  destruct (n <? 0); cbn [colon_free andb]; apply numeral_colon_free.
Qed.

Lemma pad_all_digits n : 0 <= n -> printable n -> all_digits (pad n) = true.
Proof.
  intros Hpos Hp.
  destruct (pad_nonneg n Hpos Hp) as (v & _ & _ & [-> | ->]); cbn [all_digits];
    now rewrite digits_all_digits.
Qed.

Lemma pad_length n : (2 <= String.length (pad n))%nat.
Proof.
  unfold pad, JS.padStart.
  generalize (JS.toString n) as s. intros s.
  assert (Hlen : forall a b, String.length (a ++ b)
                             = (String.length a + String.length b)%nat).
  { induction a as [| c a IH]; intros b; cbn; [reflexivity | now rewrite IH]. }
  assert (Hrep : forall c k, String.length (JS.repeat_char c k) = k).
  { induction k as [| k IH]; cbn; [reflexivity | now rewrite IH]. }
  rewrite Hlen, Hrep. lia.
Qed.

End Numerals.

(** ** Splitting at colons, parsing and formatting *)

Section ParseFormat.

Lemma split_never_empty sep s : JS.split sep s <> [].
Proof.
  destruct s as [| c r]; cbn; [discriminate |].
  destruct (Ascii.eqb c sep); [discriminate |].
  destruct (JS.split sep r); discriminate.
Qed.

Lemma split_colon_free s : colon_free s = true -> JS.split ":" s = [s].
Proof.
  induction s as [| c r IH]; [reflexivity |].
  cbn [colon_free JS.split]. intros H.
  apply andb_true_iff in H as [Hc Hr].
  apply negb_true_iff in Hc. rewrite Hc, (IH Hr). reflexivity.
Qed.

Lemma split_append a b :
  colon_free a = true ->
  JS.split ":" (a ++ String ":" b) = a :: JS.split ":" b.
Proof.
  induction a as [| c r IH]; [reflexivity |].
  cbn [colon_free JS.split String.append]. intros H.
  apply andb_true_iff in H as [Hc Hr].
  apply negb_true_iff in Hc. rewrite Hc, (IH Hr). reflexivity.
Qed.

(** One colon in the string for each part after the first. *)
Lemma split_one_part s :
  (length (JS.split ":" s) < 2)%nat <-> colon_free s = true.
Proof.
  split.
  - induction s as [| c r IH]; [reflexivity |].
    cbn [JS.split colon_free].
    destruct (Ascii.eqb c ":") eqn:Hc.
    + pose proof (split_never_empty ":" r).
      destruct (JS.split ":" r); [contradiction | cbn; lia].
    + pose proof (split_never_empty ":" r).
      destruct (JS.split ":" r) as [| p ps] eqn:Hs; [contradiction |].
      intros Hlen. apply IH. cbn in *. lia.
  - intros H. rewrite split_colon_free by assumption. cbn. lia.
Qed.

Lemma formatTime_unfold h m s :
  formatTime h m (Some s) = pad h ++ String ":" (pad m ++ String ":" (pad s)).
Proof. reflexivity. Qed.

Lemma split_formatTime h m s :
  JS.split ":" (formatTime h m (Some s)) = [pad h; pad m; pad s].
Proof.
  rewrite formatTime_unfold.
  rewrite split_append by apply pad_colon_free.
  rewrite split_append by apply pad_colon_free.
  now rewrite split_colon_free by apply pad_colon_free.
Qed.

Lemma formatTime_nonempty h m s : exists c r, formatTime h m s = String c r.
Proof.
  unfold formatTime. pose proof (pad_length h) as Hlen.
  destruct (pad h) as [| c r]; [cbn [String.length] in Hlen; lia |].
  now exists c, (r ++ ":" ++ pad m ++ ":" ++ pad match s with Some x => x | None => 0 end)%string.
Qed.

(** Parsing what was formatted gives the numbers back, for numbers that
    print in full. *)
Lemma parseTime_formatTime h m s :
  printable h -> printable m -> printable s ->
  parseTime (formatTime h m (Some s))
  = Some {| hours := h; minutes := m; seconds := s |}.
Proof.
  intros Hh Hm Hs. unfold parseTime.
  destruct (formatTime_nonempty h m (Some s)) as (c & r & Hf).
  rewrite split_formatTime. rewrite Hf. cbn -[pad].
  now rewrite !parseInt_pad.
Qed.

Lemma parseTime_formatTime_valid h m s :
  valid_triple h m s ->
  parseTime (formatTime h m (Some s))
  = Some {| hours := h; minutes := m; seconds := s |}.
Proof.
  intros Hv. destruct (valid_printable h m s Hv) as (Hh & Hm & Hs).
  now apply parseTime_formatTime.
Qed.

(** [parseTime] answers [null] exactly on the empty string and on strings
    without a colon. *)
Lemma parseTime_None_iff str :
  parseTime str = None <-> colon_free str = true.
Proof.
  unfold parseTime. destruct str as [| c r]; [cbn; tauto |].
  cbn [JS.truthy_string negb].
  destruct (Nat.ltb_spec (length (JS.split ":" (String c r))) 2) as [Hlt | Hge].
  - split; [intros _; now apply split_one_part | reflexivity].
  - split; [discriminate |].
    intros H. apply split_one_part in H. lia.
Qed.

(** [_parseAndSetTime] and [parseTime] agree. *)
Lemma _parseAndSetTime_parseTime str this :
  _parseAndSetTime str this
  = match parseTime str with
    | Some t => set_time (hours t) (minutes t) (seconds t) this
    | None => this
    end.
Proof.
  unfold _parseAndSetTime, parseTime. destruct str as [| c r]; [reflexivity |].
  cbn [JS.truthy_string negb].
  destruct (Nat.ltb_spec (length (JS.split ":" (String c r))) 2) as [Hlt | Hge];
    destruct (Nat.leb_spec 2 (length (JS.split ":" (String c r)))) as [Hle | Hgt];
    try lia; reflexivity.
Qed.

End ParseFormat.

(** ** The bounds check *)

Section Bounds.

(** [x < x] is false for every double, [NaN] included. *)
Lemma ltb_irrefl x : JS.ltb x x = false.
Proof.
  unfold JS.ltb, SFltb. destruct x as [sx | sx | | sx m e]; cbn.
  - reflexivity.
  - now destruct sx.
  - reflexivity.
  - rewrite Z.compare_refl.
    change (Pos.compare_cont Eq m m) with (Pos.compare m m).
    rewrite Pos.compare_refl. now destruct sx.
Qed.

Lemma parseTime_empty : parseTime EmptyString = None.
Proof. reflexivity. Qed.

(** The check in one piece: a time that parses passes when its minutes are
    not below those of [min] and those of [max] not below its own; a bound
    that is [null], empty or does not parse takes no part. *)
Lemma _isWithinBounds_unfold this str :
  _isWithinBounds this str
  = match parseTime str with
    | None => true
    | Some t =>
        negb (match bound (min this) with
              | Some mn => JS.ltb (toMinutes t) (toMinutes mn)
              | None => false
              end)
        && negb (match bound (max this) with
                 | Some mx => JS.ltb (toMinutes mx) (toMinutes t)
                 | None => false
                 end)
    end.
Proof.
  unfold _isWithinBounds, bound.
  destruct (parseTime str) as [t |] eqn:Ht.
  - destruct (min this) as [[| c r] |], (max this) as [[| c' r'] |];
      cbn [JS.truthy_string negb andb]; rewrite ?parseTime_empty;
      try reflexivity;
      repeat match goal with
             | |- context [parseTime (String ?a ?b)] =>
                 destruct (parseTime (String a b))
             end;
      repeat match goal with
             | |- context [JS.ltb ?x ?y] => destruct (JS.ltb x y)
             end; reflexivity.
  - now destruct (negb (JS.truthy_string (min this))
                  && negb (JS.truthy_string (max this))).
Qed.

Lemma toMinutes_parts t :
  toMinutes t = JS.add (wholeMinutes (hours t) (minutes t)) (fraction (seconds t)).
Proof. reflexivity. Qed.

(** On regular doubles [JS.ltb] is the order of the keys. *)
Lemma ltb_rank x y :
  regular x = true -> regular y = true -> JS.ltb x y = (rank x <? rank y).
Proof.
  assert (HB : 0 < 2 ^ 64) by reflexivity.
  unfold JS.ltb, SFltb.
  destruct x as [[|] | [|] | | [|] mx ex], y as [[|] | [|] | | [|] my ey];
    cbn [regular]; try discriminate; intros Hx Hy; cbn [SFcompare rank].
  - reflexivity.
  - apply andb_true_iff in Hy as [Hm He].
    apply Z.ltb_lt in Hm. apply Z.leb_le in He.
    symmetry. apply Z.ltb_lt. nia.
  - apply andb_true_iff in Hx as [Hm He].
    apply Z.ltb_lt in Hm. apply Z.leb_le in He.
    symmetry. apply Z.ltb_ge. nia.
  - apply andb_true_iff in Hx as [Hmx Hex], Hy as [Hmy Hey].
    apply Z.ltb_lt in Hmx, Hmy.
    change (Pos.compare_cont Eq mx my) with (Pos.compare mx my).
    destruct (Z.compare_spec ex ey) as [-> | Hlt | Hgt].
    + destruct (Pos.compare_spec mx my) as [-> | Hl | Hg]; symmetry.
      * apply Z.ltb_irrefl.
      * apply Z.ltb_lt. lia.
      * apply Z.ltb_ge. lia.
    + symmetry. apply Z.ltb_lt. nia.
    + symmetry. apply Z.ltb_ge. nia.
Qed.

Lemma row_spec base :
  forall qs prev last,
    row base qs prev = Some last ->
    prev <= last /\
    forall i, (i < length qs)%nat ->
      regular (JS.add base (nth i qs S754_nan)) = true /\
      prev < rank (JS.add base (nth i qs S754_nan)) <= last /\
      forall j, (j < i)%nat ->
        rank (JS.add base (nth j qs S754_nan))
        < rank (JS.add base (nth i qs S754_nan)).
Proof.
  induction qs as [| q rest IH]; intros prev last; cbn [row].
  - intros [= <-]. split; [lia |]. intros i Hi. cbn in Hi. lia.
  - destruct (regular (JS.add base q)) eqn:Hreg; cbn [andb]; [| discriminate].
    destruct (Z.ltb_spec prev (rank (JS.add base q))) as [Hlt | _]; [| discriminate].
    intros Hrow. destruct (IH _ _ Hrow) as [Hle Hrest].
    split; [lia |]. intros [| i] Hi; cbn [nth length] in *.
    + split; [assumption |]. split; [lia |]. intros j Hj. lia.
    + destruct (Hrest i ltac:(lia)) as (Hr & Hb & Hup).
      split; [assumption |]. split; [lia |].
      intros [| j] Hj; [lia |]. apply Hup. lia.
Qed.

Lemma rows_spec qs fuel :
  forall M prev,
    rows fuel M qs prev = true ->
    forall k i, 0 <= k < Z.of_nat fuel -> (i < length qs)%nat ->
      regular (JS.add (wholeMinutes ((M + k) / 60) ((M + k) mod 60))
                 (nth i qs S754_nan)) = true /\
      prev < rank (JS.add (wholeMinutes ((M + k) / 60) ((M + k) mod 60))
                     (nth i qs S754_nan)) /\
      forall k' i',
        0 <= k' -> (i' < length qs)%nat ->
        k' < k \/ (k' = k /\ (i' < i)%nat) ->
        rank (JS.add (wholeMinutes ((M + k') / 60) ((M + k') mod 60))
                (nth i' qs S754_nan))
        < rank (JS.add (wholeMinutes ((M + k) / 60) ((M + k) mod 60))
                  (nth i qs S754_nan)).
Proof.
  induction fuel as [| f IH]; intros M prev Hrows k i Hk Hi; [cbn in Hk; lia |].
  cbn [rows] in Hrows.
  destruct (row (wholeMinutes (M / 60) (M mod 60)) qs prev) as [last |] eqn:Hrow;
    [| discriminate].
  destruct (row_spec _ _ _ _ Hrow) as [Hle Hin].
  destruct (Z.eq_dec k 0) as [-> | Hpos].
  - rewrite Z.add_0_r. destruct (Hin i Hi) as (Hr & Hb & Hup).
    split; [assumption |]. split; [lia |].
    intros k' i' Hk' Hi' [Hlt | [-> Hlt]]; [lia |].
    rewrite Z.add_0_r. now apply Hup.
  - destruct (IH (M + 1) last Hrows (k - 1) i ltac:(lia) Hi) as (Hr & Hb & Hup).
    replace (M + 1 + (k - 1)) with (M + k) in * by lia.
    split; [assumption |]. split; [lia |].
    intros k' i' Hk' Hi' Hless.
    destruct (Z.eq_dec k' 0) as [-> | Hpos'].
    + rewrite Z.add_0_r. destruct (Hin i' Hi') as (_ & Hb' & _). lia.
    + specialize (Hup (k' - 1) i' ltac:(lia) Hi' ltac:(lia)).
      now replace (M + 1 + (k' - 1)) with (M + k') in Hup by lia.
Qed.

(** The minutes of the 86400 times of day are regular doubles and go up
    from each second to the next: checked by running through the day. *)
Lemma day_in_order : rows (Z.to_nat 1440) 0 fractions (-1) = true.
Proof. vm_cast_no_check (eq_refl true). Qed.

Lemma fractions_nth s :
  0 <= s <= 59 ->
  (Z.to_nat s < length fractions)%nat /\
  nth (Z.to_nat s) fractions S754_nan = fraction s.
Proof.
  intros Hs. assert (Hlen : length fractions = 60%nat) by reflexivity.
  split; [rewrite Hlen; lia |].
  rewrite (nth_indep fractions S754_nan (fraction (Z.of_nat 0)))
    by (rewrite Hlen; lia).
  unfold fractions.
  rewrite (map_nth (fun s => fraction (Z.of_nat s))), seq_nth by lia.
  now rewrite Nat.add_0_l, Z2Nat.id by lia.
Qed.

(** For times of day, the minutes are in the order of the seconds after
    midnight. *)
Lemma toMinutes_increasing a b :
  valid_triple (hours a) (minutes a) (seconds a) ->
  valid_triple (hours b) (minutes b) (seconds b) ->
  regular (toMinutes a) = true /\
  (toSeconds a < toSeconds b -> rank (toMinutes a) < rank (toMinutes b)).
Proof.
  intros (Hha & Hma & Hsa) (Hhb & Hmb & Hsb).
  assert (Hwhole : forall h m, 0 <= h <= 23 -> 0 <= m <= 59 ->
            (0 + (h * 60 + m)) / 60 = h /\ (0 + (h * 60 + m)) mod 60 = m).
  { intros h m Hh Hm. rewrite Z.add_0_l. split.
    - symmetry. apply Z.div_unique with m; lia.
    - symmetry. apply Z.mod_unique with h; lia. }
  destruct (fractions_nth (seconds a) Hsa) as [Hia Hfa].
  destruct (fractions_nth (seconds b) Hsb) as [Hib Hfb].
  assert (Hfuel : Z.of_nat (Z.to_nat 1440) = 1440) by (apply Z2Nat.id; lia).
  pose proof (rows_spec fractions _ 0 (-1) day_in_order
                (hours b * 60 + minutes b) (Z.to_nat (seconds b))
                ltac:(rewrite Hfuel; lia) Hib) as Hb.
  pose proof (rows_spec fractions _ 0 (-1) day_in_order
                (hours a * 60 + minutes a) (Z.to_nat (seconds a))
                ltac:(rewrite Hfuel; lia) Hia) as Ha.
  destruct (Hwhole _ _ Hha Hma) as [Eha Ema].
  destruct (Hwhole _ _ Hhb Hmb) as [Ehb Emb].
  rewrite Eha, Ema, Hfa, <- toMinutes_parts in Ha.
  rewrite Ehb, Emb, Hfb, <- toMinutes_parts in Hb.
  destruct Ha as (Hra & _ & _). destruct Hb as (_ & _ & Hup).
  split; [exact Hra |]. intros Hlt.
  specialize (Hup (hours a * 60 + minutes a) (Z.to_nat (seconds a))
                ltac:(lia) Hia).
  rewrite Eha, Ema, Hfa, <- toMinutes_parts in Hup.
  apply Hup. unfold toSeconds in Hlt.
  destruct (Z.lt_ge_cases (hours a * 60 + minutes a) (hours b * 60 + minutes b));
    [now left | right]. split; lia.
Qed.

Lemma toMinutes_order a b :
  valid_triple (hours a) (minutes a) (seconds a) ->
  valid_triple (hours b) (minutes b) (seconds b) ->
  JS.ltb (toMinutes a) (toMinutes b) = (toSeconds a <? toSeconds b).
Proof.
  intros Ha Hb.
  destruct (toMinutes_increasing a b Ha Hb) as [Hra Hab].
  destruct (toMinutes_increasing b a Hb Ha) as [Hrb Hba].
  rewrite ltb_rank by assumption.
  destruct (Z.ltb_spec (toSeconds a) (toSeconds b)) as [Hlt | Hge].
  - apply Z.ltb_lt. now apply Hab.
  - apply Z.ltb_ge. destruct (Z.eq_dec (toSeconds a) (toSeconds b)) as [E | Hne].
    + assert (Eab : a = b).
      { destruct a as [ha ma sa], b as [hb mb sb]. unfold toSeconds in E.
        cbn [hours minutes seconds] in *.
        destruct Ha as (? & ? & ?), Hb as (? & ? & ?).
        assert (ha = hb) by nia. subst hb.
        assert (ma = mb) by nia. subst mb.
        assert (sa = sb) by lia. now subst sb. }
      rewrite Eab. lia.
    + assert (toSeconds b < toSeconds a) by lia.
      specialize (Hba ltac:(assumption)). lia.
Qed.

(** The stored time passes the check it was accepted by. *)
Lemma _isWithinBounds_set_time this h m s str :
  _isWithinBounds (set_time h m s this) str = _isWithinBounds this str.
Proof. reflexivity. Qed.

End Bounds.

(** ** Angles *)

Section Angles.

Lemma Math_round_range (x : Q) (n : Z) :
  (0 <= x)%Q -> (x <= inject_Z n)%Q -> 0 <= JS.Math_round x <= n.
Proof.
  intros H0 Hn. unfold JS.Math_round. split.
  - change 0 with (Qfloor 0). apply Qfloor_resp_le.
    apply Qle_trans with x; [assumption |].
    rewrite <- (Qplus_0_r x) at 1. apply Qplus_le_r. discriminate.
  - assert (Hlt : (x + (1 # 2) < inject_Z (n + 1))%Q).
    { apply Qle_lt_trans with (inject_Z n + (1 # 2))%Q.
      - apply Qplus_le_l. assumption.
      - rewrite inject_Z_plus. apply Qplus_lt_r. reflexivity. }
    pose proof (Qfloor_le (x + (1 # 2))) as Hfl.
    pose proof (Qle_lt_trans _ _ _ Hfl Hlt) as Hz.
    rewrite <- Zlt_Qlt in Hz. lia.
Qed.

(** [Math.round(angle / d) % m] for an angle of the dial, where [d]
    degrees make a unit and [m] units make the turn. *)
Lemma angleToUnits_range angle d m :
  angle_ok angle -> 0 < d -> d * m = 360 -> 0 < m ->
  0 <= angleToUnits angle d m <= m - 1.
Proof.
  intros [H0 H360] Hd Hdm Hm. unfold angleToUnits.
  assert (Hr : 0 <= JS.Math_round (angle / inject_Z d) <= m).
  { apply Math_round_range.
    - apply Qle_shift_div_l; [change (inject_Z 0 < inject_Z d)%Q; now rewrite <- Zlt_Qlt |].
      now rewrite Qmult_0_l.
    - apply Qle_shift_div_r; [change (inject_Z 0 < inject_Z d)%Q; now rewrite <- Zlt_Qlt |].
      rewrite <- inject_Z_mult, Z.mul_comm, Hdm. assumption. }
  destruct (Z.eq_dec (JS.Math_round (angle / inject_Z d)) m) as [-> | Hne].
  - rewrite Z.rem_same by lia. lia.
  - rewrite Z.rem_small by lia. lia.
Qed.

Lemma minutes_of_angle_range angle :
  angle_ok angle -> 0 <= angleToUnits angle 6 60 <= 59.
Proof. intros H. apply (angleToUnits_range angle 6 60); [assumption | lia ..]. Qed.

Lemma hours_of_angle_range angle :
  angle_ok angle -> 0 <= angleToUnits angle 30 12 <= 11.
Proof. intros H. apply (angleToUnits_range angle 30 12); [assumption | lia ..]. Qed.

End Angles.

(** ** Storing a time *)

Section Storing.

Lemma formatTime_truthy h m s : JS.truthy_string (Some (formatTime h m s)) = true.
Proof. destruct (formatTime_nonempty h m s) as (c & r & ->). reflexivity. Qed.

(** [_setTimeValue] in one piece. *)
Lemma _setTimeValue_eq now h m s this :
  _setTimeValue now h m s this
  = mkClock (Some (formatTime h m (Some s))) (running this) (min this) (max this)
      (disabled this) (readonly this) (adjustable this) (step this)
      h m s (_draggingHand this) (_focused this)
      (h * 3600000 + m * 60000 + s * 1000)
      (if running this then Some now else _runStartTimestamp this)
      0.
Proof.
  unfold _setTimeValue.
  destruct this as [v r mn mx d ro a st h0 m0 s0 dh fo b rs acc].
  cbn -[formatTime Z.mul Z.add]. now destruct r.
Qed.

Lemma _setTimeValue_stored now h m s this :
  stored (_setTimeValue now h m s this) = formatTime h m (Some s).
Proof. now rewrite _setTimeValue_eq. Qed.

Lemma _setTimeValue_bounds now h m s this str :
  _isWithinBounds (_setTimeValue now h m s this) str = _isWithinBounds this str.
Proof. now rewrite _setTimeValue_eq. Qed.

Lemma _setTimeValue_valid now h m s this :
  valid_triple h m s -> valid_time (_setTimeValue now h m s this).
Proof. intros H. now rewrite _setTimeValue_eq. Qed.

(** The observer of [value] stores what [parseTime] reads. *)
Lemma _valueChanged_time now str t this :
  parseTime str = Some t ->
  let this' := _valueChanged now (Some str) (set_value (Some str) this) in
  _hours this' = hours t /\ _minutes this' = minutes t /\ _seconds this' = seconds t.
Proof.
  intros Ht. cbn zeta. unfold _valueChanged.
  destruct str as [| c r]; [discriminate Ht |].
  cbn [JS.truthy_string]. rewrite _parseAndSetTime_parseTime, Ht.
  destruct this as [v rn mn mx d ro a st h0 m0 s0 dh fo b rs acc].
  cbn. now destruct rn.
Qed.

Lemma _valueChanged_unparsed now v this :
  bound v = None -> _valueChanged now v this = this.
Proof.
  unfold bound, _valueChanged. destruct v as [[| c r] |]; try reflexivity.
  intros Ht. cbn [JS.truthy_string].
  now rewrite _parseAndSetTime_parseTime, Ht.
Qed.

End Storing.

(** ** Keyboard steps and the half-day toggle *)

Section Stepping.

(** Within one day of the stored time, the step wraps round the day. *)
Lemma steppedTime_wraps stepSeconds this :
  valid_time this -> -86400 <= stepSeconds <= 86400 ->
  let t := steppedTime stepSeconds this in
  let total :=
    (_hours this * 3600 + _minutes this * 60 + _seconds this + stepSeconds)
      mod 86400 in
  hours t = total / 3600 /\
  minutes t = (total mod 3600) / 60 /\
  seconds t = total mod 60.
Proof.
  intros (Hh & Hm & Hs) Hstep. cbn zeta. unfold steppedTime.
  set (old := _hours this * 3600 + _minutes this * 60 + _seconds this).
  assert (Hold : 0 <= old < 86400) by (unfold old; lia).
  change (24 * 3600) with 86400.
  assert (Hwrap :
    (if old + stepSeconds <? 0 then old + stepSeconds + 86400
     else if 86400 <=? old + stepSeconds then old + stepSeconds - 86400
     else old + stepSeconds)
    = (old + stepSeconds) mod 86400).
  { destruct (Z.ltb_spec (old + stepSeconds) 0) as [Hneg | Hnn].
    - apply Z.mod_unique with (q := -1); lia.
    - destruct (Z.leb_spec 86400 (old + stepSeconds)) as [Hbig | Hsmall].
      + apply Z.mod_unique with (q := 1); lia.
      + symmetry. apply Z.mod_small. lia. }
  rewrite Hwrap.
  pose proof (Z.mod_pos_bound (old + stepSeconds) 86400 ltac:(lia)) as Hb.
  cbn [hours minutes seconds].
  rewrite !Z.rem_mod_nonneg by lia. auto.
Qed.

Lemma decompose_valid total :
  0 <= total < 86400 ->
  valid_triple (total / 3600) ((total mod 3600) / 60) (total mod 60).
Proof.
  intros Ht. unfold valid_triple.
  pose proof (Z.mod_pos_bound total 3600 ltac:(lia)).
  pose proof (Z.mod_pos_bound total 60 ltac:(lia)).
  repeat split.
  - apply Z.div_pos; lia.
  - assert (total / 3600 < 24) by (apply Z.div_lt_upper_bound; lia). lia.
  - apply Z.div_pos; lia.
  - assert (total mod 3600 / 60 < 60) by (apply Z.div_lt_upper_bound; lia). lia.
  - lia.
  - lia.
Qed.

Lemma steppedTime_valid stepSeconds this :
  valid_time this -> -86400 <= stepSeconds <= 86400 ->
  let t := steppedTime stepSeconds this in
  valid_triple (hours t) (minutes t) (seconds t).
Proof.
  intros Hv Hstep.
  pose proof (steppedTime_wraps stepSeconds this Hv Hstep) as Hw.
  cbn zeta in *. destruct Hw as (-> & -> & ->).
  apply decompose_valid. apply Z.mod_pos_bound. lia.
Qed.

Lemma toggledHours_range toAM this :
  0 <= _hours this <= 23 -> 0 <= toggledHours toAM this <= 23.
Proof.
  intros Hh. unfold toggledHours.
  destruct toAM;
    repeat match goal with
           | |- context [?a <? ?b] => destruct (Z.ltb_spec a b)
           | |- context [?a <=? ?b] => destruct (Z.leb_spec a b)
           end; lia.
Qed.

Lemma draggedHours_range angle this :
  angle_ok angle -> 0 <= draggedHours angle this <= 23.
Proof.
  intros Ha. pose proof (hours_of_angle_range angle Ha) as Hr.
  unfold draggedHours, draggedHoursRaw.
  destruct (12 <=? _hours this);
    repeat match goal with
           | |- context [?a =? ?b] => destruct (Z.eqb_spec a b)
           end; cbn [andb]; lia.
Qed.

Lemma draggedTime_valid angle this :
  valid_time this -> angle_ok angle ->
  let t := draggedTime angle this in
  valid_triple (hours t) (minutes t) (seconds t).
Proof.
  intros (Hh & Hm & Hs) Ha. cbn zeta. unfold draggedTime.
  pose proof (minutes_of_angle_range angle Ha).
  pose proof (draggedHours_range angle this Ha).
  repeat match goal with
         | |- context [String.eqb ?a ?b] => destruct (String.eqb a b)
         end; cbn [hours minutes seconds]; unfold valid_triple; lia.
Qed.

End Stepping.

(** ** The running clock *)

Section Running.

Lemma normalizedMs_mod totalMs : normalizedMs totalMs = totalMs mod dayMs.
Proof.
  unfold normalizedMs, dayMs. change (24 * 60 * 60 * 1000) with 86400000.
  pose proof (Z.rem_bound_abs totalMs 86400000) as Hb.
  assert (Hr : - 86400000 < Z.rem totalMs 86400000 < 86400000) by lia.
  rewrite Z.rem_mod_nonneg by lia.
  rewrite <- (Z.mod_add totalMs 1 86400000) by lia.
  pose proof (Z.quot_rem' totalMs 86400000) as Hq.
  rewrite Hq at 2.
  replace (86400000 * (totalMs ÷ 86400000) + Z.rem totalMs 86400000 + 1 * 86400000)
    with (Z.rem totalMs 86400000 + 86400000 + (totalMs ÷ 86400000) * 86400000)
    by lia.
  now rewrite Z.mod_add by lia.
Qed.

Lemma msToTriple_valid n :
  0 <= n < 86400000 ->
  valid_triple (n / 3600000) (Z.rem n 3600000 / 60000) (Z.rem n 60000 / 1000).
Proof.
  intros Hn. rewrite !Z.rem_mod_nonneg by lia.
  pose proof (Z.mod_pos_bound n 3600000 ltac:(lia)).
  pose proof (Z.mod_pos_bound n 60000 ltac:(lia)).
  unfold valid_triple. repeat split.
  - apply Z.div_pos; lia.
  - assert (n / 3600000 < 24) by (apply Z.div_lt_upper_bound; lia). lia.
  - apply Z.div_pos; lia.
  - assert (n mod 3600000 / 60000 < 60) by (apply Z.div_lt_upper_bound; lia). lia.
  - apply Z.div_pos; lia.
  - assert (n mod 60000 / 1000 < 60) by (apply Z.div_lt_upper_bound; lia). lia.
Qed.

Lemma normalizedMs_range totalMs : 0 <= normalizedMs totalMs < 86400000.
Proof. rewrite normalizedMs_mod. apply Z.mod_pos_bound. reflexivity. Qed.

(** The running-time update always leaves a time of day. *)
Lemma _updateDisplayFromRunningTime_valid now this :
  valid_time (_updateDisplayFromRunningTime now this).
Proof.
  unfold _updateDisplayFromRunningTime, valid_time. cbn.
  apply msToTriple_valid, normalizedMs_range.
Qed.

Lemma _valueChanged_parsed now str t this :
  parseTime str = Some t ->
  _valueChanged now (Some str) this
  = mkClock (value this) (running this) (min this) (max this)
      (disabled this) (readonly this) (adjustable this) (step this)
      (hours t) (minutes t) (seconds t) (_draggingHand this) (_focused this)
      (toMs t)
      (if running this then Some now else _runStartTimestamp this)
      0.
Proof.
  intros Ht. unfold _valueChanged.
  destruct str as [| c r]; [discriminate Ht |].
  cbn [JS.truthy_string]. rewrite _parseAndSetTime_parseTime, Ht.
  destruct this as [v rn mn mx d ro a st h0 m0 s0 dh fo b rs acc].
  cbn. now destruct rn.
Qed.





End Running.

(** ** Events and adjustments *)

Section Handlers.

Lemma handle_adjustment now e a this :
  adjustment_of e this = Some a -> handle now e this = perform now a this.
Proof.
  destruct e as [key | angle | touches | hand | hand | angle | touches | | | toAM];
    cbn [adjustment_of handle]; try discriminate.
  - unfold _onKeyDown.
    destruct (negb (_isInteractive this) || negb (_focused this)); [discriminate |].
    destruct (String.eqb key "ArrowUp" || String.eqb key "ArrowRight");
      [now intros [= <-] |].
    destruct (String.eqb key "ArrowDown" || String.eqb key "ArrowLeft");
      [now intros [= <-] | discriminate].
  - unfold _onFaceMouseDown.
    destruct (negb (_isInteractive this)); [discriminate | now intros [= <-]].
  - unfold _onFaceTouchStart.
    destruct (negb (_isInteractive this)); [discriminate |].
    destruct touches as [| angle [| ? ?]]; try discriminate. now intros [= <-].
  - unfold _onMouseMove.
    destruct (negb (JS.truthy_string (_draggingHand this)));
      [discriminate | now intros [= <-]].
  - unfold _onTouchMove.
    destruct (negb (JS.truthy_string (_draggingHand this))); [discriminate |].
    destruct touches as [| angle [| ? ?]]; try discriminate. now intros [= <-].
  - now intros [= <-].
Qed.

(** An adjustment is all or nothing: the state stays, or the candidate
    passed the check and is stored; the bounds stay in either case. *)
Lemma perform_cases now a this :
  perform now a this = this \/
  (_isWithinBounds this (candidate a this) = true /\
   stored (perform now a this) = candidate a this /\
   forall str,
     _isWithinBounds (perform now a this) str = _isWithinBounds this str).
Proof.
  destruct a as [stepSeconds | angle | angle | toAM]; cbn [perform candidate].
  - unfold _adjustTimeByStep.
    destruct (_isWithinBounds this _) eqn:Hw; [right | now left].
    split; [reflexivity |]. split.
    + apply _setTimeValue_stored.
    + intros str. apply _setTimeValue_bounds.
  - unfold _handleDrag.
    destruct (_isWithinBounds this _) eqn:Hw; [right | now left].
    repeat split; reflexivity.
  - unfold _handleFaceClick.
    destruct (_isWithinBounds this _) eqn:Hw; [right | now left].
    split; [reflexivity |]. split.
    + apply _setTimeValue_stored.
    + intros str. apply _setTimeValue_bounds.
  - unfold _toggleAmPm.
    destruct (negb (_isInteractive this)); [now left |].
    destruct (Bool.eqb toAM (_hours this <? 12)); [now left |].
    destruct (_isWithinBounds this _) eqn:Hw; [right | now left].
    split; [reflexivity |]. split.
    + apply _setTimeValue_stored.
    + intros str. apply _setTimeValue_bounds.
Qed.

(** A candidate that passes the check is stored: displayed and, except by
    a drag, written to [value]. *)
Lemma perform_accepted now a this :
  _isWithinBounds this (candidate a this) = true -> reaches_check a this ->
  stored (perform now a this) = candidate a this /\
  match a with
  | DragTo _ => value (perform now a this) = value this
  | _ => value (perform now a this) = Some (candidate a this)
  end.
Proof.
  intros Hw Hr.
  destruct a as [stepSeconds | angle | angle | toAM];
    cbn [perform candidate reaches_check] in *.
  - unfold _adjustTimeByStep. rewrite Hw, _setTimeValue_eq. split; reflexivity.
  - unfold _handleDrag. rewrite Hw. split; reflexivity.
  - unfold _handleFaceClick. rewrite Hw, _setTimeValue_eq. split; reflexivity.
  - destruct Hr as [Hi Hhalf]. unfold _toggleAmPm. rewrite Hi. cbn [negb].
    fold (isAM this).
    destruct (Bool.eqb toAM (isAM this)) eqn:E;
      [apply Bool.eqb_prop in E; congruence |].
    rewrite Hw, _setTimeValue_eq. split; reflexivity.
Qed.

Lemma perform_rejected now a this :
  _isWithinBounds this (candidate a this) = false -> perform now a this = this.
Proof.
  intros Hrej.
  destruct a as [stepSeconds | angle | angle | toAM]; cbn [perform candidate] in *.
  - unfold _adjustTimeByStep. now rewrite Hrej.
  - unfold _handleDrag. now rewrite Hrej.
  - unfold _handleFaceClick. now rewrite Hrej.
  - unfold _toggleAmPm.
    destruct (negb (_isInteractive this)); [reflexivity |].
    destruct (Bool.eqb toAM (_hours this <? 12)); [reflexivity |].
    now rewrite Hrej.
Qed.

(** An event that leads to no adjustment starts or ends a drag, or does
    nothing. *)
Lemma handle_no_adjustment now e this :
  adjustment_of e this = None ->
  handle now e this = this \/
  (exists hand, handle now e this = set_draggingHand (Some hand) this) \/
  handle now e this = _endDrag now this.
Proof.
  destruct e as [key | angle | touches | hand | hand | angle | touches | | | toAM];
    cbn [adjustment_of handle]; try discriminate.
  - unfold _onKeyDown.
    destruct (negb (_isInteractive this) || negb (_focused this)); [now left |].
    destruct (String.eqb key "ArrowUp" || String.eqb key "ArrowRight");
      [discriminate |].
    destruct (String.eqb key "ArrowDown" || String.eqb key "ArrowLeft");
      [discriminate | now left].
  - unfold _onFaceMouseDown.
    destruct (negb (_isInteractive this)); [now left | discriminate].
  - unfold _onFaceTouchStart.
    destruct (negb (_isInteractive this)); [now left |].
    destruct touches as [| angle [| ? ?]]; try discriminate; now left.
  - intros _. unfold _onMouseDown, _startDrag.
    destruct (negb (_isInteractive this)); [now left | right; left; now exists hand].
  - intros _. unfold _onTouchStart, _startDrag.
    destruct (negb (_isInteractive this)); [now left | right; left; now exists hand].
  - unfold _onMouseMove.
    destruct (negb (JS.truthy_string (_draggingHand this))); [now left | discriminate].
  - unfold _onTouchMove.
    destruct (negb (JS.truthy_string (_draggingHand this))); [now left |].
    destruct touches as [| angle [| ? ?]]; try discriminate; now left.
  - intros _. unfold _onMouseUp.
    destruct (JS.truthy_string (_draggingHand this)); [now right; right | now left].
  - intros _. unfold _onTouchEnd.
    destruct (JS.truthy_string (_draggingHand this)); [now right; right | now left].
Qed.

Lemma _endDrag_cases now this :
  _endDrag now this = this \/
  _endDrag now this
  = _setTimeValue now (_hours this) (_minutes this) (_seconds this)
      (set_draggingHand None this).
Proof.
  unfold _endDrag. destruct (JS.truthy_string (_draggingHand this)); auto.
Qed.

(** Every event keeps a stored time that is within the bounds within them. *)
Lemma handle_within_bounds now e this :
  _isWithinBounds this (stored this) = true ->
  _isWithinBounds (handle now e this) (stored (handle now e this)) = true.
Proof.
  intros Hin. destruct (adjustment_of e this) as [a |] eqn:Ha.
  - rewrite (handle_adjustment now e a this Ha).
    destruct (perform_cases now a this) as [-> | (Hw & Hs & Hb)]; [assumption |].
    now rewrite Hb, Hs.
  - destruct (handle_no_adjustment now e this Ha) as [-> | [[hand ->] | ->]];
      [assumption | exact Hin |].
    destruct (_endDrag_cases now this) as [-> | ->]; [assumption |].
    now rewrite _setTimeValue_bounds, _setTimeValue_stored.
Qed.

Lemma perform_valid now a this :
  valid_time this ->
  match a with
  | StepBy stepSeconds => -86400 <= stepSeconds <= 86400
  | DragTo angle | ClickFaceAt angle => angle_ok angle
  | ToggleAmPm _ => True
  end ->
  valid_time (perform now a this).
Proof.
  intros Hv Ha. pose proof Hv as (Hh & Hm & Hs).
  destruct a as [stepSeconds | angle | angle | toAM]; cbn [perform].
  - unfold _adjustTimeByStep. destruct (_isWithinBounds this _); [| assumption].
    apply _setTimeValue_valid. now apply steppedTime_valid.
  - unfold _handleDrag. destruct (_isWithinBounds this _); [| assumption].
    now apply draggedTime_valid.
  - unfold _handleFaceClick. destruct (_isWithinBounds this _); [| assumption].
    apply _setTimeValue_valid. pose proof (minutes_of_angle_range angle Ha).
    unfold valid_triple. lia.
  - unfold _toggleAmPm.
    destruct (negb (_isInteractive this)); [assumption |].
    destruct (Bool.eqb toAM (_hours this <? 12)); [assumption |].
    destruct (_isWithinBounds this _); [| assumption].
    apply _setTimeValue_valid. pose proof (toggledHours_range toAM this Hh).
    unfold valid_triple. lia.
Qed.

(** Every event keeps a time of day a time of day, for angles of the dial
    and a step of at most one day. *)
Lemma handle_valid now e this :
  valid_time this -> angles_ok e -> -86400 <= step this <= 86400 ->
  valid_time (handle now e this).
Proof.
  intros Hv Hang Hstep. destruct (adjustment_of e this) as [a |] eqn:Ha.
  - rewrite (handle_adjustment now e a this Ha).
    apply perform_valid; [assumption |].
    destruct e as [key | angle | touches | hand | hand | angle | touches | | | toAM];
      cbn [adjustment_of angles_ok] in *; try discriminate.
    + destruct (negb (_isInteractive this) || negb (_focused this)); [discriminate |].
      destruct (String.eqb key "ArrowUp" || String.eqb key "ArrowRight").
      * injection Ha as <-. destruct (Z.eqb_spec (step this) 0); lia.
      * destruct (String.eqb key "ArrowDown" || String.eqb key "ArrowLeft");
          [| discriminate].
        injection Ha as <-. destruct (Z.eqb_spec (step this) 0); lia.
    + destruct (negb (_isInteractive this)); [discriminate |].
      now injection Ha as <-.
    + destruct (negb (_isInteractive this)); [discriminate |].
      destruct touches as [| angle [| ? ?]]; try discriminate.
      injection Ha as <-. now inversion Hang.
    + destruct (negb (JS.truthy_string (_draggingHand this))); [discriminate |].
      now injection Ha as <-.
    + destruct (negb (JS.truthy_string (_draggingHand this))); [discriminate |].
      destruct touches as [| angle [| ? ?]]; try discriminate.
      injection Ha as <-. now inversion Hang.
    + now injection Ha as <-.
  - destruct (handle_no_adjustment now e this Ha) as [-> | [[hand ->] | ->]];
      [assumption | exact Hv |].
    destruct (_endDrag_cases now this) as [-> | ->]; [assumption |].
    now apply _setTimeValue_valid.
Qed.

End Handlers.

(* ================================================================== *)
(** * The running-clock accumulator *)




(* ================================================================== *)
(** * Adjustments against the bounds *)

(** C2.  An adjustment whose candidate fails the bounds check changes
    nothing: a keyboard step, a drag, a click on the face or a change of
    half-day returns the state it was given, whole, and so does the event
    that led to it.  The handlers are total functions; none has an
    exceptional result. *)
Theorem out_of_bounds_adjustment_rejected (now : Z) (a : Adjustment) (this : Clock) :
  _isWithinBounds this (candidate a this) = false ->
  perform now a this = this /\
  forall e, adjustment_of e this = Some a -> handle now e this = this.
Proof.
  intros Hrej. split; [now apply perform_rejected |].
  intros e He. rewrite (handle_adjustment now e a this He).
  now apply perform_rejected.
Qed.

Lemma out_of_bounds_adjustment_rejected_witness :
  let this :=
    _onFocus (set_max (Some "12:00:30")
                (observe 0 (ValueChanged (Some "12:00:00")) initial)) in
  _isWithinBounds this (candidate (StepBy 60) this) = false /\
  handle 1 (KeyDown "ArrowUp") this = this.
Proof.
  cbn zeta. split; [vm_compute; reflexivity |].
  refine (proj2 (out_of_bounds_adjustment_rejected 1 (StepBy 60) _ _) _ _);
    vm_compute; reflexivity.
Defined.

(** C3, at an input where the code leaves the claim.  With [step] at 150000
    seconds and the clock at 12:00:00, ArrowUp stores 29:40:00: one day is
    taken off 193200 seconds, not the two that the wrap round the day
    needs, which is 05:40:00.  With the clock at 00:00:00, ArrowDown stores
    -18:-40:00. *)
Theorem step_beyond_a_day_not_wrapped :
  let noon :=
    set_step 150000 (_onFocus (observe 0 (ValueChanged (Some "12:00:00")) initial)) in
  let midnight :=
    set_step 150000 (_onFocus (observe 0 (ValueChanged (Some "00:00:00")) initial)) in
  steppedTime 150000 noon = {| hours := 29; minutes := 40; seconds := 0 |} /\
  (12 * 3600 + 150000) mod 86400 = 5 * 3600 + 40 * 60 + 0 /\
  value (handle 1 (KeyDown "ArrowUp") noon) = Some "29:40:00" /\
  _hours (handle 1 (KeyDown "ArrowUp") noon) = 29 /\
  steppedTime (-150000) midnight = {| hours := -18; minutes := -40; seconds := 0 |} /\
  value (handle 1 (KeyDown "ArrowDown") midnight) = Some "-18:-40:00".
Proof. vm_compute. repeat split; reflexivity. Qed.

(* ================================================================== *)
(** * The time of day *)




(* ================================================================== *)
(** * Malformed time strings *)

(** C5.  On the empty string and on a string with fewer than two parts
    between colons, [parseTime] answers [null] and [_parseAndSetTime]
    leaves the state as it was.  Both are total functions of the string:
    [split] and [parseInt] have a result on every string and nothing
    throws. *)
Theorem malformed_time_ignored (str : string) (this : Clock) :
  str = EmptyString \/ (length (JS.split ":" str) < 2)%nat ->
  parseTime str = None /\
  _parseAndSetTime str this = this /\
  _hours (_parseAndSetTime str this) = _hours this /\
  _minutes (_parseAndSetTime str this) = _minutes this /\
  _seconds (_parseAndSetTime str this) = _seconds this.
Proof.
  intros Hbad.
  assert (Hnone : parseTime str = None).
  { destruct Hbad as [-> | Hlen]; [reflexivity |].
    apply parseTime_None_iff. now apply split_one_part. }
  assert (Hsame : _parseAndSetTime str this = this)
    by now rewrite _parseAndSetTime_parseTime, Hnone.
  rewrite Hsame. auto.
Qed.

Lemma malformed_time_ignored_witness :
  parseTime "invalid" = None /\
  _parseAndSetTime "invalid" (observe 0 (ValueChanged (Some "09:15:30")) initial)
  = observe 0 (ValueChanged (Some "09:15:30")) initial.
Proof.
  assert (Hbad : "invalid" = EmptyString \/ (length (JS.split ":" "invalid") < 2)%nat)
    by (right; cbn; lia).
  destruct (malformed_time_ignored "invalid"
              (observe 0 (ValueChanged (Some "09:15:30")) initial) Hbad) as (H1 & H2 & _).
  split; assumption.
Defined.

(* ================================================================== *)
(** * Bounds *)

(** C6, where it fails: nothing is clamped.  Between 08:00:00 and 17:00:00,
    the value 20:00:00 is stored as 20:00:00, outside the bounds and not
    17:00:00; and below a maximum of 12:00:30 a step from 12:00:00 to
    12:01:00 leaves 12:00:00, not the maximum. *)
Lemma value_outside_bounds_not_clamped :
  let bounded := set_max (Some "17:00:00") (set_min (Some "08:00:00") initial) in
  let this := observe 0 (ValueChanged (Some "20:00:00")) bounded in
  let capped :=
    _onFocus (set_max (Some "12:00:30") (observe 0 (ValueChanged (Some "12:00:00")) initial)) in
  stored this = "20:00:00" /\
  stored this <> "17:00:00" /\
  _isWithinBounds this (stored this) = false /\
  candidate (StepBy 60) capped = "12:01:00" /\
  stored (handle 1 (KeyDown "ArrowUp") capped) = "12:00:00" /\
  stored (handle 1 (KeyDown "ArrowUp") capped) <> "12:00:30".
Proof. vm_compute. repeat split; (reflexivity || discriminate). Qed.

(** C6 (as amended).  The time model does not clamp.  A time assigned
    through [value] is stored as parsed, whatever [min] and [max] are and
    whatever was stored before.  An adjustment is all or nothing.  A
    candidate that fails the bounds check leaves the state as it was.  A
    candidate that passes it is stored as it is, once the adjustment gets
    as far as the check: it is the displayed time and, except for a drag
    (which writes [value] on release), the new [value]; and so for the
    event that leads to the adjustment.  So a stored time within the
    bounds stays within them under every user event. *)
Theorem bounds_reject_never_clamp
  (now : Z) (e : UserEvent) (a : Adjustment) (str : string) (t : Time)
  (this : Clock) :
  (parseTime str = Some t ->
   stored (_valueChanged now (Some str) (set_value (Some str) this))
   = formatTime (hours t) (minutes t) (Some (seconds t))) /\
  (_isWithinBounds this (candidate a this) = false -> perform now a this = this) /\
  (_isWithinBounds this (candidate a this) = true -> reaches_check a this ->
   stored (perform now a this) = candidate a this /\
   match a with
   | DragTo _ => value (perform now a this) = value this
   | _ => value (perform now a this) = Some (candidate a this)
   end /\
   (adjustment_of e this = Some a ->
    stored (handle now e this) = candidate a this)) /\
  (_isWithinBounds this (stored this) = true ->
   _isWithinBounds (handle now e this) (stored (handle now e this)) = true).
Proof.
  split.
  { intros Ht. destruct (_valueChanged_time now str t this Ht) as (Hh & Hm & Hs).
    unfold stored. now rewrite Hh, Hm, Hs. }
  split; [apply perform_rejected |]. split; [| apply handle_within_bounds].
  intros Hw Hr. destruct (perform_accepted now a this Hw Hr) as [Hs Hv].
  split; [exact Hs |]. split; [exact Hv |].
  intros He. now rewrite (handle_adjustment now e a this He).
Qed.

Lemma bounds_reject_never_clamp_witness :
  let this :=
    _onFocus (set_max (Some "12:30") (observe 0 (ValueChanged (Some "12:00:00")) initial)) in
  let outside :=
    observe 0 (ValueChanged (Some "20:00:00"))
      (set_max (Some "17:00:00") (set_min (Some "08:00:00") initial)) in
  _isWithinBounds this (candidate (StepBy 60) this) = true /\
  stored (handle 1 (KeyDown "ArrowUp") this) = "12:01:00" /\
  value (perform 1 (StepBy 60) this) = Some "12:01:00" /\
  _isWithinBounds outside (stored outside) = false /\
  stored (observe 2 (ValueChanged (Some "07:00")) outside) = "07:00:00".
Proof.
  cbn zeta.
  assert (Hw : _isWithinBounds
                 (_onFocus (set_max (Some "12:30")
                              (observe 0 (ValueChanged (Some "12:00:00")) initial)))
                 (candidate (StepBy 60)
                    (_onFocus (set_max (Some "12:30")
                                 (observe 0 (ValueChanged (Some "12:00:00")) initial))))
               = true) by (vm_compute; reflexivity).
  destruct (bounds_reject_never_clamp 1 (KeyDown "ArrowUp") (StepBy 60) "20:00:00"
              {| hours := 20; minutes := 0; seconds := 0 |}
              (_onFocus (set_max (Some "12:30")
                           (observe 0 (ValueChanged (Some "12:00:00")) initial))))
    as (_ & _ & Hacc & _).
  destruct (Hacc Hw I) as (_ & Hvalue & Hevent).
  split; [exact Hw |].
  split; [rewrite (Hevent eq_refl); vm_compute; reflexivity |].
  split; [rewrite Hvalue; vm_compute; reflexivity |].
  split; [vm_compute; reflexivity |].
  exact (proj1 (bounds_reject_never_clamp 2 MouseUp (StepBy 60) "07:00"
                  {| hours := 7; minutes := 0; seconds := 0 |}
                  (observe 0 (ValueChanged (Some "20:00:00"))
                     (set_max (Some "17:00:00") (set_min (Some "08:00:00") initial))))
           eq_refl).
Defined.


(** Where the order of [min] and [max] in seconds is not enough: the
    check compares minutes in doubles, and out-of-range fields may round
    apart.  00:01:13 and 00:00:73 are both 73 seconds after midnight, but
    [1 + 13/60] is a double above [73/60]: with [min] at 00:01:13 and [max]
    at 00:00:73 the time 00:01:13 is turned down. *)
Example equal_seconds_unequal_minutes :
  let mn := {| hours := 0; minutes := 1; seconds := 13 |} in
  let mx := {| hours := 0; minutes := 0; seconds := 73 |} in
  let this := set_max (Some "00:00:73") (set_min (Some "00:01:13") initial) in
  toSeconds mn = toSeconds mx /\
  JS.ltb (toMinutes mx) (toMinutes mn) = true /\
  _isWithinBounds this "00:01:13" = false.
Proof. vm_compute. repeat split; reflexivity. Qed.



(* ================================================================== *)
(** * Interactivity *)

(** C7, where it fails: a drag that began while the element was interactive
    goes on after it is disabled.  The pointer at 90 degrees moves the
    minute hand to 15, and releasing it commits 12:15:00. *)
Lemma drag_goes_on_when_disabled :
  let noon := observe 0 (ValueChanged (Some "12:00:00")) initial in
  let this := set_disabled true (handle 1 (MouseDown "minute") noon) in
  let moved := handle 2 (MouseMove (90 # 1)) this in
  disabled this = true /\
  _isInteractive this = false /\
  _minutes this = 0 /\
  _minutes moved = 15 /\
  moved <> this /\
  value (handle 3 MouseUp moved) = Some "12:15:00" /\
  _draggingHand (handle 3 MouseUp moved) = None.
Proof.
  cbn zeta. repeat split; try (vm_compute; reflexivity).
  intros H. apply (f_equal _minutes) in H. vm_compute in H. discriminate H.
Qed.

(** C7 (as amended).  When [adjustable] is false, or [disabled] or
    [readonly] is true, the listeners of a click or touch on the face, of a
    press or touch on a hand, of the keyboard and of the half-day icons
    return the state unchanged; no drag can start.  The listeners that
    continue or end a drag test the dragging-hand marker instead of the
    flags: they return the state unchanged when no drag is in progress. *)
Theorem non_interactive_handlers_inert (now : Z) (e : UserEvent) (this : Clock) :
  adjustable this = false \/ disabled this = true \/ readonly this = true ->
  continues_drag e = false \/ JS.truthy_string (_draggingHand this) = false ->
  handle now e this = this.
Proof.
  intros Hflags Hdrag.
  assert (Hni : _isInteractive this = false).
  { unfold _isInteractive.
    destruct Hflags as [-> | [-> | ->]]; cbn;
      [reflexivity | now rewrite andb_false_r | now rewrite andb_false_r]. }
  destruct e as [key | angle | touches | hand | hand | angle | touches | | | toAM];
    cbn [handle continues_drag] in *.
  - unfold _onKeyDown. now rewrite Hni.
  - unfold _onFaceMouseDown. now rewrite Hni.
  - unfold _onFaceTouchStart. now rewrite Hni.
  - unfold _onMouseDown. now rewrite Hni.
  - unfold _onTouchStart. now rewrite Hni.
  - destruct Hdrag as [Hd | Hd]; [discriminate Hd |].
    unfold _onMouseMove. now rewrite Hd.
  - destruct Hdrag as [Hd | Hd]; [discriminate Hd |].
    unfold _onTouchMove. now rewrite Hd.
  - destruct Hdrag as [Hd | Hd]; [discriminate Hd |].
    unfold _onMouseUp. now rewrite Hd.
  - destruct Hdrag as [Hd | Hd]; [discriminate Hd |].
    unfold _onTouchEnd. now rewrite Hd.
  - unfold _toggleAmPm. now rewrite Hni.
Qed.

Lemma non_interactive_handlers_inert_witness :
  let this :=
    set_readonly true (_onFocus (observe 0 (ValueChanged (Some "12:00:00")) initial)) in
  handle 1 (KeyDown "ArrowUp") this = this /\
  handle 1 (MouseDown "hour") this = this /\
  handle 1 (MouseMove (90 # 1)) this = this.
Proof.
  cbn zeta. split; [| split].
  - apply non_interactive_handlers_inert; [right; right | left]; reflexivity.
  - apply non_interactive_handlers_inert; [right; right | left]; reflexivity.
  - apply non_interactive_handlers_inert; [right; right | right]; reflexivity.
Defined.

(* ================================================================== *)
(** * Parsing and formatting *)

(** C8, where it fails: from 10^21 on [String] prints exponent notation.
    [formatTime(1e21, 5, 7)] is ["1e+21:05:07"]: its first field is not all
    digits, and [parseTime] reads the hours back as 1. *)
Lemma exponent_notation_breaks_roundtrip :
  JS.toDouble (10 ^ 21) = 10 ^ 21 /\
  formatTime (10 ^ 21) 5 (Some 7) = "1e+21:05:07" /\
  parseTime (formatTime (10 ^ 21) 5 (Some 7))
  = Some {| hours := 1; minutes := 5; seconds := 7 |} /\
  parseTime (formatTime (10 ^ 21) 5 (Some 7))
  <> Some {| hours := 10 ^ 21; minutes := 5; seconds := 7 |} /\
  all_digits (pad (10 ^ 21)) = false.
Proof. vm_compute. repeat split; (reflexivity || discriminate). Qed.

(** C8 (as amended).  For all natural numbers below 10^21 (numbers of the
    engine, that is doubles), parsing a formatted time gives the numbers
    back, and each of the three fields is all digits.  For all numbers, the
    formatted time has three fields between colons, each of at least two
    characters, and leaving the seconds out is formatting zero seconds. *)
Theorem parse_format_roundtrip (h m s : Z) :
  (0 <= h < 10 ^ 21 -> 0 <= m < 10 ^ 21 -> 0 <= s < 10 ^ 21 ->
   JS.toDouble h = h -> JS.toDouble m = m -> JS.toDouble s = s ->
   parseTime (formatTime h m (Some s))
   = Some {| hours := h; minutes := m; seconds := s |} /\
   Forall (fun field => all_digits field = true) [pad h; pad m; pad s]) /\
  JS.split ":" (formatTime h m (Some s)) = [pad h; pad m; pad s] /\
  Forall (fun field => (2 <= String.length field)%nat) [pad h; pad m; pad s] /\
  formatTime h m None = formatTime h m (Some 0).
Proof.
  split.
  { intros Hh Hm Hs Dh Dm Ds.
    assert (Ph : printable h) by (split; [assumption | lia]).
    assert (Pm : printable m) by (split; [assumption | lia]).
    assert (Ps : printable s) by (split; [assumption | lia]).
    split; [now apply parseTime_formatTime |].
    repeat constructor; apply pad_all_digits; (lia || assumption). }
  split; [apply split_formatTime |].
  split; [| reflexivity].
  repeat constructor; apply pad_length.
Qed.

Lemma parse_format_roundtrip_witness :
  parseTime (formatTime 9 5 (Some 3))
  = Some {| hours := 9; minutes := 5; seconds := 3 |} /\
  parseTime (formatTime (2 ^ 69) 5 (Some 3))
  = Some {| hours := 2 ^ 69; minutes := 5; seconds := 3 |}.
Proof.
  split.
  - refine (proj1 (proj1 (parse_format_roundtrip 9 5 3) _ _ _ _ _ _));
      (reflexivity || (vm_compute; split; (discriminate || reflexivity))).
  - refine (proj1 (proj1 (parse_format_roundtrip (2 ^ 69) 5 3) _ _ _ _ _ _));
      (reflexivity || (vm_compute; split; (discriminate || reflexivity))).
Defined.

(* ================================================================== *)
(** * Dragging the hour hand *)

(** C10.  For every angle from 0 up to 360 degrees, the hours that the
    'hour' case of [_handleDrag] computes stay in the half of the day of the
    current hours: 12 to 23 from 12 on, 0 to 11 before.  The sum it starts
    from is never 24, and never 0 in the afternoon, so neither correction
    applies. *)
Theorem drag_hour_keeps_half_day (angle : Q) (this : Clock) :
  (0 <= angle)%Q -> (angle < 360)%Q ->
  let raw := draggedHoursRaw angle this in
  raw <> 24 /\
  ~ (raw = 0 /\ 12 <= _hours this) /\
  draggedHours angle this = raw /\
  (12 <= _hours this -> 12 <= draggedHours angle this <= 23) /\
  (_hours this < 12 -> 0 <= draggedHours angle this <= 11) /\
  (_draggingHand this = Some "hour" ->
   hours (draggedTime angle this) = draggedHours angle this).
Proof.
  intros H0 H360. cbn zeta.
  assert (Ha : angle_ok angle) by (split; [assumption | now apply Qlt_le_weak]).
  pose proof (hours_of_angle_range angle Ha) as Hr.
  assert (Hcase : _draggingHand this = Some "hour" ->
                  hours (draggedTime angle this) = draggedHours angle this).
  { intros Hhand. unfold draggedTime. rewrite Hhand. reflexivity. }
  assert (Hsame : draggedHours angle this = draggedHoursRaw angle this).
  { unfold draggedHours, draggedHoursRaw.
    destruct (Z.leb_spec 12 (_hours this)) as [Hpm | Ham].
    - destruct (Z.eqb_spec (angleToUnits angle 30 12 + 12) 24) as [E | _]; [lia |].
      destruct (Z.eqb_spec (angleToUnits angle 30 12 + 12) 0) as [E | _]; [lia |].
      reflexivity.
    - destruct (Z.eqb_spec (angleToUnits angle 30 12 + 0) 24) as [E | _]; [lia |].
      now rewrite andb_false_r. }
  rewrite Hsame. unfold draggedHoursRaw.
  destruct (Z.leb_spec 12 (_hours this)) as [Hpm | Ham].
  - split; [lia |]. split; [lia |]. split; [reflexivity |].
    split; [lia |]. split; [lia |].
    intros Hhand. rewrite (Hcase Hhand), Hsame. unfold draggedHoursRaw.
    destruct (Z.leb_spec 12 (_hours this)); [reflexivity | lia].
  - split; [lia |]. split; [lia |]. split; [reflexivity |].
    split; [lia |]. split; [lia |].
    intros Hhand. rewrite (Hcase Hhand), Hsame. unfold draggedHoursRaw.
    destruct (Z.leb_spec 12 (_hours this)); [lia | reflexivity].
Qed.

Lemma drag_hour_keeps_half_day_witness :
  let this := observe 0 (ValueChanged (Some "15:20:00")) initial in
  draggedHoursRaw (350 # 1) this = 12 /\ draggedHours (350 # 1) this = 12.
Proof.
  cbn zeta.
  assert (H0 : (0 <= 350 # 1)%Q) by (unfold Qle; cbn; lia).
  assert (H360 : (350 # 1 < 360)%Q) by reflexivity.
  destruct (drag_hour_keeps_half_day (350 # 1)
              (observe 0 (ValueChanged (Some "15:20:00")) initial) H0 H360)
    as (_ & _ & Heq & _).
  rewrite Heq. split; reflexivity.
Defined.

(* ================================================================== *)
(** * Further properties of the time model *)

Section TimeModel.

Lemma append_colon_truthy a rest :
  JS.truthy_string (Some (a ++ String ":" rest)) = true.
Proof. destruct a; reflexivity. Qed.

Lemma digits_of_below_ten fuel n acc :
  n < 10 -> JS.digits_of fuel n acc = String (JS.digit_char (n mod 10)) acc.
Proof.
  intros Hn. destruct fuel as [| f]; [reflexivity |].
  cbn [JS.digits_of]. destruct (Z.ltb_spec n 10); [reflexivity | lia].
Qed.

(** Two digits for a number below one hundred: the tens, then the units. *)
Lemma pad_two_digits n :
  0 <= n <= 99 ->
  pad n = String (JS.digit_char (n / 10)) (String (JS.digit_char (n mod 10)) EmptyString).
Proof.
  intros Hn. unfold pad, JS.toString, JS.numeral.
  destruct (Z.ltb_spec n 0) as [Hneg | _]; [lia |].
  change (2 ^ 53) with 9007199254740992.
  destruct (Z.leb_spec n 9007199254740992) as [_ | Hhuge]; [| lia].
  unfold JS.digits.
  destruct (Z.lt_ge_cases n 10) as [Hsmall | Hbig].
  - rewrite digits_of_below_ten by assumption.
    rewrite Z.div_small by lia. reflexivity.
  - assert (Hlog : 3 <= Z.log2 n) by (apply Z.log2_le_pow2; lia).
    destruct (Z.to_nat (Z.log2 n)) as [| f] eqn:Hf; [lia |].
    cbn [JS.digits_of]. destruct (Z.ltb_spec n 10) as [Hlt | _]; [lia |].
    assert (Hq : 0 <= n / 10 < 10).
    { split; [apply Z.div_pos; lia | apply Z.div_lt_upper_bound; lia]. }
    rewrite digits_of_below_ten by lia.
    rewrite (Z.mod_small (n / 10)) by lia. reflexivity.
Qed.


End TimeModel.

(** X1.  For times of day the bounds check is membership in the closed
    interval from [min] to [max], in whole seconds after midnight.  When
    the fields of the time and of the bounds are in range (hours 0 to 23,
    minutes and seconds 0 to 59), a time passes exactly when it is not
    before the time of [min] and not after the time of [max], where a bound
    that is [null], empty or does not parse stands for no time; a time that
    does not parse always passes.  (With fields out of range the doubles
    that the check compares can tell apart what is equal in seconds, as in
    [equal_seconds_unequal_minutes].) *)
Theorem within_bounds_iff (this : Clock) (str : string) :
  (forall t, parseTime str = Some t ->
             valid_triple (hours t) (minutes t) (seconds t)) ->
  (forall mn, bound (min this) = Some mn ->
              valid_triple (hours mn) (minutes mn) (seconds mn)) ->
  (forall mx, bound (max this) = Some mx ->
              valid_triple (hours mx) (minutes mx) (seconds mx)) ->
  (_isWithinBounds this str = true <->
   (forall t, parseTime str = Some t ->
      (forall mn, bound (min this) = Some mn -> toSeconds mn <= toSeconds t) /\
      (forall mx, bound (max this) = Some mx -> toSeconds t <= toSeconds mx))).
Proof.
  intros Hvt Hvn Hvx. rewrite _isWithinBounds_unfold.
  destruct (parseTime str) as [t |]; [| split; [discriminate | reflexivity]].
  specialize (Hvt t eq_refl).
  split.
  - intros H u [= <-]. apply andb_true_iff in H as [Hmin Hmax].
    apply negb_true_iff in Hmin, Hmax. split.
    + intros mn Hmn. rewrite Hmn in Hmin.
      rewrite toMinutes_order in Hmin by auto. now apply Z.ltb_ge in Hmin.
    + intros mx Hmx. rewrite Hmx in Hmax.
      rewrite toMinutes_order in Hmax by auto. now apply Z.ltb_ge in Hmax.
  - intros H. destruct (H t eq_refl) as [Hmin Hmax].
    apply andb_true_iff. split; apply negb_true_iff.
    + destruct (bound (min this)) as [mn |] eqn:Hmn; [| reflexivity].
      rewrite toMinutes_order by auto. apply Z.ltb_ge. now apply Hmin.
    + destruct (bound (max this)) as [mx |] eqn:Hmx; [| reflexivity].
      rewrite toMinutes_order by auto. apply Z.ltb_ge. now apply Hmax.
Qed.

Lemma within_bounds_iff_witness :
  let this := set_max (Some "17:00") (set_min (Some "08:00") initial) in
  _isWithinBounds this "17:00:01" <> true /\
  (_isWithinBounds this "12:30:15" = true <->
   (forall t, parseTime "12:30:15" = Some t ->
      (forall mn, bound (min this) = Some mn -> toSeconds mn <= toSeconds t) /\
      (forall mx, bound (max this) = Some mx -> toSeconds t <= toSeconds mx))).
Proof.
  cbn zeta.
  assert (Hvn : forall mn,
             bound (min (set_max (Some "17:00") (set_min (Some "08:00") initial)))
             = Some mn -> valid_triple (hours mn) (minutes mn) (seconds mn))
    by (intros mn H; vm_compute in H; injection H as <-;
        unfold valid_triple; cbn; lia).
  assert (Hvx : forall mx,
             bound (max (set_max (Some "17:00") (set_min (Some "08:00") initial)))
             = Some mx -> valid_triple (hours mx) (minutes mx) (seconds mx))
    by (intros mx H; vm_compute in H; injection H as <-;
        unfold valid_triple; cbn; lia).
  split.
  - intros Hin.
    assert (Hvt : forall t, parseTime "17:00:01" = Some t ->
                            valid_triple (hours t) (minutes t) (seconds t))
      by (intros t H; vm_compute in H; injection H as <-;
          unfold valid_triple; cbn; lia).
    pose proof (proj1 (within_bounds_iff _ "17:00:01" Hvt Hvn Hvx) Hin
                  {| hours := 17; minutes := 0; seconds := 1 |} eq_refl) as [_ Hmax].
    specialize (Hmax {| hours := 17; minutes := 0; seconds := 0 |} eq_refl).
    vm_compute in Hmax. now apply Hmax.
  - apply within_bounds_iff; [| exact Hvn | exact Hvx].
    intros t H. vm_compute in H. injection H as <-.
    unfold valid_triple. cbn. lia.
Defined.

(** X2.  [parseTime] answers [null] on the strings without a colon and on
    no other: every string with a colon in it parses, to zeros where a
    field does not read as a number. *)
Theorem parseTime_null_only_without_colon (str : string) :
  (parseTime str = None <-> colon_free str = true) /\
  (colon_free str = false -> exists t, parseTime str = Some t) /\
  parseTime ":" = Some {| hours := 0; minutes := 0; seconds := 0 |} /\
  parseTime "ab:cd" = Some {| hours := 0; minutes := 0; seconds := 0 |}.
Proof.
  split; [apply parseTime_None_iff |]. split; [| split; reflexivity].
  intros Hc. destruct (parseTime str) as [t |] eqn:Ht; [now exists t |].
  apply parseTime_None_iff in Ht. congruence.
Qed.

(** X3.  Of the parts between colons, [parseTime] reads the first three and
    ignores the rest; with two parts the seconds are zero. *)
Theorem parseTime_reads_three_parts (a b c rest : string) :
  colon_free a = true -> colon_free b = true -> colon_free c = true ->
  parseTime (a ++ String ":" (b ++ String ":" (c ++ String ":" rest)))
  = Some {| hours := JS.or0 (JS.parseInt a);
            minutes := JS.or0 (JS.parseInt b);
            seconds := JS.or0 (JS.parseInt c) |} /\
  parseTime (a ++ String ":" (b ++ String ":" c))
  = Some {| hours := JS.or0 (JS.parseInt a);
            minutes := JS.or0 (JS.parseInt b);
            seconds := JS.or0 (JS.parseInt c) |} /\
  parseTime (a ++ String ":" b)
  = Some {| hours := JS.or0 (JS.parseInt a);
            minutes := JS.or0 (JS.parseInt b);
            seconds := 0 |}.
Proof.
  intros Ha Hb Hc. unfold parseTime. rewrite !append_colon_truthy.
  cbn [negb]. rewrite !split_append by assumption.
  rewrite (split_colon_free c Hc), (split_colon_free b Hb).
  pose proof (split_never_empty ":" rest) as Hne.
  destruct (JS.split ":" rest) as [| p ps]; [contradiction |].
  repeat split; reflexivity.
Qed.

Lemma parseTime_reads_three_parts_witness :
  parseTime "7:05:09:99"
  = Some {| hours := 7; minutes := 5; seconds := 9 |} /\
  parseTime "7:05" = Some {| hours := 7; minutes := 5; seconds := 0 |}.
Proof.
  destruct (parseTime_reads_three_parts "7" "05" "09" "99" eq_refl eq_refl eq_refl)
    as (H4 & _ & _).
  destruct (parseTime_reads_three_parts "7" "05" "" "" eq_refl eq_refl eq_refl)
    as (_ & _ & H2).
  split; [exact H4 | exact H2].
Defined.

(** X4.  A time of day is formatted as eight characters, HH:mm:ss: for each
    field its tens digit and its units digit, with a colon after the second
    and after the fifth character. *)
Theorem formatTime_of_a_time_of_day (h m s : Z) :
  valid_triple h m s ->
  formatTime h m (Some s)
  = String (JS.digit_char (h / 10)) (String (JS.digit_char (h mod 10))
      (String ":"
        (String (JS.digit_char (m / 10)) (String (JS.digit_char (m mod 10))
          (String ":"
            (String (JS.digit_char (s / 10)) (String (JS.digit_char (s mod 10))
               EmptyString))))))) /\
  String.length (formatTime h m (Some s)) = 8%nat.
Proof.
  intros (Hh & Hm & Hs).
  assert (E : formatTime h m (Some s) = pad h ++ String ":" (pad m ++ String ":" (pad s)))
    by reflexivity.
  rewrite E, !pad_two_digits by lia. split; reflexivity.
Qed.

Lemma formatTime_of_a_time_of_day_witness :
  String.length (formatTime 9 5 (Some 3)) = 8%nat.
Proof.
  assert (Hv : valid_triple 9 5 3) by (unfold valid_triple; lia).
  exact (proj2 (formatTime_of_a_time_of_day 9 5 3 Hv)).
Defined.

(* ================================================================== *)
(** * Further properties of the adjustments *)

Section Committing.

Lemma no_bounds_within this str :
  bound (min this) = None -> bound (max this) = None ->
  _isWithinBounds this str = true.
Proof.
  intros Hmin Hmax. rewrite _isWithinBounds_unfold, Hmin, Hmax.
  now destruct (parseTime str).
Qed.

Lemma _adjustTimeByStep_accepted now stepSeconds this :
  let t := steppedTime stepSeconds this in
  _isWithinBounds this (formatTime (hours t) (minutes t) (Some (seconds t))) = true ->
  _adjustTimeByStep now stepSeconds this
  = _setTimeValue now (hours t) (minutes t) (seconds t) this.
Proof. cbn zeta. intros Hw. unfold _adjustTimeByStep. now rewrite Hw. Qed.

Lemma _onKeyDown_arrow now key this :
  _isInteractive this = true -> _focused this = true ->
  _onKeyDown now key this
  = if String.eqb key "ArrowUp" || String.eqb key "ArrowRight"
    then _adjustTimeByStep now (if step this =? 0 then 60 else step this) this
    else if String.eqb key "ArrowDown" || String.eqb key "ArrowLeft"
    then _adjustTimeByStep now (- (if step this =? 0 then 60 else step this)) this
    else this.
Proof. intros Hi Hf. unfold _onKeyDown. now rewrite Hi, Hf. Qed.

Lemma _adjustTimeByStep_round_the_day now d this :
  valid_time this -> -86400 <= d <= 86400 ->
  let total :=
    (_hours this * 3600 + _minutes this * 60 + _seconds this + d) mod 86400 in
  _isWithinBounds this
    (formatTime (total / 3600) (total mod 3600 / 60) (Some (total mod 60))) = true ->
  _adjustTimeByStep now d this
  = _setTimeValue now (total / 3600) (total mod 3600 / 60) (total mod 60) this.
Proof.
  intros Hv Hd. cbn zeta.
  pose proof (steppedTime_wraps d this Hv Hd) as Hw. cbn zeta in Hw.
  destruct Hw as (Hh & Hm & Hs). intros Hin.
  rewrite _adjustTimeByStep_accepted by (cbn zeta; now rewrite Hh, Hm, Hs).
  now rewrite Hh, Hm, Hs.
Qed.

End Committing.



(** X6.  Within one day, an arrow key steps round the day: on a focused,
    interactive element that shows a time of day, with a step of at most
    86400 seconds (60 when [step] is 0), ArrowUp or ArrowRight adds the
    step and ArrowDown or ArrowLeft takes it off, modulo 86400 seconds; the
    result is displayed and formatted into [value] when it passes the
    bounds check. *)
Theorem arrow_key_steps_round_the_day
  (now : Z) (key : string) (delta : Z) (this : Clock) :
  _isInteractive this = true -> _focused this = true ->
  valid_time this -> -86400 <= step this <= 86400 ->
  ((key = "ArrowUp" \/ key = "ArrowRight") /\
   delta = (if step this =? 0 then 60 else step this)) \/
  ((key = "ArrowDown" \/ key = "ArrowLeft") /\
   delta = - (if step this =? 0 then 60 else step this)) ->
  let total :=
    (_hours this * 3600 + _minutes this * 60 + _seconds this + delta) mod 86400 in
  let shown := formatTime (total / 3600) ((total mod 3600) / 60) (Some (total mod 60)) in
  _isWithinBounds this shown = true ->
  let this' := handle now (KeyDown key) this in
  value this' = Some shown /\
  _hours this' = total / 3600 /\
  _minutes this' = (total mod 3600) / 60 /\
  _seconds this' = total mod 60.
Proof.
  intros Hi Hf Hv Hstep Hkey. cbn zeta.
  assert (Hd : -86400 <= delta <= 86400).
  { destruct (Z.eqb_spec (step this) 0); destruct Hkey as [[_ ->] | [_ ->]]; lia. }
  pose proof (steppedTime_wraps delta this Hv Hd) as Hw. cbn zeta in Hw.
  destruct Hw as (Hh & Hm & Hs). intros Hin.
  assert (Hkd : handle now (KeyDown key) this = _adjustTimeByStep now delta this).
  { cbn [handle]. rewrite _onKeyDown_arrow by assumption.
    destruct Hkey as [[[-> | ->] ->] | [[-> | ->] ->]]; reflexivity. }
  rewrite Hkd, _adjustTimeByStep_accepted by (cbn zeta; now rewrite Hh, Hm, Hs).
  rewrite _setTimeValue_eq, Hh, Hm, Hs. cbn. auto.
Qed.

Lemma arrow_key_steps_round_the_day_witness :
  let this := _onFocus (observe 0 (ValueChanged (Some "23:59:30")) initial) in
  value (handle 1 (KeyDown "ArrowRight") this) = Some "00:00:30".
Proof.
  cbn zeta.
  refine (proj1 (arrow_key_steps_round_the_day 1 "ArrowRight" 60
                   (_onFocus (observe 0 (ValueChanged (Some "23:59:30")) initial))
                   eq_refl eq_refl _ _ _ eq_refl)).
  - vm_compute. repeat split; discriminate.
  - vm_compute. split; discriminate.
  - left. split; [now right | reflexivity].
Defined.

(** X7.  Without bounds, ArrowDown undoes ArrowUp: on a focused,
    interactive element that shows a time of day, with a step of at most
    one day, the two keys one after the other bring back the displayed
    time, and [value] is that time formatted. *)
Theorem arrow_down_undoes_arrow_up (now1 now2 : Z) (this : Clock) :
  _isInteractive this = true -> _focused this = true ->
  valid_time this -> -86400 <= step this <= 86400 ->
  bound (min this) = None -> bound (max this) = None ->
  let this' :=
    handle now2 (KeyDown "ArrowDown") (handle now1 (KeyDown "ArrowUp") this) in
  _hours this' = _hours this /\
  _minutes this' = _minutes this /\
  _seconds this' = _seconds this /\
  value this' = Some (stored this).
Proof.
  intros Hi Hf Hv Hstep Hmin Hmax. cbn zeta.
  set (d := if step this =? 0 then 60 else step this).
  assert (Hd : -86400 <= d <= 86400)
    by (unfold d; destruct (Z.eqb_spec (step this) 0); lia).
  set (old := _hours this * 3600 + _minutes this * 60 + _seconds this).
  assert (Hold : 0 <= old < 86400)
    by (destruct Hv as (? & ? & ?); unfold old; lia).
  (* the first key *)
  pose proof (_adjustTimeByStep_round_the_day now1 d this Hv Hd) as H1.
  cbn zeta in H1.
  fold old in H1. set (mid := (old + d) mod 86400) in H1.
  assert (Hmid : 0 <= mid < 86400) by (apply Z.mod_pos_bound; lia).
  specialize (H1 (no_bounds_within _ _ Hmin Hmax)).
  assert (Hup : handle now1 (KeyDown "ArrowUp") this = _adjustTimeByStep now1 d this).
  { cbn [handle]. now rewrite _onKeyDown_arrow by assumption. }
  rewrite Hup, H1.
  set (c := _setTimeValue now1 (mid / 3600) (mid mod 3600 / 60) (mid mod 60) this).
  assert (Hc : c = mkClock (Some (formatTime (mid / 3600) (mid mod 3600 / 60)
                                    (Some (mid mod 60))))
                     (running this) (min this) (max this) (disabled this)
                     (readonly this) (adjustable this) (step this)
                     (mid / 3600) (mid mod 3600 / 60) (mid mod 60)
                     (_draggingHand this) (_focused this)
                     (mid / 3600 * 3600000 + mid mod 3600 / 60 * 60000
                      + mid mod 60 * 1000)
                     (if running this then Some now1 else _runStartTimestamp this) 0)
    by apply _setTimeValue_eq.
  assert (Hci : _isInteractive c = true) by (rewrite Hc; exact Hi).
  assert (Hcf : _focused c = true) by (rewrite Hc; exact Hf).
  assert (Hcv : valid_time c).
  { rewrite Hc. unfold valid_time. cbn. now apply decompose_valid. }
  assert (Hcs : step c = step this) by now rewrite Hc.
  assert (Hcold : _hours c * 3600 + _minutes c * 60 + _seconds c = mid).
  { rewrite Hc. cbn.
    pose proof (Z.div_mod mid 3600 ltac:(lia)) as E1.
    pose proof (Z.div_mod (mid mod 3600) 60 ltac:(lia)) as E2.
    pose proof (Z.mod_pos_bound (mid mod 3600) 60 ltac:(lia)) as B2.
    assert (E3 : mid mod 3600 mod 60 = mid mod 60).
    { apply Z.mod_unique with (60 * (mid / 3600) + mid mod 3600 / 60); lia. }
    lia. }
  (* the second key *)
  pose proof (_adjustTimeByStep_round_the_day now2 (- d) c Hcv ltac:(lia)) as H2.
  cbn zeta in H2.
  rewrite Hcold in H2.
  assert (Hback : (mid + - d) mod 86400 = old).
  { unfold mid. rewrite Zplus_mod_idemp_l.
    replace (old + d + - d) with old by lia. now apply Z.mod_small. }
  rewrite Hback in H2.
  assert (Hcmin : bound (min c) = None) by now rewrite Hc.
  assert (Hcmax : bound (max c) = None) by now rewrite Hc.
  specialize (H2 (no_bounds_within _ _ Hcmin Hcmax)).
  assert (Hdown : handle now2 (KeyDown "ArrowDown") c = _adjustTimeByStep now2 (- d) c).
  { cbn [handle]. rewrite _onKeyDown_arrow by assumption. now rewrite Hcs. }
  rewrite Hdown, H2, _setTimeValue_eq. cbn [_hours _minutes _seconds value].
  destruct Hv as (Hh & Hm & Hs).
  assert (Eh : old / 3600 = _hours this).
  { unfold old. symmetry. apply Z.div_unique with (_minutes this * 60 + _seconds this); lia. }
  assert (Em : old mod 3600 = _minutes this * 60 + _seconds this).
  { unfold old. symmetry. apply Z.mod_unique with (_hours this); lia. }
  assert (Em' : old mod 3600 / 60 = _minutes this).
  { rewrite Em. symmetry. apply Z.div_unique with (_seconds this); lia. }
  assert (Es : old mod 60 = _seconds this).
  { unfold old. symmetry.
    apply Z.mod_unique with (_hours this * 60 + _minutes this); lia. }
  unfold stored. rewrite Eh, Em', Es. auto.
Qed.

Lemma arrow_down_undoes_arrow_up_witness :
  let this := _onFocus (observe 0 (ValueChanged (Some "23:59:30")) initial) in
  value (handle 2 (KeyDown "ArrowDown") (handle 1 (KeyDown "ArrowUp") this))
  = Some "23:59:30".
Proof.
  cbn zeta.
  refine (proj2 (proj2 (proj2
            (arrow_down_undoes_arrow_up 1 2
               (_onFocus (observe 0 (ValueChanged (Some "23:59:30")) initial))
               eq_refl eq_refl _ _ eq_refl eq_refl)))).
  - vm_compute. repeat split; discriminate.
  - vm_compute. split; discriminate.
Defined.

Section HalfDay.

Lemma rem12_afternoon h : 12 <= h <= 23 -> Z.rem h 12 = h - 12.
Proof.
  intros Hh. rewrite Z.rem_mod_nonneg by lia.
  symmetry. apply Z.mod_unique with 1; lia.
Qed.

Lemma rem12_morning h : 0 <= h <= 11 -> Z.rem h 12 = h.
Proof. intros Hh. apply Z.rem_small. lia. Qed.

Lemma toggledHours_spec toAM this :
  0 <= _hours this <= 23 -> isAM this = negb toAM ->
  0 <= toggledHours toAM this <= 23 /\
  (toggledHours toAM this <? 12) = toAM /\
  Z.rem (toggledHours toAM this) 12 = Z.rem (_hours this) 12.
Proof.
  intros Hh Ham. unfold isAM in Ham. unfold toggledHours.
  destruct toAM; cbn [negb] in Ham.
  - apply Z.ltb_ge in Ham.
    destruct (Z.ltb_spec (_hours this - 12) 0); [lia |].
    destruct (Z.leb_spec 24 (_hours this - 12)); [lia |].
    rewrite (rem12_afternoon (_hours this)), rem12_morning by lia.
    repeat split; lia.
  - apply Z.ltb_lt in Ham.
    destruct (Z.ltb_spec (_hours this + 12) 0); [lia |].
    destruct (Z.leb_spec 24 (_hours this + 12)); [lia |].
    rewrite (rem12_afternoon (_hours this + 12)), rem12_morning by lia.
    repeat split; lia.
Qed.

End HalfDay.

(** X8.  The half-day toggle, on an interactive element that shows an hour
    from 0 to 23, when its candidate passes the bounds check: afterwards
    the element is in the half of the day that was asked for, the hour hand
    is where it was (the hours changed by twelve or not at all) and minutes
    and seconds are untouched.  Asking for the half the element is already
    in changes nothing. *)
Theorem half_day_toggle (now : Z) (toAM : bool) (this : Clock) :
  _isInteractive this = true ->
  0 <= _hours this <= 23 ->
  _isWithinBounds this (candidate (ToggleAmPm toAM) this) = true ->
  let this' := _toggleAmPm now toAM this in
  isAM this' = toAM /\
  Z.rem (_hours this') 12 = Z.rem (_hours this) 12 /\
  0 <= _hours this' <= 23 /\
  _minutes this' = _minutes this /\
  _seconds this' = _seconds this /\
  (isAM this = toAM -> this' = this) /\
  (isAM this <> toAM ->
   value this' = Some (formatTime (_hours this') (_minutes this) (Some (_seconds this)))).
Proof.
  intros Hi Hh Hin. cbn zeta. cbn [candidate] in Hin.
  unfold _toggleAmPm. rewrite Hi. cbn [negb]. fold (isAM this).
  destruct (Bool.eqb toAM (isAM this)) eqn:E.
  - apply Bool.eqb_prop in E. subst toAM.
    repeat split; try tauto; try lia.
  - apply Bool.eqb_false_iff in E.
    assert (Ham : isAM this = negb toAM)
      by (revert E; destruct toAM, (isAM this); cbn; intros; congruence).
    destruct (toggledHours_spec toAM this Hh Ham) as (Hr & Hhalf & Hrem).
    rewrite Hin, _setTimeValue_eq. unfold isAM. cbn.
    repeat split; try assumption; try lia.
    intros Heq. fold (isAM this) in Heq. congruence.
Qed.

Lemma half_day_toggle_witness :
  let this := observe 0 (ValueChanged (Some "09:15:30")) initial in
  value (_toggleAmPm 1 false this) = Some "21:15:30".
Proof.
  cbn zeta.
  refine (proj2 (proj2 (proj2 (proj2 (proj2 (proj2
            (half_day_toggle 1 false
               (observe 0 (ValueChanged (Some "09:15:30")) initial)
               eq_refl _ eq_refl)))))) _).
  - vm_compute. split; discriminate.
  - vm_compute. discriminate.
Defined.

(** X9.  Without bounds, toggling to the other half of the day and back
    brings back the displayed time, and [value] is that time formatted. *)
Theorem half_day_toggle_and_back (now1 now2 : Z) (this : Clock) :
  _isInteractive this = true ->
  0 <= _hours this <= 23 ->
  bound (min this) = None -> bound (max this) = None ->
  let this' :=
    _toggleAmPm now2 (isAM this) (_toggleAmPm now1 (negb (isAM this)) this) in
  _hours this' = _hours this /\
  _minutes this' = _minutes this /\
  _seconds this' = _seconds this /\
  value this' = Some (stored this).
Proof.
  intros Hi Hh Hmin Hmax. cbn zeta.
  set (h1 := toggledHours (negb (isAM this)) this).
  assert (H1 : 0 <= h1 <= 23 /\ (h1 <? 12) = negb (isAM this)
               /\ Z.rem h1 12 = Z.rem (_hours this) 12).
  { apply toggledHours_spec; [assumption | now rewrite negb_involutive]. }
  destruct H1 as (Hr1 & Hhalf1 & _).
  assert (Hfirst : _toggleAmPm now1 (negb (isAM this)) this
                   = _setTimeValue now1 h1 (_minutes this) (_seconds this) this).
  { unfold _toggleAmPm. rewrite Hi. cbn [negb]. fold (isAM this).
    replace (Bool.eqb (negb (isAM this)) (isAM this)) with false
      by (now destruct (isAM this)).
    now rewrite (no_bounds_within _ _ Hmin Hmax). }
  rewrite Hfirst.
  set (c := _setTimeValue now1 h1 (_minutes this) (_seconds this) this).
  assert (Hc : c = mkClock (Some (formatTime h1 (_minutes this) (Some (_seconds this))))
                     (running this) (min this) (max this) (disabled this)
                     (readonly this) (adjustable this) (step this) h1
                     (_minutes this) (_seconds this) (_draggingHand this)
                     (_focused this)
                     (h1 * 3600000 + _minutes this * 60000 + _seconds this * 1000)
                     (if running this then Some now1 else _runStartTimestamp this) 0)
    by apply _setTimeValue_eq.
  assert (Hci : _isInteractive c = true) by (rewrite Hc; exact Hi).
  assert (Hch : _hours c = h1) by now rewrite Hc.
  assert (Hcm : _minutes c = _minutes this) by now rewrite Hc.
  assert (Hcs : _seconds c = _seconds this) by now rewrite Hc.
  assert (Hcmin : bound (min c) = None) by now rewrite Hc.
  assert (Hcmax : bound (max c) = None) by now rewrite Hc.
  assert (Hback : toggledHours (isAM this) c = _hours this).
  { unfold toggledHours. rewrite Hch. subst h1. unfold toggledHours, isAM in *.
    destruct (Z.ltb_spec (_hours this) 12); cbn [negb];
      repeat match goal with
             | |- context [?a <? ?b] => destruct (Z.ltb_spec a b)
             | |- context [?a <=? ?b] => destruct (Z.leb_spec a b)
             end; lia. }
  unfold _toggleAmPm. rewrite Hci. cbn [negb]. rewrite Hch, Hhalf1.
  replace (Bool.eqb (isAM this) (negb (isAM this))) with false
    by (now destruct (isAM this)).
  rewrite (no_bounds_within _ _ Hcmin Hcmax), _setTimeValue_eq.
  cbn [_hours _minutes _seconds value]. rewrite Hback, Hcm, Hcs.
  unfold stored. auto.
Qed.

Lemma half_day_toggle_and_back_witness :
  let this := observe 0 (ValueChanged (Some "21:15")) initial in
  value (_toggleAmPm 2 false (_toggleAmPm 1 true this)) = Some "21:15:00".
Proof.
  cbn zeta.
  refine (proj2 (proj2 (proj2
            (half_day_toggle_and_back 1 2
               (observe 0 (ValueChanged (Some "21:15")) initial)
               eq_refl _ eq_refl eq_refl)))).
  vm_compute. split; discriminate.
Defined.

(* ================================================================== *)
(** * Further properties of dragging and rendering *)

Section Dragging.

Lemma set_time_same this :
  set_time (_hours this) (_minutes this) (_seconds this) this = this.
Proof. now destruct this. Qed.

Lemma Qfloor_unique (x : Q) (n : Z) :
  (inject_Z n <= x)%Q -> (x < inject_Z (n + 1))%Q -> Qfloor x = n.
Proof.
  intros Hle Hlt.
  pose proof (Qfloor_le x) as Hf. pose proof (Qlt_floor x) as Hc.
  pose proof (Qle_lt_trans _ _ _ Hf Hlt) as H1.
  pose proof (Qle_lt_trans _ _ _ Hle Hc) as H2.
  rewrite <- Zlt_Qlt in H1, H2. lia.
Qed.

(** Rounding a whole number of units, give or take half a unit. *)
Lemma angleToUnits_near (k d m : Z) (q : Q) :
  0 < d -> 0 <= k <= m -> 0 < m ->
  (- (1 # 2) <= q)%Q -> (q < 1 # 2)%Q ->
  angleToUnits (inject_Z k * inject_Z d + q * inject_Z d) d m = Z.rem k m.
Proof.
  intros Hd Hk Hm H0 Hq. unfold angleToUnits, JS.Math_round.
  assert (Hdq : (0 < inject_Z d)%Q)
    by (change (inject_Z 0 < inject_Z d)%Q; now rewrite <- Zlt_Qlt).
  assert (E : ((inject_Z k * inject_Z d + q * inject_Z d) / inject_Z d
               == inject_Z k + q)%Q).
  { field. intros Hz. rewrite Hz in Hdq. now apply Qlt_irrefl in Hdq. }
  rewrite (Qfloor_unique _ k); [reflexivity | |].
  - rewrite E. lra.
  - rewrite E, inject_Z_plus. change (inject_Z 1) with 1%Q. lra.
Qed.

Lemma angleToUnits_comp (a b : Q) (d m : Z) :
  (a == b)%Q -> angleToUnits a d m = angleToUnits b d m.
Proof.
  intros E. unfold angleToUnits, JS.Math_round. f_equal.
  apply Qfloor_comp. now rewrite E.
Qed.

Lemma inject_Z_range (n lo hi : Z) :
  lo <= n <= hi -> (inject_Z lo <= inject_Z n /\ inject_Z n <= inject_Z hi)%Q.
Proof. intros [H1 H2]. split; now rewrite <- Zle_Qle. Qed.

End Dragging.

(** X10.  A drag moves one hand only.  [_handleDrag] writes nothing but the
    displayed time; on the hour hand it leaves minutes and seconds, on the
    minute hand hours and seconds, on the second hand hours and minutes
    (there is no carry from one hand to the next), and with any other
    marker it changes nothing. *)
Theorem drag_moves_one_hand (angle : Q) (this : Clock) :
  let this' := _handleDrag angle this in
  this' = set_time (_hours this') (_minutes this') (_seconds this') this /\
  (_draggingHand this = Some "hour" ->
   _minutes this' = _minutes this /\ _seconds this' = _seconds this) /\
  (_draggingHand this = Some "minute" ->
   _hours this' = _hours this /\ _seconds this' = _seconds this) /\
  (_draggingHand this = Some "second" ->
   _hours this' = _hours this /\ _minutes this' = _minutes this) /\
  (_draggingHand this <> Some "hour" -> _draggingHand this <> Some "minute" ->
   _draggingHand this <> Some "second" -> this' = this).
Proof.
  cbn zeta. unfold _handleDrag.
  destruct (_isWithinBounds this _).
  - split; [reflexivity |]. unfold draggedTime.
    split; [intros ->; split; reflexivity |].
    split; [intros ->; split; reflexivity |].
    split; [intros ->; split; reflexivity |].
    intros Hh Hm Hs.
    destruct (_draggingHand this) as [hand |].
    + destruct (String.eqb_spec hand "hour") as [-> | _]; [congruence |].
      destruct (String.eqb_spec hand "minute") as [-> | _]; [congruence |].
      destruct (String.eqb_spec hand "second") as [-> | _]; [congruence |].
      apply set_time_same.
    + apply set_time_same.
  - split; [symmetry; apply set_time_same |].
    repeat split; reflexivity.
Qed.

(** X11.  Pressing and releasing a hand commits what is displayed: on an
    interactive element, mousedown on a hand followed by mouseup sets
    [value] to the displayed time formatted, without any bounds check and
    whether or not the hand moved; the displayed time stays and the drag is
    over. *)
Theorem press_and_release_commits (now1 now2 : Z) (hand : string) (this : Clock) :
  _isInteractive this = true -> hand <> EmptyString ->
  let this' := handle now2 MouseUp (handle now1 (MouseDown hand) this) in
  value this' = Some (stored this) /\
  _hours this' = _hours this /\
  _minutes this' = _minutes this /\
  _seconds this' = _seconds this /\
  _draggingHand this' = None /\
  _accumulatedMs this' = 0.
Proof.
  intros Hi Hhand. cbn zeta. cbn [handle].
  unfold _onMouseDown, _startDrag. rewrite Hi. cbn [negb].
  unfold _onMouseUp, _endDrag.
  assert (Ht : JS.truthy_string (_draggingHand (set_draggingHand (Some hand) this))
               = true) by (destruct hand; [contradiction | reflexivity]).
  rewrite Ht, _setTimeValue_eq.
  repeat (split; [reflexivity |]). reflexivity.
Qed.

Lemma press_and_release_commits_witness :
  let this :=
    set_max (Some "12:00") (observe 0 (ValueChanged (Some "14:30")) initial) in
  _isWithinBounds this (stored this) = false /\
  value (handle 2 MouseUp (handle 1 (MouseDown "hour") this)) = Some "14:30:00".
Proof.
  cbn zeta. split; [reflexivity |].
  refine (proj1 (press_and_release_commits 1 2 "hour"
                   (set_max (Some "12:00")
                      (observe 0 (ValueChanged (Some "14:30")) initial))
                   eq_refl _)).
  discriminate.
Defined.

(** X12.  The pointer is read to the nearest mark.  For an angle of the
    dial, the minute (or second) it gives is the one whose mark, at six
    degrees each, lies within three degrees of the pointer, and the hour,
    at thirty degrees each, within fifteen; from 357 (from 345) degrees on
    it is mark 0, not 60 (not 12). *)
Theorem pointer_reads_nearest_mark (angle : Q) :
  angle_ok angle ->
  let minute := angleToUnits angle 6 60 in
  let hour := angleToUnits angle 30 12 in
  ((inject_Z (6 * minute) - 3 <= angle /\ angle < inject_Z (6 * minute) + 3)%Q \/
   (minute = 0 /\ (357 <= angle)%Q)) /\
  ((inject_Z (30 * hour) - 15 <= angle /\ angle < inject_Z (30 * hour) + 15)%Q \/
   (hour = 0 /\ (345 <= angle)%Q)).
Proof.
  intros [H0 H360]. cbn zeta.
  assert (Hgen : forall d m, 0 < d -> d * m = 360 -> 0 < m ->
            let k := angleToUnits angle d m in
            ((inject_Z (d * k) - inject_Z d / 2 <= angle
              /\ angle < inject_Z (d * k) + inject_Z d / 2)%Q \/
             (k = 0 /\ (360 - inject_Z d / 2 <= angle)%Q))).
  { intros d m Hd Hdm Hm. cbn zeta. unfold angleToUnits, JS.Math_round.
    set (x := (angle / inject_Z d + (1 # 2))%Q).
    pose proof (Qfloor_le x) as Hf. pose proof (Qlt_floor x) as Hc.
    assert (Hdq : (0 < inject_Z d)%Q)
      by (change (inject_Z 0 < inject_Z d)%Q; now rewrite <- Zlt_Qlt).
    assert (Hr : 0 <= Qfloor x <= m).
    { apply (Math_round_range (angle / inject_Z d) m).
      - apply Qle_shift_div_l; [assumption | now rewrite Qmult_0_l].
      - apply Qle_shift_div_r; [assumption |].
        rewrite <- inject_Z_mult, Z.mul_comm, Hdm. assumption. }
    assert (Ea : (angle == (x - (1 # 2)) * inject_Z d)%Q).
    { unfold x. field. intros Hz. rewrite Hz in Hdq. now apply Qlt_irrefl in Hdq. }
    rewrite inject_Z_plus in Hc. change (inject_Z 1) with 1%Q in Hc.
    assert (Hlo : (inject_Z (d * Qfloor x) - inject_Z d / 2 <= angle)%Q).
    { rewrite Ea, inject_Z_mult.
      setoid_replace (inject_Z d * inject_Z (Qfloor x) - inject_Z d / 2)%Q
        with ((inject_Z (Qfloor x) - (1 # 2)) * inject_Z d)%Q by field.
      apply Qmult_le_compat_r; [lra | now apply Qlt_le_weak]. }
    assert (Hhi : (angle < inject_Z (d * Qfloor x) + inject_Z d / 2)%Q).
    { rewrite Ea, inject_Z_mult.
      setoid_replace (inject_Z d * inject_Z (Qfloor x) + inject_Z d / 2)%Q
        with ((inject_Z (Qfloor x) + (1 # 2)) * inject_Z d)%Q by field.
      apply Qmult_lt_compat_r; [assumption | lra]. }
    destruct (Z.eq_dec (Qfloor x) m) as [Em | Hne].
    - right. rewrite Em, Z.rem_same by lia. split; [reflexivity |].
      rewrite Em, Hdm in Hlo. exact Hlo.
    - left. rewrite Z.rem_small by lia. split; assumption. }
  assert (E6 : (inject_Z 6 / 2 == 3)%Q) by reflexivity.
  assert (E30 : (inject_Z 30 / 2 == 15)%Q) by reflexivity.
  split.
  - destruct (Hgen 6 60 ltac:(lia) eq_refl ltac:(lia)) as [[Hlo Hhi] | [Hz Hlo]];
      rewrite E6 in *.
    + left. split; [exact Hlo | exact Hhi].
    + right. split; [exact Hz | lra].
  - destruct (Hgen 30 12 ltac:(lia) eq_refl ltac:(lia)) as [[Hlo Hhi] | [Hz Hlo]];
      rewrite E30 in *.
    + left. split; [exact Hlo | exact Hhi].
    + right. split; [exact Hz | lra].
Qed.

Lemma pointer_reads_nearest_mark_witness :
  angleToUnits (358 # 1) 6 60 = 0 /\ (357 <= 358 # 1)%Q.
Proof.
  assert (Ha : angle_ok (358 # 1)) by (split; unfold Qle; cbn; lia).
  destruct (pointer_reads_nearest_mark (358 # 1) Ha) as [[[Hlo Hhi] | [Hz Hlo]] _].
  - exfalso. revert Hhi. vm_compute. discriminate.
  - split; [exact Hz | exact Hlo].
Defined.

Section Hands.

Variable this : Clock.
Hypothesis Hvalid : valid_time this.

Lemma hour_position : 0 <= Z.rem (_hours this) 12 <= 11.
Proof.
  destruct Hvalid as (Hh & _).
  destruct (Z.lt_ge_cases (_hours this) 12).
  - rewrite rem12_morning; lia.
  - rewrite rem12_afternoon; lia.
Qed.

Lemma hourAngle_parts :
  (hourAngle this
   == inject_Z (Z.rem (_hours this) 12) * inject_Z 30
      + (inject_Z (_minutes this) * (1 # 60) + inject_Z (_seconds this) * (1 # 3600))
        * inject_Z 30)%Q.
Proof. unfold hourAngle. field. Qed.

Lemma minuteAngle_parts :
  (minuteAngle this
   == inject_Z (_minutes this) * inject_Z 6
      + (inject_Z (_seconds this) * (1 # 60)) * inject_Z 6)%Q.
Proof. unfold minuteAngle. field. Qed.

Lemma secondAngle_parts :
  (secondAngle this == inject_Z (_seconds this) * inject_Z 6 + 0 * inject_Z 6)%Q.
Proof. unfold secondAngle. field. Qed.

Lemma hands_in_range :
  ((0 <= inject_Z (Z.rem (_hours this) 12) /\ inject_Z (Z.rem (_hours this) 12) <= 11) /\
   (0 <= inject_Z (_minutes this) /\ inject_Z (_minutes this) <= 59) /\
   (0 <= inject_Z (_seconds this) /\ inject_Z (_seconds this) <= 59))%Q.
Proof.
  destruct Hvalid as (_ & Hm & Hs).
  split; [exact (inject_Z_range _ 0 11 hour_position) |].
  split; [exact (inject_Z_range _ 0 59 Hm) | exact (inject_Z_range _ 0 59 Hs)].
Qed.

End Hands.

(** X13.  The hands are drawn where a drag would read them.  For a time of
    day, the three angles of [render] lie on the dial, below 360 degrees.
    Read back as a pointer angle, the second hand gives the seconds; the
    minute hand gives the minutes while the seconds are below 30 and the
    next minute from then on; the hour hand gives the hours (in the same
    half of the day) while the minutes are below 30. *)
Theorem hands_read_back (this : Clock) :
  valid_time this ->
  ((0 <= hourAngle this /\ hourAngle this < 360) /\
   (0 <= minuteAngle this /\ minuteAngle this < 360) /\
   (0 <= secondAngle this /\ secondAngle this < 360))%Q /\
  angleToUnits (secondAngle this) 6 60 = _seconds this /\
  (_seconds this < 30 -> angleToUnits (minuteAngle this) 6 60 = _minutes this) /\
  (30 <= _seconds this ->
   angleToUnits (minuteAngle this) 6 60 = Z.rem (_minutes this + 1) 60) /\
  (_minutes this < 30 -> draggedHours (hourAngle this) this = _hours this) /\
  (30 <= _minutes this ->
   angleToUnits (hourAngle this) 30 12 = Z.rem (Z.rem (_hours this) 12 + 1) 12).
Proof.
  intros Hv. pose proof Hv as (Hh & Hm & Hs).
  pose proof (hands_in_range this Hv) as (Hrq & Hmq & Hsq).
  pose proof (hour_position this Hv) as Hr.
  pose proof (hourAngle_parts this) as Eh.
  pose proof (minuteAngle_parts this) as Em.
  pose proof (secondAngle_parts this) as Es.
  change (inject_Z 30) with (30 # 1) in Eh.
  change (inject_Z 6) with (6 # 1) in Em, Es.
  split; [repeat split; lra |].
  split.
  { rewrite (angleToUnits_comp _ _ 6 60 (secondAngle_parts this)).
    rewrite angleToUnits_near by (try lia; lra). apply Z.rem_small. lia. }
  split.
  { intros Hlt. assert (Hs29 : 0 <= _seconds this <= 29) by lia.
    pose proof (inject_Z_range _ 0 29 Hs29) as [_ Hb].
    change (inject_Z 29) with (29 # 1) in Hb.
    rewrite (angleToUnits_comp _ _ 6 60 (minuteAngle_parts this)).
    rewrite angleToUnits_near by (try lia; lra). apply Z.rem_small. lia. }
  split.
  { intros Hge. pose proof (inject_Z_range _ 30 59 (conj Hge (proj2 Hs))) as [Hb _].
    change (inject_Z 30) with (30 # 1) in Hb.
    assert (E : (minuteAngle this
                 == inject_Z (_minutes this + 1) * inject_Z 6
                    + (inject_Z (_seconds this) * (1 # 60) - 1) * inject_Z 6)%Q).
    { rewrite (minuteAngle_parts this), inject_Z_plus. field. }
    rewrite (angleToUnits_comp _ _ 6 60 E).
    rewrite angleToUnits_near by (try lia; lra). reflexivity. }
  split.
  { intros Hlt. assert (Hm29 : 0 <= _minutes this <= 29) by lia.
    pose proof (inject_Z_range _ 0 29 Hm29) as [_ Hb].
    change (inject_Z 29) with (29 # 1) in Hb.
    assert (Eu : angleToUnits (hourAngle this) 30 12 = Z.rem (_hours this) 12).
    { rewrite (angleToUnits_comp _ _ 30 12 (hourAngle_parts this)).
      rewrite angleToUnits_near by (try lia; lra). apply Z.rem_small. lia. }
    unfold draggedHours, draggedHoursRaw. rewrite Eu.
    destruct (Z.leb_spec 12 (_hours this)) as [Hpm | Ham].
    - rewrite rem12_afternoon by lia.
      destruct (Z.eqb_spec (_hours this - 12 + 12) 24); [lia |].
      destruct (Z.eqb_spec (_hours this - 12 + 12) 0); [lia |].
      cbn [andb]. lia.
    - rewrite rem12_morning by lia.
      destruct (Z.eqb_spec (_hours this + 0) 24); [lia |].
      rewrite andb_false_r. lia. }
  intros Hge. pose proof (inject_Z_range _ 30 59 (conj Hge (proj2 Hm))) as [Hb _].
  change (inject_Z 30) with (30 # 1) in Hb.
  assert (E : (hourAngle this
               == inject_Z (Z.rem (_hours this) 12 + 1) * inject_Z 30
                  + (inject_Z (_minutes this) * (1 # 60)
                     + inject_Z (_seconds this) * (1 # 3600) - 1) * inject_Z 30)%Q).
  { rewrite (hourAngle_parts this), inject_Z_plus. field. }
  rewrite (angleToUnits_comp _ _ 30 12 E).
  rewrite angleToUnits_near by (try lia; lra). reflexivity.
Qed.

Lemma hands_read_back_witness :
  let this := observe 0 (ValueChanged (Some "15:20:45")) initial in
  draggedHours (hourAngle this) this = 15 /\
  angleToUnits (minuteAngle this) 6 60 = 21 /\
  angleToUnits (secondAngle this) 6 60 = 45.
Proof.
  cbn zeta.
  assert (Hv : valid_time (observe 0 (ValueChanged (Some "15:20:45")) initial))
    by (vm_compute; repeat split; discriminate).
  destruct (hands_read_back _ Hv) as (_ & Hsec & _ & Hmin & Hhour & _).
  split; [apply Hhour; vm_compute; reflexivity |].
  split; [rewrite Hmin by (vm_compute; discriminate); reflexivity | exact Hsec].
Defined.

(* ================================================================== *)
(** * Further properties of the running clock *)

Section RunningClock.

Lemma getValue_running now this :
  running this = true ->
  let n := (_baseTimeMs this + elapsedMs now this) mod 86400000 in
  getValue now this
  = Some (formatTime (n / 3600000) (n mod 3600000 / 60000) (Some (n mod 60000 / 1000))).
Proof.
  intros Hr. cbn zeta. unfold getValue. rewrite Hr. cbn [negb].
  rewrite normalizedMs_mod. change dayMs with 86400000.
  set (n := (_ + _) mod 86400000).
  assert (Hn : 0 <= n < 86400000) by (apply Z.mod_pos_bound; reflexivity).
  now rewrite !Z.rem_mod_nonneg by lia.
Qed.

Lemma _updateDisplayFromRunningTime_mod now this :
  let n := (_baseTimeMs this + elapsedMs now this) mod 86400000 in
  _updateDisplayFromRunningTime now this
  = set_time (n / 3600000) (n mod 3600000 / 60000) (n mod 60000 / 1000) this.
Proof.
  cbn zeta. unfold _updateDisplayFromRunningTime.
  rewrite normalizedMs_mod. change dayMs with 86400000.
  set (n := (_ + _) mod 86400000).
  assert (Hn : 0 <= n < 86400000) by (apply Z.mod_pos_bound; reflexivity).
  now rewrite !Z.rem_mod_nonneg by lia.
Qed.

Lemma toggle_off t start this :
  running this = true -> _runStartTimestamp this = Some start -> start <> 0 ->
  observe t RunningToggled this
  = set_runStartTimestamp None
      (set_accumulatedMs (_accumulatedMs this + (t - start))
         (set_running false this)).
Proof.
  intros Hr Hs Hnz. cbn [observe]. rewrite Hr. cbn [negb].
  unfold _runningChanged. cbn [set_running _runStartTimestamp _accumulatedMs].
  rewrite Hs. cbn [JS.truthy_number JS.or0].
  destruct (Z.eqb_spec start 0); [contradiction | reflexivity].
Qed.

Lemma toggle_on t this :
  running this = false ->
  observe t RunningToggled this
  = _updateDisplayFromRunningTime t
      (set_runStartTimestamp (Some t) (set_running true this)).
Proof. intros Hr. cbn [observe]. rewrite Hr. reflexivity. Qed.

(** The milliseconds of a time of day split back into the time. *)
Lemma toMs_split h m s :
  valid_triple h m s ->
  let n := h * 3600000 + m * 60000 + s * 1000 in
  n mod 86400000 = n /\ n / 3600000 = h /\
  n mod 3600000 / 60000 = m /\ n mod 60000 / 1000 = s.
Proof.
  intros (Hh & Hm & Hs). cbn zeta.
  set (n := h * 3600000 + m * 60000 + s * 1000).
  assert (E1 : n mod 3600000 = m * 60000 + s * 1000)
    by (symmetry; apply Z.mod_unique with h; unfold n; lia).
  assert (E2 : n mod 60000 = s * 1000)
    by (symmetry; apply Z.mod_unique with (h * 60 + m); unfold n; lia).
  split; [apply Z.mod_small; unfold n; lia |].
  split; [symmetry; apply Z.div_unique with (m * 60000 + s * 1000); unfold n; lia |].
  rewrite E1, E2. split.
  - symmetry. apply Z.div_unique with (s * 1000); lia.
  - symmetry. apply Z.div_unique with 0; lia.
Qed.

End RunningClock.

(** X14.  Time spent stopped is not counted.  When a running clock is
    stopped at one reading and started again at a later one, [getValue()]
    a while after the restart is what it would have been the same while
    after the stop. *)
Theorem pause_is_not_counted (t1 t2 d : Z) (this : Clock) :
  running this = true -> timestamp_kept this -> t2 <> 0 ->
  let resumed := observe t2 RunningToggled (observe t1 RunningToggled this) in
  running resumed = true /\
  getValue (t2 + d) resumed = getValue (t1 + d) this.
Proof.
  intros Hr Hk Ht2. cbn zeta. unfold timestamp_kept in Hk. rewrite Hr in Hk.
  destruct Hk as (start & Hs & Hnz).
  rewrite (toggle_off t1 start this Hr Hs Hnz).
  rewrite toggle_on by reflexivity.
  split; [reflexivity |].
  rewrite !getValue_running by (assumption || reflexivity). cbn zeta.
  unfold elapsedMs. rewrite Hs.
  cbn [_updateDisplayFromRunningTime set_time set_runStartTimestamp set_running
       set_accumulatedMs _runStartTimestamp _accumulatedMs _baseTimeMs
       JS.truthy_number JS.or0].
  destruct (Z.eqb_spec t2 0); [contradiction |].
  destruct (Z.eqb_spec start 0); [contradiction |]. cbn [negb].
  replace (_baseTimeMs this + (_accumulatedMs this + (t1 - start) + (t2 + d - t2)))
    with (_baseTimeMs this + (_accumulatedMs this + (t1 + d - start))) by lia.
  reflexivity.
Qed.

Lemma pause_is_not_counted_witness :
  let this :=
    run [(1000, ValueChanged (Some "12:00:00")); (2000, RunningToggled)] initial in
  getValue (9000 + 500)
    (observe 9000 RunningToggled (observe 5000 RunningToggled this))
  = getValue (5000 + 500) this.
Proof.
  intros this.
  refine (proj2 (pause_is_not_counted 5000 9000 500 this eq_refl _ _)).
  - exists 2000. split; [reflexivity | discriminate].
  - discriminate.
Defined.



(** X16.  At the instant of a commit, [getValue()] of a running clock is
    the committed time: right after [_setTimeValue] stores a time of day it
    equals the new [value], and right after [value] is assigned a string
    that parses to a time of day it is that time, formatted in full. *)
Theorem getValue_follows_a_commit
  (now h m s : Z) (str : string) (t : Time) (this : Clock) :
  running this = true -> now <> 0 ->
  valid_triple h m s ->
  parseTime str = Some t -> valid_triple (hours t) (minutes t) (seconds t) ->
  getValue now (_setTimeValue now h m s this) = Some (formatTime h m (Some s)) /\
  getValue now (_setTimeValue now h m s this) = value (_setTimeValue now h m s this) /\
  getValue now (observe now (ValueChanged (Some str)) this)
  = Some (formatTime (hours t) (minutes t) (Some (seconds t))).
Proof.
  intros Hr Hnow Hv Ht Hvt.
  assert (Hfresh : forall b c,
            running c = true -> _baseTimeMs c = b ->
            _accumulatedMs c = 0 -> _runStartTimestamp c = Some now ->
            (b + elapsedMs now c) mod 86400000 = b mod 86400000).
  { intros b c _ <- Hacc Hstart. unfold elapsedMs. rewrite Hacc, Hstart.
    cbn [JS.truthy_number JS.or0].
    destruct (Z.eqb_spec now 0); [contradiction |]. cbn [negb].
    f_equal. lia. }
  assert (Hset : getValue now (_setTimeValue now h m s this)
                 = Some (formatTime h m (Some s))).
  { rewrite getValue_running by (rewrite _setTimeValue_eq; exact Hr).
    cbn zeta. rewrite _setTimeValue_eq.
    rewrite (Hfresh (h * 3600000 + m * 60000 + s * 1000))
      by (cbn; try rewrite Hr; reflexivity).
    destruct (toMs_split h m s Hv) as (-> & -> & -> & ->). reflexivity. }
  split; [exact Hset |]. split; [now rewrite Hset, _setTimeValue_eq |].
  cbn [observe]. rewrite (_valueChanged_parsed now str t _ Ht).
  rewrite getValue_running by exact Hr. cbn zeta.
  rewrite (Hfresh (toMs t)) by (cbn; try rewrite Hr; reflexivity).
  destruct (toMs_split _ _ _ Hvt) as (H1 & H2 & H3 & H4).
  unfold toMs. now rewrite H1, H2, H3, H4.
Qed.

Lemma getValue_follows_a_commit_witness :
  let this := run [(2, RunningToggled)] initial in
  getValue 7 (observe 7 (ValueChanged (Some "14:30")) this) = Some "14:30:00".
Proof.
  cbn zeta.
  refine (proj2 (proj2 (getValue_follows_a_commit 7 1 2 3 "14:30"
                          {| hours := 14; minutes := 30; seconds := 0 |}
                          (run [(2, RunningToggled)] initial)
                          eq_refl _ _ eq_refl _))).
  - discriminate.
  - unfold valid_triple. lia.
  - unfold valid_triple. cbn. lia.
Defined.

(* ================================================================== *)
(** * Invariants of the element *)

Section Invariants.

(** What a listener can do to the state: nothing, start a drag, move the
    displayed time, or commit a time (at the end of a drag, with the marker
    cleared). *)
Lemma handle_shape now e this :
  handle now e this = this \/
  (exists hand, handle now e this = set_draggingHand (Some hand) this) \/
  (exists h m s, handle now e this = set_time h m s this) \/
  (exists h m s, handle now e this = _setTimeValue now h m s this) \/
  (exists h m s,
     handle now e this = _setTimeValue now h m s (set_draggingHand None this)).
Proof.
  destruct (adjustment_of e this) as [a |] eqn:Ha.
  - rewrite (handle_adjustment now e a this Ha).
    destruct a as [stepSeconds | angle | angle | toAM]; cbn [perform].
    + unfold _adjustTimeByStep. destruct (_isWithinBounds this _); [| now left].
      right; right; right; left. eauto.
    + unfold _handleDrag. destruct (_isWithinBounds this _); [| now left].
      right; right; left. eauto.
    + unfold _handleFaceClick. destruct (_isWithinBounds this _); [| now left].
      right; right; right; left. eauto.
    + unfold _toggleAmPm.
      destruct (negb (_isInteractive this)); [now left |].
      destruct (Bool.eqb toAM (_hours this <? 12)); [now left |].
      destruct (_isWithinBounds this _); [| now left].
      right; right; right; left. eauto.
  - destruct (handle_no_adjustment now e this Ha) as [-> | [[hand ->] | ->]];
      [now left | right; left; eauto |].
    destruct (_endDrag_cases now this) as [-> | ->]; [now left |].
    right; right; right; right. eauto.
Qed.

Lemma connectedCallback_shape now wall this :
  exists h m s, connectedCallback now wall this = set_time h m s this.
Proof.
  unfold connectedCallback.
  assert (H1 : exists h m s,
             match value this with
             | Some v =>
                 if JS.truthy_string (Some v) then _parseAndSetTime v this
                 else set_time (hours wall) (minutes wall) (seconds wall) this
             | None => set_time (hours wall) (minutes wall) (seconds wall) this
             end = set_time h m s this).
  { destruct (value this) as [v |]; [| eauto].
    destruct (JS.truthy_string (Some v)); [| eauto].
    rewrite _parseAndSetTime_parseTime.
    destruct (parseTime v); [eauto |].
    exists (_hours this), (_minutes this), (_seconds this).
    symmetry. apply set_time_same. }
  destruct H1 as (h & m & s & ->).
  change (running (set_time h m s this)) with (running this).
  destruct (running this) eqn:Hr; [| now exists h, m, s].
  unfold _startAnimation.
  change (running (set_time h m s this)) with (running this). rewrite Hr.
  cbn [negb]. rewrite _updateDisplayFromRunningTime_mod. cbn zeta.
  set (n := (_ + _) mod 86400000).
  now exists (n / 3600000), (n mod 3600000 / 60000), (n mod 60000 / 1000).
Qed.

Lemma timestamp_kept_set_time h m s this :
  timestamp_kept this -> timestamp_kept (set_time h m s this).
Proof. intros H. exact H. Qed.

Lemma timestamp_kept_setTimeValue now h m s this :
  now <> 0 -> timestamp_kept this ->
  timestamp_kept (_setTimeValue now h m s this).
Proof.
  intros Hnow Hk. rewrite _setTimeValue_eq. unfold timestamp_kept in *. cbn.
  destruct (running this); [| assumption]. exists now. auto.
Qed.

Lemma dispatch_timestamp_kept now ev this :
  now <> 0 -> timestamp_kept this -> timestamp_kept (dispatch now ev this).
Proof.
  intros Hnow Hk. destruct ev as [e | e | wall | | | v | v | b | b | b | n];
    cbn [dispatch]; try exact Hk.
  - destruct (handle_shape now e this)
      as [-> | [[hand ->] | [(h & m & s & ->) | [(h & m & s & ->) | (h & m & s & ->)]]]];
      try exact Hk; now apply timestamp_kept_setTimeValue.
  - destruct e as [v | |]; cbn [observe].
    + destruct (bound v) as [t |] eqn:Hb.
      * destruct v as [str |]; [| discriminate Hb]. cbn [bound] in Hb.
        rewrite (_valueChanged_parsed now str t _ Hb).
        unfold timestamp_kept in *. cbn.
        destruct (running this); [| assumption]. exists now. auto.
      * rewrite _valueChanged_unparsed by exact Hb. exact Hk.
    + unfold timestamp_kept in Hk. destruct (running this) eqn:Hr.
      * destruct Hk as (start & Hs & Hnz).
        change (observe now RunningToggled this)
          with (observe now RunningToggled this).
        pose proof (toggle_off now start this Hr Hs Hnz) as E.
        cbn [observe] in E. rewrite Hr in E. rewrite E. reflexivity.
      * pose proof (toggle_on now this Hr) as E.
        cbn [observe] in E. rewrite Hr in E. rewrite E.
        unfold timestamp_kept. cbn. exists now. auto.
    + unfold animate. destruct (negb (running this)); exact Hk.
  - destruct (connectedCallback_shape now wall this) as (h & m & s & ->). exact Hk.
Qed.

End Invariants.

(** X17.  The run timestamp is there exactly while the clock runs.  After
    any sequence of user events, property changes, animation frames and
    connections, at clock readings other than zero, [_runStartTimestamp]
    holds a reading when [running] is true and is [null] when it is
    false. *)
Theorem timestamp_follows_running (trace : list (Z * Event)) :
  Forall (fun ev => fst ev <> 0) trace ->
  timestamp_kept (play trace initial) /\
  (running (play trace initial) = true <->
   JS.truthy_number (_runStartTimestamp (play trace initial)) = true).
Proof.
  intros Hnz.
  assert (Hk : timestamp_kept (play trace initial)).
  { assert (Hgen : forall this, timestamp_kept this -> timestamp_kept (play trace this)).
    { induction Hnz as [| [now ev] rest Hnow _ IH]; intros this Hk; [exact Hk |].
      cbn [play]. apply IH. now apply dispatch_timestamp_kept. }
    apply Hgen. reflexivity. }
  split; [exact Hk |]. unfold timestamp_kept in Hk.
  destruct (running (play trace initial)).
  - destruct Hk as (start & -> & Hs). cbn.
    destruct (Z.eqb_spec start 0); [contradiction | tauto].
  - rewrite Hk. cbn. split; discriminate.
Qed.

Lemma timestamp_follows_running_witness :
  timestamp_kept
    (play [(5, Property (ValueChanged (Some "12:00:00")));
           (6, Property RunningToggled); (7, Focus);
           (8, User (KeyDown "ArrowUp"))] initial).
Proof.
  refine (proj1 (timestamp_follows_running _ _)).
  repeat (constructor; [cbn; lia |]). constructor.
Defined.

Section ValidEverywhere.

Lemma keeps_step_and_value_set_time h m s this :
  step (set_time h m s this) = step this /\
  value (set_time h m s this) = value this.
Proof. split; reflexivity. Qed.

Lemma running_update_keeps now this :
  valid_time (_updateDisplayFromRunningTime now this) /\
  step (_updateDisplayFromRunningTime now this) = step this /\
  value (_updateDisplayFromRunningTime now this) = value this.
Proof.
  split; [apply _updateDisplayFromRunningTime_valid |]. split; reflexivity.
Qed.

Lemma dispatch_valid now ev this :
  in_range ev ->
  valid_time this -> -86400 <= step this <= 86400 ->
  (forall t, bound (value this) = Some t ->
             valid_triple (hours t) (minutes t) (seconds t)) ->
  valid_time (dispatch now ev this) /\
  -86400 <= step (dispatch now ev this) <= 86400 /\
  (forall t, bound (value (dispatch now ev this)) = Some t ->
             valid_triple (hours t) (minutes t) (seconds t)).
Proof.
  intros Hin Hv Hstep Hval.
  destruct ev as [e | e | wall | | | v | v | b | b | b | n];
    cbn [dispatch in_range] in *; try (split; [exact Hv | split; assumption]).
  - (* a user event *)
    pose proof (handle_valid now e this Hv Hin Hstep) as Hv'.
    split; [exact Hv' |].
    destruct (handle_shape now e this)
      as [E | [[hand E] | [(h & m & s & E) | [(h & m & s & E) | (h & m & s & E)]]]];
      rewrite E in *; try (split; assumption).
    + rewrite _setTimeValue_eq in *. cbn [step value bound] in *.
      split; [assumption |]. intros t.
      rewrite parseTime_formatTime_valid by exact Hv'.
      intros [= <-]. exact Hv'.
    + rewrite _setTimeValue_eq in *. cbn [step value bound] in *.
      split; [assumption |]. intros t.
      rewrite parseTime_formatTime_valid by exact Hv'.
      intros [= <-]. exact Hv'.
  - (* a property change or a frame *)
    destruct e as [v | |]; cbn [observe].
    + destruct (bound v) as [t |] eqn:Hb.
      * destruct v as [str |]; [| discriminate Hb]. cbn [bound] in Hb.
        rewrite (_valueChanged_parsed now str t _ Hb).
        unfold valid_time. cbn [_hours _minutes _seconds step value set_value bound].
        split; [now apply Hin |]. split; [assumption |].
        intros u Hu. now apply Hin.
      * rewrite _valueChanged_unparsed by exact Hb.
        split; [exact Hv |]. split; [exact Hstep |].
        cbn [value set_value]. intros t Ht. congruence.
    + unfold _runningChanged. destruct (running this); cbn [negb].
      * destruct (JS.truthy_number (_runStartTimestamp (set_running false this)));
          (split; [exact Hv | split; assumption]).
      * unfold _startAnimation.
        cbn [running set_runStartTimestamp set_running negb].
        destruct (running_update_keeps now
                    (set_runStartTimestamp (Some now) (set_running true this)))
          as (H1 & H2 & H3).
        split; [exact H1 |]. rewrite H2, H3. split; assumption.
    + unfold animate. destruct (negb (running this));
        [split; [exact Hv | split; assumption] |].
      destruct (running_update_keeps now this) as (H1 & H2 & H3).
      split; [exact H1 |]. rewrite H2, H3. split; assumption.
  - (* the connection to the document *)
    unfold connectedCallback.
    assert (Hshown : exists h m s,
               valid_triple h m s /\
               match value this with
               | Some v =>
                   if JS.truthy_string (Some v) then _parseAndSetTime v this
                   else set_time (hours wall) (minutes wall) (seconds wall) this
               | None => set_time (hours wall) (minutes wall) (seconds wall) this
               end = set_time h m s this).
    { destruct (value this) as [v |] eqn:Hvalue.
      - destruct (JS.truthy_string (Some v)).
        + rewrite _parseAndSetTime_parseTime.
          destruct (parseTime v) as [t |] eqn:Ht.
          * exists (hours t), (minutes t), (seconds t).
            split; [| reflexivity]. apply Hval. exact Ht.
          * exists (_hours this), (_minutes this), (_seconds this).
            split; [exact Hv | symmetry; apply set_time_same].
        + exists (hours wall), (minutes wall), (seconds wall).
          split; [exact Hin | reflexivity].
      - exists (hours wall), (minutes wall), (seconds wall).
        split; [exact Hin | reflexivity]. }
    destruct Hshown as (h & m & s & Hhms & ->).
    change (running (set_time h m s this)) with (running this).
    destruct (running this) eqn:Hr.
    + unfold _startAnimation.
      change (running (set_time h m s this)) with (running this).
      rewrite Hr. cbn [negb].
      destruct (running_update_keeps now (set_time h m s this)) as (H1 & H2 & H3).
      split; [exact H1 |]. rewrite H2, H3. split; assumption.
    + split; [exact Hhms | split; assumption].
Qed.

End ValidEverywhere.

(** X18.  The displayed time is a time of day in every state the element
    can reach, as long as the numbers that come in are in range: pointer
    angles on the dial, a wall time that is a time of day, assigned values
    whose fields (when they parse) are in range, and a step of at most one
    day. *)
Theorem displayed_time_always_valid (trace : list (Z * Event)) :
  Forall (fun ev => in_range (snd ev)) trace ->
  valid_time (play trace initial).
Proof.
  intros Hin.
  assert (Hgen : forall this,
            valid_time this -> -86400 <= step this <= 86400 ->
            (forall t, bound (value this) = Some t ->
                       valid_triple (hours t) (minutes t) (seconds t)) ->
            valid_time (play trace this)).
  { induction Hin as [| [now ev] rest Hev _ IH]; intros this Hv Hs Hval;
      [exact Hv |].
    cbn [play]. cbn [snd] in Hev.
    destruct (dispatch_valid now ev this Hev Hv Hs Hval) as (H1 & H2 & H3).
    now apply IH. }
  apply Hgen.
  - unfold valid_time, valid_triple. cbn. lia.
  - cbn. lia.
  - cbn. discriminate.
Qed.

Lemma displayed_time_always_valid_witness :
  valid_time
    (play [(5, Property (ValueChanged (Some "23:59:30")));
           (6, Focus); (7, User (KeyDown "ArrowUp"));
           (8, Property RunningToggled); (90000000, Property AnimationFrame)]
       initial).
Proof.
  apply displayed_time_always_valid.
  constructor;
    [cbn; intros u [= <-]; unfold valid_triple; cbn; lia |].
  repeat (constructor; [exact I |]). constructor.
Defined.

(** X19.  Running the clock never writes [value].  Through any sequence of
    toggles of [running] and animation frames, [value] and the base time
    stay as they were; so once the clock is stopped again, [getValue()] is
    the value that was set, not the time the display has reached. *)
Theorem running_never_writes_value
  (trace : list (Z * PropertyEvent)) (now : Z) (this : Clock) :
  (forall t v, ~ In (t, ValueChanged v) trace) ->
  value (run trace this) = value this /\
  _baseTimeMs (run trace this) = _baseTimeMs this /\
  (running (run trace this) = false -> getValue now (run trace this) = value this).
Proof.
  intros Hno.
  assert (Hstep : forall t e c,
            (forall v, e <> ValueChanged v) ->
            value (observe t e c) = value c /\
            _baseTimeMs (observe t e c) = _baseTimeMs c).
  { intros t e c He. destruct e as [v | |]; [now destruct (He v) | |].
    - cbn [observe]. unfold _runningChanged. destruct (running c); cbn [negb].
      + destruct (JS.truthy_number _); split; reflexivity.
      + unfold _startAnimation. destruct (negb _); split; reflexivity.
    - cbn [observe]. unfold animate. destruct (negb _); split; reflexivity. }
  assert (Hgen : value (run trace this) = value this /\
                 _baseTimeMs (run trace this) = _baseTimeMs this).
  { revert this. induction trace as [| [t e] rest IH]; intros this;
      [split; reflexivity |].
    cbn [run].
    assert (He : forall v, e <> ValueChanged v).
    { intros v ->. apply (Hno t v). now left. }
    destruct (Hstep t e this He) as [<- <-].
    apply IH. intros t' v Hin. apply (Hno t' v). now right. }
  destruct Hgen as [Hval Hbase]. repeat split; try assumption.
  intros Hr. unfold getValue. now rewrite Hr.
Qed.

Lemma running_never_writes_value_witness :
  let this := observe 1 (ValueChanged (Some "12:00:00")) initial in
  getValue 9000 (run [(2000, RunningToggled); (5000, AnimationFrame);
                      (7000, RunningToggled)] this)
  = Some "12:00:00".
Proof.
  cbn zeta.
  refine (proj2 (proj2 (running_never_writes_value
                          [(2000, RunningToggled); (5000, AnimationFrame);
                           (7000, RunningToggled)] 9000
                          (observe 1 (ValueChanged (Some "12:00:00")) initial) _))
            eq_refl).
  intros t v [H | [H | [H | []]]]; discriminate H.
Defined.

(* ================================================================== *)
(** * Properties of the earlier version *)

Section LegacyFacts.

(** [Legacy._setTimeValue] in one piece. *)
Lemma Legacy_setTimeValue_eq wall h m s this :
  Legacy._setTimeValue wall h m s this
  = set_value (Some (formatTime h m (Some s))) (set_time h m s this).
Proof. reflexivity. Qed.

(** Without a value, every tick of the interval shows the wall time of the
    tick: after a row of ticks, that of the last one. *)
Lemma Legacy_ticks ticks :
  forall shown this,
    JS.truthy_string (value this) = false ->
    fold_left (fun c w => Legacy._animate w c) ticks
      (set_time (hours shown) (minutes shown) (seconds shown) this)
    = set_time (hours (last ticks shown)) (minutes (last ticks shown))
        (seconds (last ticks shown)) this.
Proof.
  induction ticks as [| w rest IH]; intros shown this Hnone; [reflexivity |].
  cbn [fold_left]. unfold Legacy._animate at 2.
  change (value (set_time (hours shown) (minutes shown) (seconds shown) this))
    with (value this).
  rewrite Hnone.
  change (set_time (hours w) (minutes w) (seconds w)
            (set_time (hours shown) (minutes shown) (seconds shown) this))
    with (set_time (hours w) (minutes w) (seconds w) this).
  rewrite IH by assumption.
  assert (Hlast : forall (l : list Time) a d d', last (a :: l) d = last (a :: l) d').
  { induction l as [| b l IHl]; intros a d d'; [reflexivity |].
    change (last (a :: b :: l) d) with (last (b :: l) d).
    change (last (a :: b :: l) d') with (last (b :: l) d'). apply IHl. }
  destruct rest as [| w' rest']; [reflexivity |].
  change (last (w :: w' :: rest') shown) with (last (w' :: rest') shown).
  now rewrite (Hlast rest' w' w shown).
Qed.

End LegacyFacts.

(** X20.  In the earlier version a keyboard step on an element without a
    value starts from the wall clock, not from the displayed time.  Within
    one day of a wall time that is a time of day, an accepted step commits
    the wall time plus the step, modulo 86400 seconds; a rejected step
    still replaces the displayed time by the wall time. *)
Theorem legacy_step_starts_from_wall_time (wall : Time) (n : Z) (this : Clock) :
  JS.truthy_string (value this) = false ->
  valid_triple (hours wall) (minutes wall) (seconds wall) ->
  -86400 <= n <= 86400 ->
  let total := (toSeconds wall + n) mod 86400 in
  let shown := formatTime (total / 3600) (total mod 3600 / 60) (Some (total mod 60)) in
  (_isWithinBounds this shown = true ->
   Legacy._adjustTimeByStep wall n this
   = set_value (Some shown)
       (set_time (total / 3600) (total mod 3600 / 60) (total mod 60) this)) /\
  (_isWithinBounds this shown = false ->
   Legacy._adjustTimeByStep wall n this
   = set_time (hours wall) (minutes wall) (seconds wall) this).
Proof.
  intros Hnone Hwall Hn. cbn zeta.
  unfold Legacy._adjustTimeByStep. rewrite Hnone. cbn [negb].
  set (c := set_time (hours wall) (minutes wall) (seconds wall) this).
  assert (Hcv : valid_time c) by exact Hwall.
  pose proof (steppedTime_wraps n c Hcv Hn) as Hw. cbn zeta in Hw.
  change (_hours c * 3600 + _minutes c * 60 + _seconds c) with (toSeconds wall) in Hw.
  destruct Hw as (-> & -> & ->).
  change (_isWithinBounds c) with (_isWithinBounds this).
  split; intros ->; [| reflexivity].
  rewrite Legacy_setTimeValue_eq. reflexivity.
Qed.

Lemma legacy_step_starts_from_wall_time_witness :
  let this := set_max (Some "12:00") initial in
  let wall := {| hours := 15; minutes := 20; seconds := 45 |} in
  Legacy._adjustTimeByStep wall 60 this = set_time 15 20 45 this.
Proof.
  cbn zeta.
  refine (proj2 (legacy_step_starts_from_wall_time
                   {| hours := 15; minutes := 20; seconds := 45 |} 60
                   (set_max (Some "12:00") initial) eq_refl _ _) _).
  - unfold valid_triple. cbn. lia.
  - lia.
  - vm_compute. reflexivity.
Defined.

(** X21.  In the earlier version a commit stops the wall clock: once
    [_setTimeValue] has stored a time, or a drag has ended, [value] is set
    and [_animate] leaves the displayed time alone. *)
Theorem legacy_commit_stops_wall_clock
  (wall wall' : Time) (h m s : Z) (this : Clock) :
  let committed := Legacy._setTimeValue wall h m s this in
  value committed = Some (formatTime h m (Some s)) /\
  _hours committed = h /\ _minutes committed = m /\ _seconds committed = s /\
  Legacy._animate wall' committed = committed /\
  (JS.truthy_string (_draggingHand this) = true ->
   Legacy._animate wall' (Legacy._endDrag wall this) = Legacy._endDrag wall this /\
   value (Legacy._endDrag wall this) = Some (stored this)).
Proof.
  cbn zeta. rewrite Legacy_setTimeValue_eq.
  repeat (split; [reflexivity |]). split.
  - unfold Legacy._animate. cbn [value set_value]. now rewrite formatTime_truthy.
  - intros Hd. unfold Legacy._endDrag. rewrite Hd. split; [| reflexivity].
    unfold Legacy._animate. cbn [value set_value]. now rewrite formatTime_truthy.
Qed.

Lemma legacy_commit_stops_wall_clock_witness :
  let dragging := set_draggingHand (Some "minute") initial in
  Legacy._animate {| hours := 9; minutes := 0; seconds := 0 |}
    (Legacy._endDrag {| hours := 8; minutes := 0; seconds := 0 |} dragging)
  = Legacy._endDrag {| hours := 8; minutes := 0; seconds := 0 |} dragging.
Proof.
  cbn zeta.
  exact (proj1 (proj2 (proj2 (proj2 (proj2 (proj2
           (legacy_commit_stops_wall_clock
              {| hours := 8; minutes := 0; seconds := 0 |}
              {| hours := 9; minutes := 0; seconds := 0 |} 0 0 0
              (set_draggingHand (Some "minute") initial)))))) eq_refl)).
Defined.

(** X22.  In the earlier version, on an element without a value, the
    pointer takes its time from the wall clock.  Pressing a hand shows the
    wall time of that moment; as long as no value is set, every tick of the
    interval shows the wall time of the tick; releasing the hand commits as
    [value] the time on display, which is the wall time of the last tick
    since the press, or that of the press when there was none.  An accepted
    click on the face commits the hour of the wall clock with the minute of
    the click and zero seconds. *)
Theorem legacy_pointer_takes_wall_time
  (wall1 wall2 : Time) (ticks : list Time) (hand : string) (angle : Q)
  (this : Clock) :
  JS.truthy_string (value this) = false -> hand <> EmptyString ->
  let shown := last ticks wall1 in
  let released :=
    Legacy._endDrag wall2
      (fold_left (fun c w => Legacy._animate w c) ticks
         (Legacy._startDrag wall1 hand this)) in
  value released
  = Some (formatTime (hours shown) (minutes shown) (Some (seconds shown))) /\
  _hours released = hours shown /\
  _minutes released = minutes shown /\
  _seconds released = seconds shown /\
  _draggingHand released = None /\
  (_isWithinBounds this
     (formatTime (hours wall1) (angleToUnits angle 6 60) (Some 0)) = true ->
   Legacy._handleFaceClick wall1 angle this
   = set_value (Some (formatTime (hours wall1) (angleToUnits angle 6 60) (Some 0)))
       (set_time (hours wall1) (angleToUnits angle 6 60) 0 this)).
Proof.
  intros Hnone Hhand. cbn zeta.
  assert (Hstart : Legacy._startDrag wall1 hand this
                   = set_time (hours wall1) (minutes wall1) (seconds wall1)
                       (set_draggingHand (Some hand) this)).
  { unfold Legacy._startDrag.
    change (value (set_draggingHand (Some hand) this)) with (value this).
    now rewrite Hnone. }
  rewrite Hstart, Legacy_ticks by exact Hnone.
  unfold Legacy._endDrag.
  assert (Ht : JS.truthy_string
                 (_draggingHand
                    (set_time (hours (last ticks wall1)) (minutes (last ticks wall1))
                       (seconds (last ticks wall1))
                       (set_draggingHand (Some hand) this))) = true)
    by (destruct hand; [contradiction | reflexivity]).
  rewrite Ht.
  repeat (split; [reflexivity |]).
  intros Hin. unfold Legacy._handleFaceClick. rewrite Hnone. cbn [negb].
  change (_hours (set_time (hours wall1) (_minutes this) (_seconds this) this))
    with (hours wall1).
  change (_isWithinBounds (set_time (hours wall1) (_minutes this) (_seconds this) this))
    with (_isWithinBounds this).
  rewrite Hin, Legacy_setTimeValue_eq. reflexivity.
Qed.

Lemma legacy_pointer_takes_wall_time_witness :
  value (Legacy._endDrag {| hours := 9; minutes := 0; seconds := 0 |}
           (fold_left (fun c w => Legacy._animate w c)
              [{| hours := 8; minutes := 30; seconds := 16 |};
               {| hours := 8; minutes := 30; seconds := 17 |}]
              (Legacy._startDrag {| hours := 8; minutes := 30; seconds := 15 |}
                 "hour" initial)))
  = Some "08:30:17".
Proof.
  refine (proj1 (legacy_pointer_takes_wall_time
                   {| hours := 8; minutes := 30; seconds := 15 |}
                   {| hours := 9; minutes := 0; seconds := 0 |}
                   [{| hours := 8; minutes := 30; seconds := 16 |};
                    {| hours := 8; minutes := 30; seconds := 17 |}]
                   "hour" 0 initial eq_refl _)).
  discriminate.
Defined.
